(** * Puzzle Correctness Core: balance-scale generator and price-puzzle validator

    A shallow embedding of

      - [src/Tilted-Scales/generate.py]: the three balance-puzzle strategies
        [easy_puzzle_proportional_equality], [easy_puzzle_weighted_equality]
        and [difficult_puzzle_weighted_equality], the helper
        [_pick_distinct], and the script around them: the command line, the
        batch of puzzles, the reading of the LLM's answer and the items
        written out;
      - [src/Writing-Equations/validate.py]: [validate_item] with its
        helpers [require], [is_int], [is_pos_int] and [norm],
        [dedupe_items] and the batch loop of [main];
      - [src/Writing-Equations/generate.py]: the cut of the JSON array out
        of the LLM's answer in [main], and the three worked examples of
        the prompt.

    Conventions.
      - Python [int] is [Z]; [str] is [string] (a sequence of 8-bit
        characters, UTF-8 for non-ASCII text such as the multiplication sign;
        case mapping, white space and digits are the ASCII ones).
      - [int(s)] reads a decimal literal of any length: the limit that
        Python puts on the number of digits is not modelled.
      - The [random] module is modelled by enumerating runs: a generator is the
        list of its possible runs, each run being the labelled sequence of
        random draws it made together with the value it returned.
      - A Python exception is an explicit [Raise] result.
      - The call of the LLM, files and printing are not modelled: what the
        LLM answered is an input. *)

From Stdlib Require Import ZArith QArith Qabs Qround String Ascii List Bool Lia Lqa DecimalString Sorted Permutation DecimalPos.
Import ListNotations.

Set Implicit Arguments.

Open Scope string_scope.
Open Scope Z_scope.

(** ** Python built-ins shared by both programs *)

Module Py.

(** [str(n)] for an [int]. *)
Definition str_of_int (z : Z) : string := NilZero.string_of_int (Z.to_int z).

(** [range(lo, hi)]. *)
Definition range (lo hi : Z) : list Z :=
  map (fun i => lo + Z.of_nat i) (seq 0 (Z.to_nat (hi - lo))).

End Py.

(** ** Balance puzzles: [src/Tilted-Scales/generate.py] *)

Module TiltedScales.
Import Py.

(** *** The random source *)

(** What a single call into [random] returned. *)
Inductive value : Type :=
| VInt (z : Z)
| VBool (b : bool)
| VInts (l : list Z)
| VSyms (l : list string).

(** The draws of one run, in program order, each under the name of the
    variable (or of the branch) it decides. *)
Definition trace : Type := list (string * value).

Fixpoint drawn (lbl : string) (tr : trace) : option value :=
  match tr with
  | [] => None
  | (l, v) :: rest => if String.eqb l lbl then Some v else drawn lbl rest
  end.

(** All runs of a randomised computation. An uncaught exception ends a run
    without a result, so it contributes no element. *)
Definition Gen (A : Type) : Type := list (trace * A).

Definition ret {A} (a : A) : Gen A := [([], a)].

Definition bind {A B} (m : Gen A) (f : A -> Gen B) : Gen B :=
  flat_map (fun '(t1, a) => map (fun '(t2, b) => ((t1 ++ t2)%list, b)) (f a)) m.

Definition raise {A} : Gen A := [].

Declare Scope gen_scope.
Delimit Scope gen_scope with gen.
Notation "x <- m ;; k" := (bind m (fun x => k))
  (at level 61, m at next level, right associativity) : gen_scope.
Open Scope gen_scope.

(** Lists whose samples can be written to the trace. *)
Class Loggable (A : Type) : Type := log_list : list A -> value.
#[export] Instance Loggable_Z : Loggable Z := VInts.
#[export] Instance Loggable_string : Loggable string := VSyms.

(** [random.randint(a, b)]: both ends included. *)
Definition randint (lbl : string) (a b : Z) : Gen Z :=
  map (fun v => ([(lbl, VInt v)], v)) (range a (b + 1)).

(** [random.choice(l)] on a list of integers. *)
Definition choice (lbl : string) (l : list Z) : Gen Z :=
  map (fun v => ([(lbl, VInt v)], v)) l.

(** [random.random() > 0.5]. *)
Definition random_gt_half (lbl : string) : Gen bool :=
  [([(lbl, VBool false)], false); ([(lbl, VBool true)], true)].

(** Every way to take one element out of a list, with what is left. *)
Fixpoint select {A} (l : list A) : list (A * list A) :=
  match l with
  | [] => []
  | x :: r => (x, r) :: map (fun '(y, r') => (y, x :: r')) (select r)
  end.

(** Every ordered choice of [n] elements at distinct positions. *)
Fixpoint arrangements {A} (n : nat) (l : list A) : list (list A) :=
  match n with
  | O => [[]]
  | S n' => flat_map (fun '(x, r) => map (cons x) (arrangements n' r)) (select l)
  end.

(** [random.sample(l, n)]. *)
Definition sample {A} `{Loggable A} (lbl : string) (l : list A) (n : nat) : Gen (list A) :=
  map (fun picked => ([(lbl, log_list picked)], picked)) (arrangements n l).

(** [l[i]]; an [IndexError] ends the run. *)
Definition item {A} (l : list A) (i : nat) : Gen A :=
  match nth_error l i with
  | Some x => ret x
  | None => raise
  end.

(** *** Globals and data *)

Definition SHAPES : list string := ["s"; "t"; "c"].

Definition _pick_distinct {A} `{Loggable A} (lbl : string) (vars_list : list A) (n : nat)
  : Gen (list A) :=
  sample lbl vars_list n.

(** A [dict] from shape symbol to coefficient, in insertion order. *)
Definition dict : Type := list (string * Z).

(** [d[k] = v]. *)
Fixpoint dict_set (k : string) (v : Z) (d : dict) : dict :=
  match d with
  | [] => [(k, v)]
  | (k', v') :: r => if String.eqb k' k then (k', v) :: r else (k', v') :: dict_set k v r
  end.


(** A dict display [{k1: v1, k2: v2, ...}]. *)
Definition dict_of (kvs : list (string * Z)) : dict :=
  fold_left (fun d kv => dict_set (fst kv) (snd kv) d) kvs [].

(** One pan: [{"shapes": {...}, "weight": w}]. *)
Record side : Type := mk_side { shapes : dict; weight : Z }.

Definition set_shape (k : string) (v : Z) (sd : side) : side :=
  {| shapes := dict_set k v (shapes sd); weight := weight sd |}.

Definition add_weight (w : Z) (sd : side) : side :=
  {| shapes := shapes sd; weight := weight sd + w |}.

Record equality : Type := mk_equality { eq_left : side; eq_right : side }.

(** The easy strategies store an ["op"] key; the difficult one does not. *)
Record inequality : Type :=
  mk_inequality { ineq_left : side; ineq_right : side; ineq_op : option string }.

(** The returned list [[equality, inequality_template, inequality, answer]]. *)
Record puzzle : Type := mk_puzzle {
  p_equality : equality;
  p_template : string;
  p_inequality : inequality;
  p_answer : list string
}.

(** *** The three strategies *)

(** Lines 40-94. *)
Definition easy_puzzle_proportional_equality : Gen puzzle :=
  shapes <- _pick_distinct "shapes" SHAPES 3 ;;
  X <- item shapes 0 ;;
  Y <- item shapes 1 ;;
  Z <- item shapes 2 ;;
  k1 <- randint "k1" 1 6 ;;
  let choices := filter (fun v => negb (v =? k1)) (range 1 7) in
  k2 <- choice "k2" choices ;;
  let k3 := 0 in
  let equality :=
    {| eq_left  := {| shapes := dict_of [(X, k1); (Y, 0); (Z, k3)]; weight := 0 |};
       eq_right := {| shapes := dict_of [(X, 0); (Y, k2); (Z, k3)]; weight := 0 |} |} in
  third <- random_gt_half "add_third" ;;
  equality <-
    (if third : bool then
       k3 <- randint "k3" 1 4 ;;
       ret {| eq_left := set_shape Z k3 (eq_left equality);
              eq_right := set_shape Z k3 (eq_right equality) |}
     else ret equality) ;;
  flip <- random_gt_half "op" ;;
  let op := if flip : bool then "<" else ">" in
  let inequality_template := "_" ++ op ++ "_" in
  let answer :=
    if k1 <? k2
    then (if String.eqb op "<" then [Y; X] else [X; Y])
    else (if String.eqb op "<" then [X; Y] else [Y; X]) in
  let inequality :=
    {| ineq_left  := {| shapes := dict_of [(X, 0); (Y, 0); (Z, 0)]; weight := 0 |};
       ineq_right := {| shapes := dict_of [(X, 0); (Y, 0); (Z, 0)]; weight := 0 |};
       ineq_op := Some op |} in
  a0 <- item answer 0 ;;
  a1 <- item answer 1 ;;
  let inequality :=
    {| ineq_left := set_shape a0 1 (ineq_left inequality);
       ineq_right := set_shape a1 1 (ineq_right inequality);
       ineq_op := ineq_op inequality |} in
  ret (mk_puzzle equality inequality_template inequality answer).

(** Lines 98-137. *)
Definition easy_puzzle_weighted_equality : Gen puzzle :=
  shapes <- _pick_distinct "shapes" SHAPES 3 ;;
  X <- item shapes 0 ;;
  Y <- item shapes 1 ;;
  Z <- item shapes 2 ;;
  w1 <- randint "w1" 1 6 ;;
  let choices := filter (fun v => negb (v =? w1)) (range 1 7) in
  w2 <- choice "w2" choices ;;
  k1 <- randint "k1" 1 4 ;;
  let equality :=
    {| eq_left  := {| shapes := dict_of [(X, k1); (Y, 0); (Z, 0)]; weight := w1 |};
       eq_right := {| shapes := dict_of [(X, 0); (Y, k1); (Z, 0)]; weight := w2 |} |} in
  flip <- random_gt_half "op" ;;
  let op := if flip : bool then "<" else ">" in
  let inequality_template := "_" ++ op ++ "_" in
  let answer :=
    if w1 <? w2
    then (if String.eqb op ">" then [X; Y] else [Y; X])
    else (if String.eqb op ">" then [Y; X] else [X; Y]) in
  let inequality :=
    {| ineq_left  := {| shapes := dict_of [(X, 0); (Y, 0); (Z, 0)]; weight := 0 |};
       ineq_right := {| shapes := dict_of [(X, 0); (Y, 0); (Z, 0)]; weight := 0 |};
       ineq_op := Some op |} in
  a0 <- item answer 0 ;;
  a1 <- item answer 1 ;;
  let inequality :=
    {| ineq_left := set_shape a0 1 (ineq_left inequality);
       ineq_right := set_shape a1 1 (ineq_right inequality);
       ineq_op := ineq_op inequality |} in
  ret (mk_puzzle equality inequality_template inequality answer).

(** [int(x)] on a number: truncation toward zero. *)
Definition int_of_Q (q : Q) : Z := Z.quot (Qnum q) (Zpos (Qden q)).

(** [math.floor], which the specification uses to describe the gap. *)
Definition floor_Q (q : Q) : Z := Qfloor q.

(** Line 163, [d = (weights[1] - weights[0]) / k1]. Python divides two
    integers into a float; here the quotient is the exact rational. On every
    run the dividend is a multiple of [k1] below 2^53 in magnitude, so the
    correctly rounded float quotient is that same number. *)
Definition true_div (a b : Z) : Q := inject_Z a / inject_Z b.

Definition Qpositive (q : Q) : bool := negb (Qle_bool q 0).

(** Lines 143-199. *)
Definition difficult_puzzle_weighted_equality : Gen puzzle :=
  shapes <- _pick_distinct "shapes" SHAPES 3 ;;
  X <- item shapes 0 ;;
  Y <- item shapes 1 ;;
  Z <- item shapes 2 ;;
  k1 <- randint "k1" 1 3 ;;
  w <- randint "w" 1 4 ;;
  w_offset <- randint "w_offset" 2 4 ;;
  let weights := [k1 * w; k1 * (w + w_offset)] in
  weights <- _pick_distinct "weights" weights 2 ;;
  weights0 <- item weights 0 ;;
  weights1 <- item weights 1 ;;
  let equality :=
    {| eq_left  := {| shapes := dict_of [(X, k1); (Y, 0); (Z, 0)]; weight := weights0 |};
       eq_right := {| shapes := dict_of [(X, 0); (Y, k1); (Z, 0)]; weight := weights1 |} |} in
  let d := true_div (weights1 - weights0) k1 in
  let inequality_weight := int_of_Q (Qabs d - 1) in
  let inequality_template := "_>_+" ++ str_of_int inequality_weight in
  let inequality :=
    {| ineq_left  := {| shapes := dict_of [(X, 0); (Y, 0); (Z, 0)]; weight := 0 |};
       ineq_right := {| shapes := dict_of [(X, 0); (Y, 0); (Z, 0)];
                        weight := inequality_weight |};
       ineq_op := None |} in
  let answer := if Qpositive d then [X; Y] else [Y; X] in
  a0 <- item answer 0 ;;
  a1 <- item answer 1 ;;
  let inequality :=
    {| ineq_left := set_shape a0 1 (ineq_left inequality);
       ineq_right := set_shape a1 1 (ineq_right inequality);
       ineq_op := ineq_op inequality |} in
  harder <- random_gt_half "increase_difficulty" ;;
  if harder : bool then
    let inequality :=
      {| ineq_left := set_shape Z 1 (ineq_left inequality);
         ineq_right := set_shape Z 1 (ineq_right inequality);
         ineq_op := ineq_op inequality |} in
    weight_offset <- randint "weight_offset" 1 5 ;;
    let inequality :=
      {| ineq_left := add_weight weight_offset (ineq_left inequality);
         ineq_right := add_weight weight_offset (ineq_right inequality);
         ineq_op := ineq_op inequality |} in
    let inequality_template :=
      "_+" ++ Z ++ "+" ++ str_of_int weight_offset ++ ">_+" ++ Z ++ "+"
           ++ str_of_int (inequality_weight + weight_offset) in
    ret (mk_puzzle equality inequality_template inequality answer)
  else
    ret (mk_puzzle equality inequality_template inequality answer).

(** *** What a puzzle means *)

(** An assignment of a weight to every shape symbol. *)
Definition weights : Type := string -> Q.

Definition positive_weights (wt : weights) : Prop :=
  forall sh, In sh SHAPES -> (0 < wt sh)%Q.

(** Total weight on one pan. *)
Definition side_total (wt : weights) (sd : side) : Q :=
  (fold_right (fun kv acc => inject_Z (snd kv) * wt (fst kv) + acc) 0 (shapes sd)
   + inject_Z (weight sd))%Q.

Definition balanced (wt : weights) (e : equality) : Prop :=
  (side_total wt (eq_left e) == side_total wt (eq_right e))%Q.

(** [a op b] for the two operators the generator writes. *)
Definition compare (op : string) (a b : Q) : Prop :=
  if String.eqb op ">" then (b < a)%Q
  else if String.eqb op "<" then (a < b)%Q
  else False.

Definition inequality_holds (wt : weights) (op : string) (i : inequality) : Prop :=
  compare op (side_total wt (ineq_left i)) (side_total wt (ineq_right i)).

(** Filling the blanks of a template, left to right. *)
Fixpoint fill (template : string) (syms : list string) : string :=
  match template with
  | EmptyString => EmptyString
  | String ch rest =>
      if Ascii.eqb ch "_"
      then match syms with
           | a :: syms' => a ++ fill rest syms'
           | [] => String ch (fill rest [])
           end
      else String ch (fill rest syms)
  end.

(** Reading a filled template such as [s+c+3>t+c+5] back as a statement. *)
Fixpoint split_on (sep : ascii) (str : string) : list string :=
  match str with
  | EmptyString => [EmptyString]
  | String ch rest =>
      let pieces := split_on sep rest in
      if Ascii.eqb ch sep then EmptyString :: pieces
      else match pieces with
           | piece :: more => String ch piece :: more
           | [] => [String ch EmptyString]
           end
  end.

Inductive term : Type :=
| TShape (sym : string)
| TNum (n : Z).

Definition parse_term (str : string) : option term :=
  if existsb (String.eqb str) SHAPES then Some (TShape str)
  else option_map (fun u => TNum (Z.of_uint u)) (NilZero.uint_of_string str).

Fixpoint parse_terms (pieces : list string) : option (list term) :=
  match pieces with
  | [] => Some []
  | piece :: more =>
      match parse_term piece, parse_terms more with
      | Some tm, Some tms => Some (tm :: tms)
      | _, _ => None
      end
  end.

Record statement : Type :=
  mk_statement { st_left : list term; st_op : string; st_right : list term }.

Definition parse_sides (op : string) (l r : string) : option statement :=
  match parse_terms (split_on "+" l), parse_terms (split_on "+" r) with
  | Some tl, Some tr => Some (mk_statement tl op tr)
  | _, _ => None
  end.

Definition parse_statement (str : string) : option statement :=
  match split_on ">" str with
  | [l; r] => parse_sides ">" l r
  | _ => match split_on "<" str with
         | [l; r] => parse_sides "<" l r
         | _ => None
         end
  end.

Definition term_value (wt : weights) (tm : term) : Q :=
  match tm with
  | TShape sym => wt sym
  | TNum n => inject_Z n
  end.

Definition sum_value (wt : weights) (tms : list term) : Q :=
  fold_right (fun tm acc => (term_value wt tm + acc)%Q) 0%Q tms.

Definition statement_true (wt : weights) (st : statement) : Prop :=
  compare (st_op st) (sum_value wt (st_left st)) (sum_value wt (st_right st)).

(** The stored answer, written into the blanks of the stored template, reads
    as a true statement. *)
Definition answer_fits (wt : weights) (p : puzzle) : Prop :=
  match parse_statement (fill (p_template p) (p_answer p)) with
  | Some st => statement_true wt st
  | None => False
  end.

(** *** A difficult run in closed form *)

Definition zero_pan (w : Z) (X Y Z : string) : side :=
  {| shapes := dict_of [(X, 0); (Y, 0); (Z, 0)]; weight := w |}.

(** The puzzle a difficult run returns, as a function of what it drew:
    [w0], [w1] are the sampled side weights, [off] is [w_offset] and [esc]
    the extra offset of the harder variant, if that branch was taken. *)
Definition difficult_outcome (k w0 w1 off : Z) (esc : option Z) (X Y Z : string) : puzzle :=
  let gap := off - 1 in
  let a0 := if w0 <? w1 then X else Y in
  let a1 := if w0 <? w1 then Y else X in
  let bl := set_shape a0 1 (zero_pan 0 X Y Z) in
  let br := set_shape a1 1 (zero_pan gap X Y Z) in
  {| p_equality :=
       {| eq_left := {| shapes := dict_of [(X, k); (Y, 0); (Z, 0)]; weight := w0 |};
          eq_right := {| shapes := dict_of [(X, 0); (Y, k); (Z, 0)]; weight := w1 |} |};
     p_template :=
       match esc with
       | None => "_>_+" ++ str_of_int gap
       | Some o => "_+" ++ Z ++ "+" ++ str_of_int o ++ ">_+" ++ Z ++ "+" ++ str_of_int (gap + o)
       end;
     p_inequality :=
       match esc with
       | None => {| ineq_left := bl; ineq_right := br; ineq_op := None |}
       | Some o => {| ineq_left := add_weight o (set_shape Z 1 bl);
                      ineq_right := add_weight o (set_shape Z 1 br);
                      ineq_op := None |}
       end;
     p_answer := [a0; a1] |}.

Definition difficult_trace (k w w0 w1 off : Z) (esc : option Z) (X Y Z : string) : trace :=
  ([("shapes", VSyms [X; Y; Z]); ("k1", VInt k); ("w", VInt w); ("w_offset", VInt off);
    ("weights", VInts [w0; w1])] ++
   match esc with
   | None => [("increase_difficulty", VBool false)]
   | Some o => [("increase_difficulty", VBool true); ("weight_offset", VInt o)]
   end)%list.


(** *** Sample runs *)

(** [s, t, c] sampled in that order, [k1 = 1], [k2 = 2], shared term [3c],
    operator [<]. *)
Definition proportional_example : trace * puzzle :=
  ([("shapes", VSyms ["s"; "t"; "c"]); ("k1", VInt 1); ("k2", VInt 2);
    ("add_third", VBool true); ("k3", VInt 3); ("op", VBool true)],
   {| p_equality :=
        {| eq_left := {| shapes := [("s", 1); ("t", 0); ("c", 3)]; weight := 0 |};
           eq_right := {| shapes := [("s", 0); ("t", 2); ("c", 3)]; weight := 0 |} |};
      p_template := "_<_";
      p_inequality :=
        {| ineq_left := {| shapes := [("s", 0); ("t", 1); ("c", 0)]; weight := 0 |};
           ineq_right := {| shapes := [("s", 1); ("t", 0); ("c", 0)]; weight := 0 |};
           ineq_op := Some "<" |};
      p_answer := ["t"; "s"] |}).

(** Weights with [s = 2 t], which balance [proportional_example]. *)
Definition proportional_weights : weights :=
  fun sh => if String.eqb sh "s" then 2%Q else 1%Q.

(** [2 s + 1 = 2 t + 3], operator [>]. *)
Definition weighted_example : trace * puzzle :=
  ([("shapes", VSyms ["s"; "t"; "c"]); ("w1", VInt 1); ("w2", VInt 3);
    ("k1", VInt 2); ("op", VBool false)],
   {| p_equality :=
        {| eq_left := {| shapes := [("s", 2); ("t", 0); ("c", 0)]; weight := 1 |};
           eq_right := {| shapes := [("s", 0); ("t", 2); ("c", 0)]; weight := 3 |} |};
      p_template := "_>_";
      p_inequality :=
        {| ineq_left := {| shapes := [("s", 1); ("t", 0); ("c", 0)]; weight := 0 |};
           ineq_right := {| shapes := [("s", 0); ("t", 1); ("c", 0)]; weight := 0 |};
           ineq_op := Some ">" |};
      p_answer := ["s"; "t"] |}).

(** Weights with [s = t + 1], which balance [weighted_example]. *)
Definition weighted_weights : weights :=
  fun sh => if String.eqb sh "s" then 2%Q else 1%Q.

(** A difficult run that takes the harder branch: [s + 3 = t + 1], extra
    offset 1. *)
Definition escalated_example : trace * puzzle :=
  ([("shapes", VSyms ["s"; "t"; "c"]); ("k1", VInt 1); ("w", VInt 1);
    ("w_offset", VInt 2); ("weights", VInts [3; 1]);
    ("increase_difficulty", VBool true); ("weight_offset", VInt 1)],
   {| p_equality :=
        {| eq_left := {| shapes := [("s", 1); ("t", 0); ("c", 0)]; weight := 3 |};
           eq_right := {| shapes := [("s", 0); ("t", 1); ("c", 0)]; weight := 1 |} |};
      p_template := "_+c+1>_+c+2";
      p_inequality :=
        {| ineq_left := {| shapes := [("s", 0); ("t", 1); ("c", 1)]; weight := 1 |};
           ineq_right := {| shapes := [("s", 1); ("t", 0); ("c", 1)]; weight := 2 |};
           ineq_op := None |};
      p_answer := ["t"; "s"] |}).

(** Weights with [t = s + 2], which balance [escalated_example]. *)
Definition escalated_weights : weights :=
  fun sh => if String.eqb sh "t" then 3%Q else 1%Q.

End TiltedScales.

(** ** Price puzzles: [src/Writing-Equations/validate.py] *)

Module WritingEquations.
Import Py.

(** *** Values read from a JSON document *)

(** What [json.loads] returns, for documents whose number literals are all
    integers (a literal with a fraction or an exponent becomes a [float],
    which is not modelled). An object lists each key once, in document
    order. *)
#[local] Set Warnings "-register-all".
Inductive json : Type :=
| JNull
| JBool (b : bool)
| JInt (z : Z)
| JStr (s : string)
| JList (l : list json)
| JDict (d : list (string * json)).

Inductive exn : Type :=
| TypeError
| AttributeError
| KeyError
| IndexError
| ValueError.

(** The outcome of evaluating an expression: a value, or an exception. *)
Inductive result (A : Type) : Type :=
| Ok (a : A)
| Raise (e : exn).
Arguments Ok {A} a.
Arguments Raise {A} e.

Definition rbind {A B} (r : result A) (f : A -> result B) : result B :=
  match r with
  | Ok a => f a
  | Raise e => Raise e
  end.

(** [a and b], [a or b]: the right operand is evaluated only when needed. *)
Definition and_then (a b : result bool) : result bool :=
  rbind a (fun x => if x then b else Ok false).

Definition or_else (a b : result bool) : result bool :=
  rbind a (fun x => if x then Ok true else b).

(** *** Strings *)

Definition is_space (c : ascii) : bool :=
  let n := nat_of_ascii c in
  ((9 <=? n) && (n <=? 13) || (28 <=? n) && (n <=? 32))%nat.

Fixpoint lstrip (s : string) : string :=
  match s with
  | EmptyString => EmptyString
  | String c r => if is_space c then lstrip r else s
  end.

Definition rev_string (s : string) : string :=
  string_of_list_ascii (rev (list_ascii_of_string s)).

(** [s.strip()]. *)
Definition strip (s : string) : string :=
  rev_string (lstrip (rev_string (lstrip s))).

Definition lower_ascii (c : ascii) : ascii :=
  let n := nat_of_ascii c in
  if ((65 <=? n) && (n <=? 90))%nat then ascii_of_nat (n + 32) else c.

(** [s.lower()]. *)
Fixpoint lower (s : string) : string :=
  match s with
  | EmptyString => EmptyString
  | String c r => String (lower_ascii c) (lower r)
  end.

(** [s.startswith(p)]. *)
Definition startswith (s p : string) : bool := prefix p s.

(** [s.endswith(p)]. *)
Definition endswith (s p : string) : bool := prefix (rev_string p) (rev_string s).

(** [sub in s]. *)
Fixpoint contains (s sub : string) : bool :=
  prefix sub s ||
  match s with
  | EmptyString => false
  | String _ r => contains r sub
  end.

Fixpoint join (sep : string) (l : list string) : string :=
  match l with
  | [] => ""
  | [x] => x
  | x :: r => x ++ sep ++ join sep r
  end.

Fixpoint repeat_string (n : nat) (s : string) : string :=
  match n with
  | O => ""
  | S n' => s ++ repeat_string n' s
  end.

(** *** Built-in operations on values *)

(** Truth value of an object. *)
Definition truthy (v : json) : bool :=
  match v with
  | JNull => false
  | JBool b => b
  | JInt z => negb (z =? 0)
  | JStr s => negb (String.eqb s "")
  | JList l => match l with [] => false | _ => true end
  | JDict d => match d with [] => false | _ => true end
  end.

(** [bool] is a subclass of [int]: as a number, [True] is 1 and [False] 0. *)
Definition as_number (v : json) : option Z :=
  match v with
  | JInt z => Some z
  | JBool b => Some (if b then 1 else 0)
  | _ => None
  end.

Fixpoint lookup {A} (k : string) (d : list (string * A)) : option A :=
  match d with
  | [] => None
  | (k', v) :: r => if String.eqb k' k then Some v else lookup k r
  end.

(** [a == b]. *)
Fixpoint py_eq (a b : json) {struct a} : bool :=
  match a, b with
  | JNull, JNull => true
  | JStr s, JStr t => String.eqb s t
  | JList l1, JList l2 =>
      (fix list_eq (l1 l2 : list json) {struct l1} : bool :=
         match l1, l2 with
         | [], [] => true
         | x :: r1, y :: r2 => py_eq x y && list_eq r1 r2
         | _, _ => false
         end) l1 l2
  | JDict d1, JDict d2 =>
      (length d1 =? length d2)%nat &&
      (fix all_in (d : list (string * json)) {struct d} : bool :=
         match d with
         | [] => true
         | (k, v) :: r =>
             match lookup k d2 with
             | Some v' => py_eq v v'
             | None => false
             end && all_in r
         end) d1
  | (JInt _ | JBool _), (JInt _ | JBool _) =>
      match as_number a, as_number b with
      | Some x, Some y => x =? y
      | _, _ => false
      end
  | _, _ => false
  end.

(** [def is_int(x)], [def is_pos_int(x)]. *)
Definition is_int (x : json) : bool :=
  match x with
  | JInt _ => true
  | _ => false
  end.

Definition is_pos_int (x : json) : bool :=
  match x with
  | JInt z => 0 <? z
  | _ => false
  end.

(** [isinstance(x, list)]. *)
Definition is_list (x : json) : bool :=
  match x with
  | JList _ => true
  | _ => false
  end.

Definition hex_digit (n : nat) : ascii :=
  ascii_of_nat (if (n <? 10)%nat then 48 + n else 87 + n).

(** One character inside [repr] of a string quoted with [quote]. *)
Definition repr_char (quote c : ascii) : string :=
  let n := nat_of_ascii c in
  if Ascii.eqb c "\" then "\\"
  else if Ascii.eqb c quote then String "\" (String c "")
  else if (n =? 10)%nat then "\n"
  else if (n =? 13)%nat then "\r"
  else if (n =? 9)%nat then "\t"
  else if ((n <? 32) || (n =? 127))%nat
       then String "\" (String "x" (String (hex_digit (n / 16)) (String (hex_digit (n mod 16)) "")))
  else String c "".

(** [repr(s)] for a string: single quotes, unless the text has a single
    quote and no double quote. *)
Definition repr_str (s : string) : string :=
  let quote : ascii :=
    if contains s "'" && negb (contains s (String (ascii_of_nat 34) ""))
    then ascii_of_nat 34 else "'"%char in
  String quote
    (fold_right (fun c acc => repr_char quote c ++ acc) (String quote "")
       (list_ascii_of_string s)).

(** [repr(v)]. *)
Fixpoint py_repr (v : json) : string :=
  match v with
  | JNull => "None"
  | JBool b => if b then "True" else "False"
  | JInt z => str_of_int z
  | JStr s => repr_str s
  | JList l => "[" ++ join ", " (map py_repr l) ++ "]"
  | JDict d =>
      "{" ++ join ", "
               ((fix entries (d : list (string * json)) : list string :=
                   match d with
                   | [] => []
                   | (k, x) :: r => (repr_str k ++ ": " ++ py_repr x) :: entries r
                   end) d)
          ++ "}"
  end.

(** [str(v)], also what an f-string field and [format] produce. *)
Definition py_str (v : json) : string :=
  match v with
  | JStr s => s
  | _ => py_repr v
  end.

(** [obj.get(k, default)]: only a [dict] has the method. *)
Definition py_get (obj : json) (k : string) (default : json) : result json :=
  match obj with
  | JDict d => Ok (match lookup k d with Some v => v | None => default end)
  | _ => Raise AttributeError
  end.

(** [obj[k]] for a string key. *)
Definition py_getitem (obj : json) (k : string) : result json :=
  match obj with
  | JDict d => match lookup k d with Some v => Ok v | None => Raise KeyError end
  | _ => Raise TypeError
  end.

(** [k in obj] for a string [k]. *)
Definition py_in (k : string) (obj : json) : result bool :=
  match obj with
  | JDict d => Ok (match lookup k d with Some _ => true | None => false end)
  | JList l => Ok (existsb (fun x => py_eq x (JStr k)) l)
  | JStr s => Ok (contains s k)
  | _ => Raise TypeError
  end.

(** [len(obj)]. *)
Definition py_len (obj : json) : result Z :=
  match obj with
  | JList l => Ok (Z.of_nat (length l))
  | JStr s => Ok (Z.of_nat (String.length s))
  | JDict d => Ok (Z.of_nat (length d))
  | _ => Raise TypeError
  end.

(** What [for x in obj] visits. *)
Definition py_iter (obj : json) : result (list json) :=
  match obj with
  | JList l => Ok l
  | JStr s => Ok (map (fun c => JStr (String c "")) (list_ascii_of_string s))
  | JDict d => Ok (map (fun kv => JStr (fst kv)) d)
  | _ => Raise TypeError
  end.

(** [a * b]: product of numbers, repetition of a sequence. Running out of
    memory on a huge repetition count is not modelled. *)
Definition py_mul (a b : json) : result json :=
  match as_number a, as_number b with
  | Some x, Some y => Ok (JInt (x * y))
  | Some n, None =>
      match b with
      | JStr s => Ok (JStr (repeat_string (Z.to_nat n) s))
      | JList l => Ok (JList (concat (repeat l (Z.to_nat n))))
      | _ => Raise TypeError
      end
  | None, Some n =>
      match a with
      | JStr s => Ok (JStr (repeat_string (Z.to_nat n) s))
      | JList l => Ok (JList (concat (repeat l (Z.to_nat n))))
      | _ => Raise TypeError
      end
  | None, None => Raise TypeError
  end.

(** [hash(v)] succeeds, as a [set] member or a [dict] key needs. *)
Definition hashable (v : json) : bool :=
  match v with
  | JList _ | JDict _ => false
  | _ => true
  end.

(** [v in seen] for a [set]. *)
Definition set_member (v : json) (seen : list json) : result bool :=
  if hashable v then Ok (existsb (py_eq v) seen) else Raise TypeError.

(** [def norm(s): return (s or "").strip()]. *)
Definition norm (s : json) : result string :=
  if truthy s then
    match s with
    | JStr x => Ok (strip x)
    | _ => Raise AttributeError
    end
  else Ok "".

(** *** The accumulator of violations *)

(** A computation that may append to [errs] and may raise. *)
Definition V (A : Type) : Type := list string -> result (A * list string).

Definition vret {A} (a : A) : V A := fun errs => Ok (a, errs).

Definition vbind {A B} (m : V A) (f : A -> V B) : V B :=
  fun errs =>
    match m errs with
    | Ok (a, errs') => f a errs'
    | Raise e => Raise e
    end.

(** Evaluating an expression that does not touch [errs]. *)
Definition lift {A} (r : result A) : V A :=
  fun errs =>
    match r with
    | Ok a => Ok (a, errs)
    | Raise e => Raise e
    end.

Declare Scope v_scope.
Delimit Scope v_scope with v.
Notation "x <- m ;; k" := (vbind m (fun x => k))
  (at level 61, m at next level, right associativity) : v_scope.
Notation "m ;;; k" := (vbind m (fun _ => k))
  (at level 61, right associativity) : v_scope.

(** [def require(cond, errors, msg)], once [cond] has its value. *)
Definition require (cond : bool) (msg : string) : V bool :=
  fun errs => Ok (cond, if cond then errs else (errs ++ [msg])%list).

(** [require(<cond>, errs, msg)] where evaluating [<cond>] may raise. *)
Definition check (cond : result bool) (msg : string) : V unit :=
  vbind (lift cond) (fun c => vbind (require c msg) (fun _ => vret tt)).

(** [for x in l: body(x)]. *)
Fixpoint for_each {A} (l : list A) (body : A -> V unit) : V unit :=
  match l with
  | [] => vret tt
  | x :: r => vbind (body x) (fun _ => for_each r body)
  end.

(** [any(p(x) for x in l)]: stops at the first true value. *)
Fixpoint py_any {A} (p : A -> result bool) (l : list A) : result bool :=
  match l with
  | [] => Ok false
  | x :: r => or_else (p x) (py_any p r)
  end.

(** *** Constants *)

Definition REQ_ROOT_KEYS : list string :=
  ["id"; "stem"; "table"; "graph"; "equation_template"; "tokens"; "answers"; "explanation"].

(** [x_var: (x_name, x_unit, x_unit_label)]. *)
Definition MODES : list (string * (string * string * string)) :=
  [("w", ("weight", "kg", "kg"));
   ("v", ("volume", "L", "L"));
   ("n", ("items", "pcs", "pc"))].

(** *** [validate_item], section by section *)

(** [norm(obj.get(k, ""))]. *)
Definition norm_get (obj : json) (k : string) : result string :=
  rbind (py_get obj k (JStr "")) norm.

(** The local variables of section 2 that later sections read. *)
Record context : Type := mk_context {
  ctx : json;
  x_var : string;
  x_name : string;
  x_unit : string;
  x_ulab : string;
  slope_m : json
}.

Definition int_in (lo hi : Z) (v : json) : bool :=
  match v with
  | JInt z => (lo <=? z) && (z <=? hi)
  | _ => false
  end.

Open Scope v_scope.

(** Lines 60-90: context and prompt. *)
Definition check_context (item : json) : V context :=
  stem <- lift (py_getitem item "stem") ;;
  ctx <- lift (py_get stem "context" (JDict [])) ;;
  y_var <- lift (norm_get ctx "y_var") ;;
  y_name <- lift (norm_get ctx "y_name") ;;
  y_unit <- lift (norm_get ctx "y_unit") ;;
  x_var <- lift (norm_get ctx "x_var") ;;
  x_name <- lift (norm_get ctx "x_name") ;;
  x_unit <- lift (norm_get ctx "x_unit") ;;
  x_ulab <- lift (norm_get ctx "x_unit_label") ;;
  item_nm <- lift (norm_get ctx "item_name") ;;
  slope_m <- lift (py_get ctx "slope_m" JNull) ;;
  require (String.eqb y_var "p") "y_var must be 'p'" ;;;
  require (String.eqb (lower y_name) "price") "y_name must be 'price'" ;;;
  require (String.eqb y_unit "$") "y_unit must be '$'" ;;;
  require (match lookup x_var MODES with Some _ => true | None => false end)
          "x_var must be one of ['w', 'v', 'n']" ;;;
  match lookup x_var MODES with
  | Some (exp_name, exp_unit, exp_lab) =>
      require (String.eqb (lower x_name) exp_name) ("x_name must be '" ++ exp_name ++ "'") ;;;
      require (String.eqb x_unit exp_unit) ("x_unit must be '" ++ exp_unit ++ "'") ;;;
      require (String.eqb x_ulab exp_lab) ("x_unit_label must be '" ++ exp_lab ++ "'") ;;;
      vret tt
  | None => vret tt
  end ;;;
  require (negb (String.eqb item_nm "")) "item_name empty" ;;;
  require (int_in 1 20 slope_m) "slope_m must be int in [1..20]" ;;;
  prompt_text <- lift (norm_get stem "prompt_text") ;;
  require (contains prompt_text "p" || contains (lower prompt_text) "price")
          "prompt must reference price/p" ;;;
  require (contains prompt_text x_var || contains (lower prompt_text) x_name)
          "prompt must reference x_var/x_name" ;;;
  require (contains prompt_text "$") "prompt should mention currency '$'" ;;;
  require (contains (lower prompt_text) (lower item_nm)) "prompt should mention item_name" ;;;
  vret (mk_context ctx x_var x_name x_unit x_ulab slope_m).

(** [table.get(row, {}).get("value", None)] and
    [norm(table.get(row, {}).get("display", ""))]. *)
Definition row_value (table : json) (row : string) : result json :=
  rbind (py_get table row (JDict [])) (fun r => py_get r "value" JNull).

Definition row_display (table : json) (row : string) : result string :=
  rbind (py_get table row (JDict [])) (fun r => norm_get r "display").

(** Lines 92-110: table. *)
Definition check_table (item : json) (c : context) : V unit :=
  table <- lift (py_getitem item "table") ;;
  up_val <- lift (row_value table "unit_price") ;;
  up_disp <- lift (row_display table "unit_price") ;;
  amt_val <- lift (row_value table "amount") ;;
  amt_disp <- lift (row_display table "amount") ;;
  tot_val <- lift (row_value table "total") ;;
  tot_disp <- lift (row_display table "total") ;;
  check (Ok (is_pos_int up_val && py_eq up_val (slope_m c)))
        "unit_price.value must equal slope_m" ;;;
  check (Ok (startswith up_disp "$" && contains up_disp ("/" ++ x_ulab c)
             && contains up_disp (py_str (slope_m c))))
        "unit_price.display must include '$', slope_m, and '/{x_unit_label}'" ;;;
  check (Ok (is_pos_int amt_val && int_in 1 10 amt_val)) "amount.value must be 1..10" ;;;
  check (Ok (endswith amt_disp (" " ++ x_unit c) && contains amt_disp (py_str amt_val)))
        "amount.display must be '<amount> {x_unit}'" ;;;
  check (and_then (Ok (is_pos_int tot_val))
                  (rbind (py_mul (slope_m c) amt_val) (fun m => Ok (py_eq tot_val m))))
        "total.value must equal slope_m * amount.value" ;;;
  check (Ok (startswith tot_disp "$" && contains tot_disp (py_str tot_val)))
        "total.display must start with '$' and include total value" ;;;
  vret tt.

(** [inc_pos] on a list: every entry is a positive [int] above the one
    before it. [all] stops at the first entry that fails, so the comparison
    only ever sees two integers. *)
Fixpoint inc_pos_list (prev : option Z) (l : list json) : bool :=
  match l with
  | [] => true
  | JInt z :: r =>
      (0 <? z) && match prev with Some p => p <? z | None => true end
      && inc_pos_list (Some z) r
  | _ :: _ => false
  end.

(** [def inc_pos(seq)], lines 125-126. A non-empty string fails at its first
    character; indexing a non-empty [dict] by 0 raises [KeyError]. *)
Definition inc_pos (seq : json) : result bool :=
  match seq with
  | JList l => Ok (inc_pos_list None l)
  | JStr s => Ok (String.eqb s "")
  | JDict d => match d with [] => Ok true | _ => Raise KeyError end
  | _ => Raise TypeError
  end.

(** [def pt_ok(p)], line 136. *)
Definition pt_ok (slope_m p : json) : result bool :=
  match p with
  | JList [JInt x; JInt y] => rbind (py_mul slope_m (JInt x)) (fun m => Ok (py_eq (JInt y) m))
  | _ => Ok false
  end.

Definition len_is (n : Z) (v : json) : result bool :=
  rbind (py_len v) (fun k => Ok (k =? n)).

(** Lines 112-137: graph. *)
Definition check_graph (item : json) (c : context) : V unit :=
  graph <- lift (py_getitem item "graph") ;;
  xaxis <- lift (py_get graph "x_axis" (JDict [])) ;;
  yaxis <- lift (py_get graph "y_axis" (JDict [])) ;;
  x_ticks <- lift (py_get xaxis "ticks" (JList [])) ;;
  y_ticks <- lift (py_get yaxis "ticks" (JList [])) ;;
  x_label <- lift (norm_get xaxis "label") ;;
  require (String.eqb (lower x_label) (lower (x_name c ++ " (" ++ x_unit c ++ ")")))
          "x_axis.label must match '{x_name} ({x_unit})'" ;;;
  y_label <- lift (norm_get yaxis "label") ;;
  require (String.eqb (lower y_label) "price ($)") "y_axis.label must be 'price ($)'" ;;;
  check (and_then (Ok (is_list x_ticks)) (len_is 5 x_ticks)) "x_ticks must be length 5" ;;;
  check (and_then (Ok (is_list y_ticks)) (len_is 5 y_ticks)) "y_ticks must be length 5" ;;;
  both5 <- lift (and_then (len_is 5 x_ticks) (len_is 5 y_ticks)) ;;
  (if both5 : bool then
     check (inc_pos x_ticks) "x_ticks must be positive increasing integers" ;;;
     check (inc_pos y_ticks) "y_ticks must be positive increasing integers" ;;;
     xs <- lift (py_iter x_ticks) ;;
     ys <- lift (py_iter y_ticks) ;;
     for_each (combine xs ys) (fun xy =>
       check (rbind (py_mul (slope_m c) (fst xy)) (fun m => Ok (py_eq (snd xy) m)))
             "y_ticks must equal slope_m * x_ticks")
   else vret tt) ;;;
  line_pts <- lift (py_get graph "line_points" (JList [])) ;;
  check (and_then (Ok (is_list line_pts)) (len_is 2 line_pts))
        "line_points must have exactly 2 points" ;;;
  two <- lift (len_is 2 line_pts) ;;
  (if two : bool then
     pts <- lift (py_iter line_pts) ;;
     match pts with
     | [p1; p2] =>
         check (and_then (pt_ok (slope_m c) p1)
                  (and_then (pt_ok (slope_m c) p2) (Ok (negb (py_eq p1 p2)))))
               "line_points must lie on p=m*x and be distinct"
     | _ => vret tt
     end
   else vret tt).

(** [t.get("type") == ty and t.get("label") == lbl]. *)
Definition token_is (ty : string) (lbl : string) (t : json) : result bool :=
  and_then (rbind (py_get t "type" JNull) (fun x => Ok (py_eq x (JStr ty))))
           (rbind (py_get t "label" JNull) (fun x => Ok (py_eq x (JStr lbl)))).

(** The body of the loop of lines 151-158; [seen] is [seen_labels]. *)
Fixpoint check_token_labels (slope_m : json) (seen : list json) (tokens : list json) : V unit :=
  match tokens with
  | [] => vret tt
  | t :: rest =>
      lbl <- lift (py_get t "label" (JStr "")) ;;
      check (rbind (set_member lbl seen) (fun b => Ok (negb b)))
            "duplicate token label not allowed" ;;;
      distractor <- lift (and_then
        (rbind (py_get t "type" JNull) (fun x => Ok (py_eq x (JStr "const"))))
        (rbind (py_get t "label" JNull) (fun x => Ok (negb (py_eq x (JStr (py_str slope_m))))))) ;;
      (if distractor : bool then
         v <- lift (py_get t "value" JNull) ;;
         require (int_in 1 20 v && negb (py_eq v slope_m))
                 "distractor const must be 1..20 and != slope_m" ;;;
         vret tt
       else vret tt) ;;;
      check_token_labels slope_m (lbl :: seen) rest
  end.

(** Lines 139-158: equation template and tokens. Returns [eq_tmpl] and
    [tokens]. *)
Definition check_tokens (item : json) (c : context) : V (string * json) :=
  eq_tmpl <- lift (norm_get item "equation_template") ;;
  require (String.eqb eq_tmpl "_ = _ * _" || String.eqb eq_tmpl "_ * _ = _")
          "equation_template must be '_ = _ * _' or '_ * _ = _'" ;;;
  tokens <- lift (py_get item "tokens" (JList [])) ;;
  check (and_then (Ok (is_list tokens))
           (rbind (py_len tokens) (fun n => Ok ((3 <=? n) && (n <=? 5)))))
        "tokens must have 3..5 entries" ;;;
  match tokens with
  | JList ts =>
      has_p <- lift (py_any (token_is "var" "p") ts) ;;
      has_x <- lift (py_any (token_is "var" (x_var c)) ts) ;;
      has_m <- lift (py_any (fun t =>
                 and_then (token_is "const" (py_str (slope_m c)) t)
                          (rbind (py_get t "value" JNull)
                                 (fun x => Ok (py_eq x (slope_m c))))) ts) ;;
      require (has_p && has_x && has_m)
              "tokens must include var 'p', var x_var, and const slope_m" ;;;
      check_token_labels (slope_m c) [] ts
  | _ => vret tt
  end ;;;
  vret (eq_tmpl, tokens).

(** [{t.get("label") for t in tokens}], line 166. *)
Fixpoint label_set (ts : list json) : result (list json) :=
  match ts with
  | [] => Ok []
  | t :: rest =>
      rbind (py_get t "label" JNull) (fun lbl =>
      if hashable lbl then rbind (label_set rest) (fun s => Ok (lbl :: s))
      else Raise TypeError)
  end.

(** [ex in fills] for a list [ex]: a string or a [dict] on the right raises
    [TypeError]. *)
Definition list_in (ex : json) (fills : json) : result bool :=
  match fills with
  | JList l => Ok (existsb (fun f => py_eq f ex) l)
  | _ => Raise TypeError
  end.

(** Lines 160-182: answers. *)
Definition check_answers (item : json) (c : context) (eq_tmpl : string) (tokens : json) : V unit :=
  answers <- lift (py_get item "answers" (JDict [])) ;;
  fills <- lift (py_get answers "valid_fills" (JList [])) ;;
  canon <- lift (norm_get answers "canonical_str") ;;
  check (and_then (Ok (is_list fills)) (rbind (py_len fills) (fun n => Ok (2 <=? n))))
        "answers.valid_fills must include both orientations" ;;;
  token_labels <- lift (rbind (py_iter tokens) label_set) ;;
  fs <- lift (py_iter fills) ;;
  for_each fs (fun f =>
    check (and_then (Ok (is_list f)) (len_is 3 f))
          "each valid_fills entry must have 3 symbols" ;;;
    syms <- lift (py_iter f) ;;
    for_each syms (fun sym =>
      check (set_member sym token_labels)
            ("valid_fills symbol '" ++ py_str sym ++ "' not in tokens"))) ;;;
  let m := py_str (slope_m c) in
  let expect_main :=
    if String.eqb eq_tmpl "_ = _ * _"
    then [[JStr "p"; JStr m; JStr (x_var c)]; [JStr "p"; JStr (x_var c); JStr m]]
    else [[JStr m; JStr (x_var c); JStr "p"]; [JStr (x_var c); JStr m; JStr "p"]] in
  for_each expect_main (fun ex =>
    check (list_in (JList ex) fills) ("valid_fills must include " ++ py_str (JList ex))) ;;;
  let expect_canon_a := "p=" ++ m ++ "*" ++ x_var c in
  let expect_canon_b := m ++ "*" ++ x_var c ++ "=p" in
  require (String.eqb canon expect_canon_a || String.eqb canon expect_canon_b)
          "answers.canonical_str must be 'p=m*x' or 'm*x=p'" ;;;
  vret tt.

(** ["per " + v]. *)
Definition per (v : json) : result string :=
  match v with
  | JStr s => Ok ("per " ++ s)
  | _ => Raise TypeError
  end.

(** Lines 184-191: explanation. *)
Definition check_explanation (item : json) (c : context) : V unit :=
  expl <- lift (py_get item "explanation" (JDict [])) ;;
  eq_str <- lift (norm_get expl "equation_str") ;;
  e_txt <- lift (norm_get expl "text") ;;
  require (String.eqb eq_str ("p=" ++ py_str (slope_m c) ++ "×" ++ x_var c))
          "explanation.equation_str must be 'p=m×x_var'" ;;;
  require (contains e_txt "p" && contains e_txt (x_var c))
          "explanation.text must mention 'p' and x_var" ;;;
  rate_ok <- lift (or_else (Ok (contains e_txt "$"))
                  (or_else (Ok (contains e_txt (py_str (slope_m c))))
                     (rbind (py_get (ctx c) "x_unit_label" (JStr ""))
                        (fun lab => rbind (per lab) (fun s => Ok (contains e_txt s)))))) ;;
  require rate_ok "explanation.text should indicate price rate ($ or number)" ;;;
  vret tt.

(** Lines 55-57: the presence loop. *)
Definition check_root_keys (item : json) : V unit :=
  for_each REQ_ROOT_KEYS (fun k => check (py_in k item) ("missing key: " ++ k)).

(** Lines 60-191. *)
Definition check_sections (item : json) : V unit :=
  c <- check_context item ;;
  check_table item c ;;;
  check_graph item c ;;;
  tt' <- check_tokens item c ;;
  check_answers item c (fst tt') (snd tt') ;;;
  check_explanation item c.

(** [def validate_item(item)]. *)
Definition validate_item (item : json) : result (bool * list string) :=
  match check_root_keys item [] with
  | Raise e => Raise e
  | Ok (_, errs) =>
      match errs with
      | _ :: _ => Ok (false, errs)
      | [] =>
          match check_sections item errs with
          | Raise e => Raise e
          | Ok (_, errs) => Ok ((length errs =? 0)%nat, errs)
          end
      end
  end.

Close Scope v_scope.

(** *** De-duplication *)

(** Digits of a decimal literal as [int] reads them: single underscores are
    allowed between digits. [acc] is the value so far and [digit_before]
    tells whether the previous character was a digit. *)
Fixpoint parse_digits (acc : Z) (digit_before : bool) (s : string) : option Z :=
  match s with
  | EmptyString => if digit_before then Some acc else None
  | String c r =>
      let n := nat_of_ascii c in
      if ((48 <=? n) && (n <=? 57))%nat
      then parse_digits (10 * acc + Z.of_nat (n - 48)) true r
      else if Ascii.eqb c "_" && digit_before then parse_digits acc false r
      else None
  end.

(** [int(s)] for a string: surrounding white space, an optional sign, then
    decimal digits. *)
Definition int_of_string (s : string) : result Z :=
  let body := strip s in
  let signed :=
    match body with
    | String "-" r => option_map Z.opp (parse_digits 0 false r)
    | String "+" r => parse_digits 0 false r
    | _ => parse_digits 0 false body
    end in
  match signed with
  | Some z => Ok z
  | None => Raise ValueError
  end.

(** [int(v)]. *)
Definition py_int (v : json) : result Z :=
  match v with
  | JInt z => Ok z
  | JBool b => Ok (if b then 1 else 0)
  | JStr s => int_of_string s
  | _ => Raise TypeError
  end.

(** [s.lower().strip()]: only a string has the methods. *)
Definition lower_strip (v : json) : result string :=
  match v with
  | JStr s => Ok (strip (lower s))
  | _ => Raise AttributeError
  end.

(** The tuple built at line 204. *)
Definition key : Type := string * json * Z.

(** Lines 203-204, the body of the [try]. *)
Definition extract_key (it : json) : result key :=
  rbind (py_getitem it "stem") (fun stem =>
  rbind (py_getitem stem "context") (fun c =>
  rbind (rbind (py_getitem c "item_name") lower_strip) (fun name =>
  rbind (py_getitem c "x_unit") (fun unit =>
  rbind (rbind (py_getitem c "slope_m") py_int) (fun m =>
  Ok (name, unit, m)))))).

(** Equality of two keys, as the [set] decides it. *)
Definition key_eq (a b : key) : bool :=
  let '(n1, u1, m1) := a in
  let '(n2, u2, m2) := b in
  String.eqb n1 n2 && py_eq u1 u2 && (m1 =? m2).

(** [key in seen]: hashing the tuple hashes its members. *)
Definition key_seen (k : key) (seen : list key) : result bool :=
  let '(_, unit, _) := k in
  if hashable unit then Ok (existsb (key_eq k) seen) else Raise TypeError.

(** The loop of lines 201-211, with its three accumulators. *)
Fixpoint dedupe_loop (items : list json) (seen : list key) (kept : list json) (dropped : Z)
  : result (list json * Z) :=
  match items with
  | [] => Ok (kept, dropped)
  | it :: rest =>
      match extract_key it with
      | Raise _ => dedupe_loop rest seen (kept ++ [it])%list dropped
      | Ok k =>
          match key_seen k seen with
          | Raise e => Raise e
          | Ok true => dedupe_loop rest seen kept (dropped + 1)
          | Ok false => dedupe_loop rest (k :: seen) (kept ++ [it])%list dropped
          end
      end
  end.

(** [def dedupe_items(items)]. *)
Definition dedupe_items (items : list json) : result (list json * Z) :=
  dedupe_loop items [] [] 0.

(** *** The batch loop of [main] *)

(** Lines 235-239. *)
Fixpoint validate_all (items : list json) (passed : list json)
  (failed : list (string * list string))
  : result (list json * list (string * list string)) :=
  match items with
  | [] => Ok (passed, failed)
  | it :: rest =>
      match validate_item it with
      | Raise e => Raise e
      | Ok (true, _) => validate_all rest (passed ++ [it])%list failed
      | Ok (false, reasons) =>
          match py_get it "id" (JStr "<no-id>") with
          | Raise e => Raise e
          | Ok id => validate_all rest passed (failed ++ [(py_str id, reasons)])%list
          end
      end
  end.

(** What one run of the validator computes from the parsed input array:
    the passed items it writes out, the failures and the number of dropped
    duplicates it reports. *)
Record report : Type := mk_report {
  passed : list json;
  failed : list (string * list string);
  dropped_dupes : Z
}.

(** Lines 233-239 of [main]. *)
Definition run_validator (items : list json) : result report :=
  rbind (dedupe_items items) (fun kd =>
  rbind (validate_all (fst kd) [] []) (fun pf =>
  Ok (mk_report (fst pf) (snd pf) (snd kd)))).

(** *** Reading the table checks back *)

(** The six violations of section 3. *)
Definition table_messages : list string :=
  ["unit_price.value must equal slope_m";
   "unit_price.display must include '$', slope_m, and '/{x_unit_label}'";
   "amount.value must be 1..10";
   "amount.display must be '<amount> {x_unit}'";
   "total.value must equal slope_m * amount.value";
   "total.display must start with '$' and include total value"].

(** The values section 3 looks at, as [validate_item] reads them: units and
    display strings are trimmed. *)
Record table_view : Type := mk_table_view {
  t_slope : json;
  t_unit : string;
  t_ulab : string;
  up_val : json;
  up_disp : string;
  amt_val : json;
  amt_disp : string;
  tot_val : json;
  tot_disp : string
}.



(** All required top-level fields are there. *)
Definition has_root_keys (item : json) : Prop :=
  forall k, In k REQ_ROOT_KEYS -> py_in k item = Ok true.



(** The table rules as the code checks them: the unit price and the total
    have to be positive integers, and the unit-price display has to start
    with the currency marker. *)
Definition table_rules (v : table_view) : Prop :=
  (is_pos_int (up_val v) = true /\ py_eq (up_val v) (t_slope v) = true) /\
  (startswith (up_disp v) "$" = true /\
   contains (up_disp v) ("/" ++ t_ulab v) = true /\
   contains (up_disp v) (py_str (t_slope v)) = true) /\
  int_in 1 10 (amt_val v) = true /\
  (endswith (amt_disp v) (" " ++ t_unit v) = true /\
   contains (amt_disp v) (py_str (amt_val v)) = true) /\
  (is_pos_int (tot_val v) = true /\
   exists prod, py_mul (t_slope v) (amt_val v) = Ok prod /\ py_eq (tot_val v) prod = true) /\
  (startswith (tot_disp v) "$" = true /\
   contains (tot_disp v) (py_str (tot_val v)) = true).

(** *** De-duplication, as the specification words it *)

Definition key_of (it : json) : option key :=
  match extract_key it with
  | Ok k => Some k
  | Raise _ => None
  end.




(** *** Sample items *)

(** The schema example of the generator prompt, bananas at $8 per kg, with
    the item name, the context entries for the unit and the slope, the two
    display strings and the total value left open. *)
Definition bananas_with (name : string) (unit_and_slope : list (string * json))
  (unit_display total_display : string) (total : json) : json :=
  JDict [
    ("id", JStr "lin-001");
    ("stem", JDict [
       ("prompt_text", JStr "Create an equation that relates the price p and the weight w. Bananas cost $8 per kg.");
       ("context", JDict ([
          ("y_var", JStr "p"); ("y_name", JStr "price"); ("y_unit", JStr "$");
          ("x_var", JStr "w"); ("x_name", JStr "weight");
          ("x_unit_label", JStr "kg"); ("item_name", JStr name)] ++ unit_and_slope)%list)]);
    ("table", JDict [
       ("unit_price", JDict [("value", JInt 8); ("display", JStr unit_display)]);
       ("amount", JDict [("value", JInt 2); ("display", JStr "2 kg")]);
       ("total", JDict [("value", total); ("display", JStr total_display)])]);
    ("graph", JDict [
       ("x_axis", JDict [("label", JStr "weight (kg)");
                         ("ticks", JList [JInt 2; JInt 4; JInt 6; JInt 8; JInt 10])]);
       ("y_axis", JDict [("label", JStr "price ($)");
                         ("ticks", JList [JInt 16; JInt 32; JInt 48; JInt 64; JInt 80])]);
       ("line_points", JList [JList [JInt 0; JInt 0]; JList [JInt 10; JInt 80]])]);
    ("equation_template", JStr "_ = _ * _");
    ("tokens", JList [
       JDict [("type", JStr "const"); ("label", JStr "8"); ("value", JInt 8)];
       JDict [("type", JStr "var"); ("label", JStr "p")];
       JDict [("type", JStr "var"); ("label", JStr "w")];
       JDict [("type", JStr "const"); ("label", JStr "5"); ("value", JInt 5)]]);
    ("answers", JDict [
       ("valid_fills", JList [JList [JStr "p"; JStr "8"; JStr "w"];
                              JList [JStr "p"; JStr "w"; JStr "8"]]);
       ("canonical_str", JStr "p=8*w")]);
    ("explanation", JDict [
       ("equation_str", JStr "p=8×w");
       ("text", JStr "Get price p by multiplying weight w by $8 per kg.")])].

Definition kg_8 : list (string * json) := [("x_unit", JStr "kg"); ("slope_m", JInt 8)].

(** A valid item. *)
Definition bananas : json := bananas_with "Bananas" kg_8 "$8.00/kg" "$16.00" (JInt 16).

(** The same item under a name that differs in case and white space only. *)
Definition bananas_again : json := bananas_with " bananas" kg_8 "$8.00/kg" "$16.00" (JInt 16).

(** Total display off by one dollar. *)
Definition bananas_15 : json := bananas_with "Bananas" kg_8 "$8.00/kg" "$15.00" (JInt 16).


(** The context has no [slope_m]. *)
Definition bananas_without_slope : json :=
  bananas_with "Bananas" [("x_unit", JStr "kg")] "$8.00/kg" "$16.00" (JInt 16).


(** ** Vocabulary of the properties below *)

(** [appends P m]: whatever [errs] holds, [m] raises or not and returns the
    same value, and what it appends is the same list of messages, all of
    them in [P]. *)
Definition appends {A} (P : string -> Prop) (m : V A) : Prop :=
  (exists e, forall errs, m errs = Raise e) \/
  (exists a new, Forall P new /\ forall errs, m errs = Ok (a, (errs ++ new)%list)).




(** [fresh seen l]: running the loop over [l] from [seen] drops nothing. *)
Fixpoint fresh (seen : list key) (l : list json) : Prop :=
  match l with
  | [] => True
  | it :: rest =>
      match extract_key it with
      | Raise _ => fresh seen rest
      | Ok k => key_seen k seen = Ok false /\ fresh (k :: seen) rest
      end
  end.

(** [validate_item] returns on [it] with a true verdict. *)
Definition passes (it : json) : bool :=
  match validate_item it with
  | Ok (true, _) => true
  | _ => false
  end.

(** The test [k not in item] of the first loop of [validate_item]. *)
Definition missing (item : json) (k : string) : bool :=
  match py_in k item with
  | Ok true => false
  | _ => true
  end.

End WritingEquations.

(** ** Price puzzles: reading an item by its fields *)

Module PassedItems.
Import Py WritingEquations.

(** [v[k1][k2]...]: the value under a path of keys, when every step is an
    object that has the key. *)
Fixpoint field (path : list string) (v : json) : option json :=
  match path with
  | [] => Some v
  | k :: rest =>
      match v with
      | JDict d =>
          match lookup k d with
          | Some x => field rest x
          | None => None
          end
      | _ => None
      end
  end.

(** The string under a path, trimmed as [norm] trims it. *)
Definition text_at (path : list string) (v : json) : option string :=
  match field path v with
  | Some (JStr s) => Some (strip s)
  | _ => None
  end.

(** [t.get("label", dflt)] for a token that is an object. *)
Definition label_or (dflt : json) (t : json) : json :=
  match field ["label"] t with
  | Some v => v
  | None => dflt
  end.

Definition is_object (v : json) : Prop := exists d, v = JDict d.

(** A constant token other than the one for the slope [m]: its label is not
    [str(m)]. It has to carry an integer value in 1..20 other than [m]. *)
Definition distractor_ok (m : Z) (t : json) : Prop :=
  field ["type"] t = Some (JStr "const") ->
  field ["label"] t <> Some (JStr (str_of_int m)) ->
  exists v, field ["value"] t = Some (JInt v) /\ 1 <= v <= 20 /\ v <> m.

(** Any message at all. *)
Definition any_msg (msg : string) : Prop := True.

End PassedItems.

(** ** Batches of items *)

Module Batches.

(** [subseq l1 l2]: [l1] is [l2] with some elements left out, the others in
    their order. *)
Inductive subseq {A : Type} : list A -> list A -> Prop :=
| subseq_nil : subseq [] []
| subseq_keep x l1 l2 : subseq l1 l2 -> subseq (x :: l1) (x :: l2)
| subseq_drop x l1 l2 : subseq l1 l2 -> subseq l1 (x :: l2).

End Batches.

(** ** Balance puzzles: solutions and other answers *)

Module PuzzleMeaning.
Import Py TiltedScales.

(** Weights [a] for [X], [b] for [Y] and 1 for every other shape. *)
Definition weights_of (X Y : string) (a b : Q) : weights :=
  fun sh => if String.eqb sh X then a else if String.eqb sh Y then b else 1%Q.

(** The puzzle with another answer in place of the stored one. *)
Definition with_answer (p : puzzle) (answer : list string) : puzzle :=
  mk_puzzle (p_equality p) (p_template p) (p_inequality p) answer.

(** A run of one of the three strategies. *)
Definition generated (tr : trace) (p : puzzle) : Prop :=
  In (tr, p) easy_puzzle_proportional_equality \/
  In (tr, p) easy_puzzle_weighted_equality \/
  In (tr, p) difficult_puzzle_weighted_equality.

End PuzzleMeaning.

(** ** Balance puzzles: the script around the strategies,
       [src/Tilted-Scales/generate.py] *)

Module TiltedScalesScript.
Import Py TiltedScales.
Import WritingEquations.

(** *** Command line, lines 6-21 *)




(** *** The batch of puzzles, lines 206-215 *)




(** *** What the LLM answered, lines 304-329 *)

(** One value of [explanations]: the explanation and the reasoned answer. *)
Definition info : Type := (string * string)%type.

(** The [explanations] dict, keys in insertion order. *)
Definition explanations : Type := list (json * info).

(** [explanations[k] = v]: the value of an equal key is replaced. *)
Fixpoint dict_put (k : json) (v : info) (d : explanations) : explanations :=
  match d with
  | [] => [(k, v)]
  | (k', v') :: r => if py_eq k' k then (k', v) :: r else (k', v') :: dict_put k v r
  end.

(** [explanations.get(i, default)] for an [int] [i]. *)
Fixpoint dict_find (i : Z) (d : explanations) : option info :=
  match d with
  | [] => None
  | (k, v) :: r => if py_eq k (JInt i) then Some v else dict_find i r
  end.

(** [(obj.get(k) or "").strip()]. *)
Definition text_of (obj : json) (k : string) : result string :=
  rbind (py_get obj k JNull) norm.

(** The loop of lines 315-320 inside its [try]: an exception ends the loop
    and leaves [explanations] as it is by then. *)
Fixpoint collect (arr : list json) (seen : explanations) : explanations :=
  match arr with
  | [] => seen
  | obj :: rest =>
      match obj with
      | JDict d =>
          match lookup "index" d with
          | Some index =>
              match text_of obj "explanation", text_of obj "reasoned_answer" with
              | Ok e, Ok r =>
                  if hashable index then collect rest (dict_put index (e, r) seen)
                  else seen
              | _, _ => seen
              end
          | None => collect rest seen
          end
      | _ => collect rest seen
      end
  end.

(** Lines 304-329. [response] is what [json.loads] made of the standard
    output of the LLM, when the call returned with status 0 and the output
    was a JSON document; in every other case [explanations] stays empty. *)
Definition read_explanations (response : option json) : explanations :=
  match response with
  | Some (JList arr) => collect arr []
  | _ => []
  end.

(** *** The items written out, lines 331-344 *)

(** [f"{i:03d}"]: the sign, then the digits padded with zeros to a width of
    three characters in all. *)
Definition format_03d (i : Z) : string :=
  let digits := str_of_int (Z.abs i) in
  let sign := if i <? 0 then "-" else "" in
  sign ++ repeat_string (3 - String.length sign - String.length digits) "0" ++ digits.

Record final_item : Type := mk_final_item {
  it_id : string;
  it_difficulty : string;
  it_equality : equality;
  it_inequality : inequality;
  it_ineq_template : string;
  it_answer : list string;
  it_explanation : string;
  it_reasoned_answer : string
}.

(** The loop of lines 333-344, from index [i] on. *)
Fixpoint build_items (difficulty : string) (i : Z) (puzzles : list puzzle)
  (seen : explanations) : list final_item :=
  match puzzles with
  | [] => []
  | p :: rest =>
      let info := match dict_find i seen with Some v => v | None => ("", "") end in
      {| it_id := difficulty ++ "-" ++ format_03d i;
         it_difficulty := difficulty;
         it_equality := p_equality p;
         it_inequality := p_inequality p;
         it_ineq_template := p_template p;
         it_answer := p_answer p;
         it_explanation := fst info;
         it_reasoned_answer := snd info |}
      :: build_items difficulty (i + 1) rest seen
  end.

(** Lines 286-344: the items for a batch of puzzles and a response. *)
Definition final_items (difficulty : string) (puzzles : list puzzle) (response : option json)
  : list final_item :=
  build_items difficulty 1 puzzles (read_explanations response).

(** *** Reading the response back *)

(** An entry the loop of lines 315-320 gets through without an exception:
    not an object, or without ["index"], or with an index that can be hashed
    and two texts that are strings or false values. *)
Definition readable (obj : json) : bool :=
  match obj with
  | JDict d =>
      match lookup "index" d with
      | Some index =>
          hashable index &&
          match text_of obj "explanation", text_of obj "reasoned_answer" with
          | Ok _, Ok _ => true
          | _, _ => false
          end
      | None => true
      end
  | _ => true
  end.



(** Every key of the dict can be hashed. *)
Definition hashable_keys (d : explanations) : Prop :=
  Forall (fun kv => hashable (fst kv) = true) d.

(** No character of [s] is white space. *)
Definition spaceless (s : string) : Prop :=
  Forall (fun c => is_space c = false) (list_ascii_of_string s).

(** A response with two entries for item 1 and one for item 3. *)
Definition sample_response : list json :=
  [JDict [("index", JInt 1); ("explanation", JStr "first"); ("reasoned_answer", JStr "s>t")];
   JDict [("index", JInt 3); ("explanation", JStr " third "); ("reasoned_answer", JNull)];
   JDict [("index", JInt 1); ("explanation", JStr "again"); ("reasoned_answer", JStr "t>s")]].

(** An entry whose explanation is a number: [.strip()] raises on it. *)
Definition unreadable_entry : json :=
  JDict [("index", JInt 2); ("explanation", JInt 5)].

End TiltedScalesScript.

(** ** Price puzzles: the generator, [src/Writing-Equations/generate.py] *)

Module WritingEquationsGenerate.
Import Py.

(** *** The array in the answer of the LLM, lines 282-288 of [main] *)

(** [s.find(c)] for one character [c]: the first position, or -1. *)
Fixpoint find (c : ascii) (s : string) : Z :=
  match s with
  | EmptyString => -1
  | String a r =>
      if Ascii.eqb a c then 0
      else let i := find c r in if i =? -1 then -1 else i + 1
  end.

(** [s.rfind(c)] for one character [c]: the last position, or -1. *)
Fixpoint rfind (c : ascii) (s : string) : Z :=
  match s with
  | EmptyString => -1
  | String a r =>
      let i := rfind c r in
      if i =? -1 then (if Ascii.eqb a c then 0 else -1) else i + 1
  end.

(** [s[lo:hi]] for [0 <= lo]. *)
Definition slice (s : string) (lo hi : Z) : string :=
  substring (Z.to_nat lo) (Z.to_nat (hi - lo)) s.

(** Lines 284-287: the text given to [json.loads], or nothing when the
    [assert] fails (the script then exits with status 5). *)
Definition extract_payload (raw : string) : option string :=
  let start := find "[" raw in
  let end_ := rfind "]" raw in
  if negb (start =? -1) && negb (end_ =? -1) && (start <? end_)
  then Some (slice raw start (end_ + 1))
  else None.

(** The character occurs in the string. *)
Definition occurs (c : ascii) (s : string) : Prop := In c (list_ascii_of_string s).

End WritingEquationsGenerate.

(** ** Price puzzles: more sample items *)

Module ValidatorInputs.
Import Py WritingEquations.

(** Two objects that differ at most in the value they give for [k]. *)
Definition same_but (k : string) (d1 d2 : list (string * json)) : Prop :=
  (forall k', k' <> k -> lookup k' d1 = lookup k' d2) /\
  (lookup k d1 = None <-> lookup k d2 = None).

(** The three worked examples of the generation prompt,
    [src/Writing-Equations/generate.py], lines 186-253. *)
Definition example_kg : json :=
  JDict [
    ("id", JStr "lin-kg-001");
    ("stem", JDict [
       ("prompt_text", JStr "Create an equation that relates the price p and the weight w. Apples cost $6 per kilogram.");
       ("context", JDict [
          ("y_var", JStr "p"); ("y_name", JStr "price"); ("y_unit", JStr "$");
          ("x_var", JStr "w"); ("x_name", JStr "weight"); ("x_unit", JStr "kg");
          ("x_unit_label", JStr "kg"); ("item_name", JStr "apples"); ("slope_m", JInt 6)])]);
    ("table", JDict [
       ("unit_price", JDict [("value", JInt 6); ("display", JStr "$6.00/kg")]);
       ("amount", JDict [("value", JInt 3); ("display", JStr "3 kg")]);
       ("total", JDict [("value", JInt 18); ("display", JStr "$18.00")])]);
    ("graph", JDict [
       ("x_axis", JDict [("label", JStr "weight (kg)");
                         ("ticks", JList [JInt 2; JInt 4; JInt 6; JInt 8; JInt 10])]);
       ("y_axis", JDict [("label", JStr "price ($)");
                         ("ticks", JList [JInt 12; JInt 24; JInt 36; JInt 48; JInt 60])]);
       ("line_points", JList [JList [JInt 0; JInt 0]; JList [JInt 10; JInt 60]])]);
    ("equation_template", JStr "_ * _ = _");
    ("tokens", JList [
       JDict [("type", JStr "const"); ("label", JStr "6"); ("value", JInt 6)];
       JDict [("type", JStr "var"); ("label", JStr "p")];
       JDict [("type", JStr "var"); ("label", JStr "w")];
       JDict [("type", JStr "const"); ("label", JStr "4"); ("value", JInt 4)]]);
    ("answers", JDict [
       ("valid_fills", JList [JList [JStr "6"; JStr "w"; JStr "p"];
                              JList [JStr "w"; JStr "6"; JStr "p"]]);
       ("canonical_str", JStr "p=6*w")]);
    ("explanation", JDict [
       ("equation_str", JStr "p=6×w");
       ("text", JStr "Get price p by multiplying weight w by $6 per kg.")])].

Definition example_L : json :=
  JDict [
    ("id", JStr "lin-L-002");
    ("stem", JDict [
       ("prompt_text", JStr "Create an equation that relates the price p and the volume v. Milk costs $5 per liter.");
       ("context", JDict [
          ("y_var", JStr "p"); ("y_name", JStr "price"); ("y_unit", JStr "$");
          ("x_var", JStr "v"); ("x_name", JStr "volume"); ("x_unit", JStr "L");
          ("x_unit_label", JStr "L"); ("item_name", JStr "milk"); ("slope_m", JInt 5)])]);
    ("table", JDict [
       ("unit_price", JDict [("value", JInt 5); ("display", JStr "$5.00/L")]);
       ("amount", JDict [("value", JInt 4); ("display", JStr "4 L")]);
       ("total", JDict [("value", JInt 20); ("display", JStr "$20.00")])]);
    ("graph", JDict [
       ("x_axis", JDict [("label", JStr "volume (L)");
                         ("ticks", JList [JInt 2; JInt 4; JInt 6; JInt 8; JInt 10])]);
       ("y_axis", JDict [("label", JStr "price ($)");
                         ("ticks", JList [JInt 10; JInt 20; JInt 30; JInt 40; JInt 50])]);
       ("line_points", JList [JList [JInt 0; JInt 0]; JList [JInt 10; JInt 50]])]);
    ("equation_template", JStr "_ = _ * _");
    ("tokens", JList [
       JDict [("type", JStr "const"); ("label", JStr "5"); ("value", JInt 5)];
       JDict [("type", JStr "var"); ("label", JStr "p")];
       JDict [("type", JStr "var"); ("label", JStr "v")]]);
    ("answers", JDict [
       ("valid_fills", JList [JList [JStr "p"; JStr "5"; JStr "v"];
                              JList [JStr "p"; JStr "v"; JStr "5"]]);
       ("canonical_str", JStr "p=5*v")]);
    ("explanation", JDict [
       ("equation_str", JStr "p=5×v");
       ("text", JStr "Get price p by multiplying volume v by $5 per L.")])].

Definition example_pc : json :=
  JDict [
    ("id", JStr "lin-pc-003");
    ("stem", JDict [
       ("prompt_text", JStr "Create an equation that relates the price p and the items n. Pencils cost $3 per item.");
       ("context", JDict [
          ("y_var", JStr "p"); ("y_name", JStr "price"); ("y_unit", JStr "$");
          ("x_var", JStr "n"); ("x_name", JStr "items"); ("x_unit", JStr "pcs");
          ("x_unit_label", JStr "pc"); ("item_name", JStr "pencils"); ("slope_m", JInt 3)])]);
    ("table", JDict [
       ("unit_price", JDict [("value", JInt 3); ("display", JStr "$3.00/pc")]);
       ("amount", JDict [("value", JInt 5); ("display", JStr "5 pcs")]);
       ("total", JDict [("value", JInt 15); ("display", JStr "$15.00")])]);
    ("graph", JDict [
       ("x_axis", JDict [("label", JStr "items (pcs)");
                         ("ticks", JList [JInt 2; JInt 4; JInt 6; JInt 8; JInt 10])]);
       ("y_axis", JDict [("label", JStr "price ($)");
                         ("ticks", JList [JInt 6; JInt 12; JInt 18; JInt 24; JInt 30])]);
       ("line_points", JList [JList [JInt 0; JInt 0]; JList [JInt 10; JInt 30]])]);
    ("equation_template", JStr "_ = _ * _");
    ("tokens", JList [
       JDict [("type", JStr "const"); ("label", JStr "3"); ("value", JInt 3)];
       JDict [("type", JStr "var"); ("label", JStr "p")];
       JDict [("type", JStr "var"); ("label", JStr "n")];
       JDict [("type", JStr "const"); ("label", JStr "7"); ("value", JInt 7)]]);
    ("answers", JDict [
       ("valid_fills", JList [JList [JStr "p"; JStr "3"; JStr "n"];
                              JList [JStr "p"; JStr "n"; JStr "3"]]);
       ("canonical_str", JStr "p=3*n")]);
    ("explanation", JDict [
       ("equation_str", JStr "p=3×n");
       ("text", JStr "Get price p by multiplying items n by $3 per pc.")])].

Definition EXAMPLES : list json := [example_kg; example_L; example_pc].

(** An item that fails: the name is not in the prompt text and the total
    display is off. *)
Definition apples_15 : json := bananas_with "Apples" kg_8 "$8.00/kg" "$15.00" (JInt 16).

(** [bananas] under another id. *)
Definition bananas_renamed : json :=
  match bananas with
  | JDict (_ :: fields) => JDict (("id", JInt 0) :: fields)
  | other => other
  end.

End ValidatorInputs.

(** ** Price puzzles: items of the types of the schema *)

Module TypedItems.
Import Py WritingEquations.

Definition is_str (v : json) : bool :=
  match v with
  | JStr _ => true
  | _ => false
  end.

Definition anything (v : json) : bool := true.

(** [v] is an object, and what it holds under [k], if anything, is a [p]. *)
Definition optional (k : string) (p : json -> bool) (v : json) : bool :=
  match v with
  | JDict d => match lookup k d with Some x => p x | None => true end
  | _ => false
  end.

(** [v] is an object that holds a [p] under [k]. *)
Definition required (k : string) (p : json -> bool) (v : json) : bool :=
  match v with
  | JDict d => match lookup k d with Some x => p x | None => false end
  | _ => false
  end.

(** [v] is a list of [p]s. *)
Definition list_of (p : json -> bool) (v : json) : bool :=
  match v with
  | JList l => forallb p l
  | _ => false
  end.

(** The context: strings, and an integer slope. *)
Definition typed_context (c : json) : bool :=
  optional "y_var" is_str c && optional "y_name" is_str c && optional "y_unit" is_str c &&
  optional "x_var" is_str c && optional "x_name" is_str c && optional "x_unit" is_str c &&
  optional "x_unit_label" is_str c && optional "item_name" is_str c &&
  required "slope_m" is_int c.

Definition typed_stem (s : json) : bool :=
  optional "prompt_text" is_str s && required "context" typed_context s.

(** A table row: a value and a display string. *)
Definition typed_row (value : json -> bool) (r : json) : bool :=
  optional "value" value r && optional "display" is_str r.

(** The table: the amount has an integer value. *)
Definition typed_table (t : json) : bool :=
  optional "unit_price" (typed_row anything) t &&
  required "amount" (fun r => required "value" is_int r && optional "display" is_str r) t &&
  optional "total" (typed_row anything) t.

Definition typed_axis (a : json) : bool :=
  optional "label" is_str a && optional "ticks" (list_of is_int) a.

Definition typed_graph (g : json) : bool :=
  optional "x_axis" typed_axis g && optional "y_axis" typed_axis g &&
  optional "line_points" is_list g.

(** A token: an object whose label, if any, is a string. *)
Definition typed_token (t : json) : bool := optional "label" is_str t.

Definition typed_answers (a : json) : bool :=
  optional "valid_fills" (list_of (list_of is_str)) a &&
  optional "canonical_str" is_str a.

Definition typed_explanation (e : json) : bool :=
  optional "equation_str" is_str e && optional "text" is_str e.

(** An item whose fields, where present, have the types of the schema of
    the generation prompt; the context with its slope and the amount with its
    value have to be there when the stem and the table are. *)
Definition well_typed (item : json) : bool :=
  optional "stem" typed_stem item &&
  optional "table" typed_table item &&
  optional "graph" typed_graph item &&
  optional "equation_template" is_str item &&
  optional "tokens" (list_of typed_token) item &&
  optional "answers" typed_answers item &&
  optional "explanation" typed_explanation item.

(** The computation returns, from every list of violations, a value with
    property [P]. *)
Definition returns {A} (P : A -> Prop) (m : V A) : Prop :=
  forall errs, exists a errs', m errs = Ok (a, errs') /\ P a.

End TypedItems.

(** * Properties *)

Module PyFacts.
Import Py.

Lemma in_range lo hi v : In v (range lo hi) <-> lo <= v < hi.
Proof.
  unfold range. rewrite in_map_iff. split.
  - intros (i & <- & Hi). apply in_seq in Hi. lia.
  - intros H. exists (Z.to_nat (v - lo)). split; [lia|]. apply in_seq. lia.
Qed.

End PyFacts.

Module TiltedScalesFacts.
Import Py PyFacts TiltedScales.

(** *** Reading a run back from membership *)

Lemma in_bind {A B} (m : Gen A) (f : A -> Gen B) tr b :
  In (tr, b) (bind m f) <->
  exists t1 a t2, In (t1, a) m /\ In (t2, b) (f a) /\ tr = (t1 ++ t2)%list.
Proof.
  unfold bind. rewrite in_flat_map. split.
  - intros ([t1 a] & Hm & Hf). apply in_map_iff in Hf.
    destruct Hf as ([t2 b'] & Heq & Hf). inversion Heq; subst.
    exists t1, a, t2. auto.
  - intros (t1 & a & t2 & Hm & Hf & ->). exists (t1, a). split; [exact Hm|].
    apply in_map_iff. exists (t2, b). auto.
Qed.

Lemma in_ret {A} (a b : A) tr : In (tr, b) (ret a) <-> tr = [] /\ b = a.
Proof.
  unfold ret. simpl. split.
  - intros [H | []]. inversion H. auto.
  - intros [-> ->]. auto.
Qed.

Lemma in_randint lbl a b tr v :
  In (tr, v) (randint lbl a b) <-> a <= v <= b /\ tr = [(lbl, VInt v)].
Proof.
  unfold randint. rewrite in_map_iff. split.
  - intros (x & Heq & Hx). inversion Heq; subst. apply in_range in Hx. split; [lia | reflexivity].
  - intros [Hv ->]. exists v. split; [reflexivity|]. apply in_range. lia.
Qed.

Lemma in_choice lbl l tr v :
  In (tr, v) (choice lbl l) <-> In v l /\ tr = [(lbl, VInt v)].
Proof.
  unfold choice. rewrite in_map_iff. split.
  - intros (x & Heq & Hx). inversion Heq; subst. auto.
  - intros [Hv ->]. exists v. auto.
Qed.

Lemma in_random_gt_half lbl tr b :
  In (tr, b) (random_gt_half lbl) <-> tr = [(lbl, VBool b)].
Proof.
  unfold random_gt_half. simpl. split.
  - intros [H | [H | []]]; inversion H; reflexivity.
  - intros ->. destruct b; auto.
Qed.

Lemma in_pick_distinct {A} `{Loggable A} lbl (l : list A) n tr picked :
  In (tr, picked) (_pick_distinct lbl l n) <->
  In picked (arrangements n l) /\ tr = [(lbl, log_list picked)].
Proof.
  unfold _pick_distinct, sample. rewrite in_map_iff. split.
  - intros (x & Heq & Hx). inversion Heq; subst. auto.
  - intros [Hv ->]. exists picked. auto.
Qed.

Lemma in_choices v k : In v (filter (fun v => negb (v =? k)) (range 1 7)) <-> 1 <= v <= 6 /\ v <> k.
Proof.
  rewrite filter_In, in_range, negb_true_iff, Z.eqb_neq. lia.
Qed.

Lemma in_item {A} (l : list A) i tr a :
  In (tr, a) (item l i) <-> nth_error l i = Some a /\ tr = [].
Proof.
  unfold item. destruct (nth_error l i) as [x|].
  - rewrite in_ret. split; intros [H1 H2]; subst; auto. inversion H1; auto.
  - simpl. split; [tauto | intros [H _]; discriminate].
Qed.

Ltac gen_inv :=
  repeat match goal with
  | H : In (_, _) (bind _ _) |- _ =>
      apply in_bind in H; destruct H as (? & ? & ? & ? & H & ?)
  | H : In (_, _) (ret _) |- _ => apply in_ret in H; destruct H
  | H : In (_, _) (randint _ _ _) |- _ => apply in_randint in H; destruct H
  | H : In (_, _) (choice _ _) |- _ => apply in_choice in H; destruct H
  | H : In (_, _) (random_gt_half _) |- _ => apply in_random_gt_half in H
  | H : In (_, _) (_pick_distinct _ _ _) |- _ => apply in_pick_distinct in H; destruct H
  | H : In _ (filter _ (range 1 7)) |- _ => apply in_choices in H; destruct H
  | H : In (_, _) raise |- _ => destruct H
  | H : In (_, _) (if ?b then _ else _) |- _ => destruct b
  end.

Ltac shapes_cases :=
  match goal with
  | H : In _ (arrangements 3 SHAPES) |- _ =>
      simpl in H;
      repeat (destruct H as [H | H]; [ | ]); try contradiction; subst
  end.

Ltac item_inv :=
  repeat match goal with
  | H : In (_, _) (item _ _) |- _ => apply in_item in H; destruct H
  | H : nth_error _ _ = Some _ |- _ =>
      repeat match type of H with
             | context [if ?c then _ else _] => destruct c eqn:?
             end;
      cbn in H; inversion H; clear H
  end.

(** Membership from a position, for concrete runs. *)
Lemma run_at {A} (g : Gen A) (n : nat) (r : trace * A) : nth_error g n = Some r -> In r g.
Proof. apply nth_error_In. Qed.

(** *** Arithmetic on weights *)

Lemma inj_lt a b : a < b -> (inject_Z a < inject_Z b)%Q.
Proof. intros. rewrite <- Zlt_Qlt. assumption. Qed.

Lemma inj_le a b : a <= b -> (inject_Z a <= inject_Z b)%Q.
Proof. intros. rewrite <- Zle_Qle. assumption. Qed.


Lemma true_div_exact (a k m : Z) : k <> 0 -> a = k * m -> (true_div a k == inject_Z m)%Q.
Proof.
  intros Hk ->. unfold true_div. rewrite inject_Z_mult. field.
  intros H. apply Hk. unfold Qeq in H. simpl in H. lia.
Qed.

Lemma int_of_Q_exact (q : Q) (n : Z) : (q == inject_Z n)%Q -> int_of_Q q = n.
Proof.
  unfold Qeq, int_of_Q. simpl. intros H. rewrite Z.mul_1_r in H. rewrite H.
  apply Z.quot_mul. discriminate.
Qed.

Lemma floor_Q_exact (q : Q) (n : Z) : (q == inject_Z n)%Q -> floor_Q q = n.
Proof. intros H. unfold floor_Q. rewrite (Qfloor_comp _ _ H). apply Qfloor_Z. Qed.

Lemma Qpositive_iff (q : Q) : Qpositive q = true <-> (0 < q)%Q.
Proof.
  unfold Qpositive. rewrite negb_true_iff. split.
  - intros H. apply Qnot_le_lt. intros Hle. apply Qle_bool_iff in Hle. congruence.
  - intros H. destruct (Qle_bool q 0) eqn:E; [|reflexivity].
    apply Qle_bool_iff in E. exfalso. apply (Qlt_not_le _ _ H E).
Qed.

(** The per-unit gap, for either order in which the two side weights come
    out of the sample. *)
Lemma gap_of_offset (k w off w0 w1 : Z) :
  1 <= k -> 2 <= off ->
  (w0 = k * w /\ w1 = k * (w + off)) \/ (w0 = k * (w + off) /\ w1 = k * w) ->
  let d := true_div (w1 - w0) k in
  (d == inject_Z (if w0 <? w1 then off else - off))%Q /\
  (Qabs d == inject_Z off)%Q /\
  int_of_Q (Qabs d - 1) = off - 1 /\
  floor_Q (Qabs d) - 1 = off - 1 /\
  (Qpositive d = true <-> w0 < w1).
Proof.
  intros Hk Hoff Hw d.
  assert (Hd : (d == inject_Z (if w0 <? w1 then off else - off))%Q).
  { apply true_div_exact; [lia|].
    destruct Hw as [[-> ->] | [-> ->]].
    - replace (k * w <? k * (w + off)) with true by (symmetry; apply Z.ltb_lt; nia). ring.
    - replace (k * (w + off) <? k * w) with false by (symmetry; apply Z.ltb_ge; nia). ring. }
  assert (Habs : (Qabs d == inject_Z off)%Q).
  { rewrite Hd. destruct (w0 <? w1).
    - apply Qabs_pos. apply (@inj_le 0 off). lia.
    - rewrite inject_Z_opp, Qabs_opp. apply Qabs_pos. apply (@inj_le 0 off). lia. }
  assert (Hm : (Qabs d - 1 == inject_Z (off - 1))%Q).
  { rewrite Habs. unfold Zminus. rewrite inject_Z_plus, inject_Z_opp. reflexivity. }
  repeat split.
  - exact Hd.
  - exact Habs.
  - apply int_of_Q_exact. exact Hm.
  - f_equal. apply floor_Q_exact. exact Habs.
  - rewrite Qpositive_iff, Hd. intros H. destruct (w0 <? w1) eqn:E; [apply Z.ltb_lt in E; exact E|].
    exfalso. change 0%Q with (inject_Z 0) in H. rewrite <- Zlt_Qlt in H. lia.
  - intros H. rewrite Qpositive_iff, Hd. apply Z.ltb_lt in H. rewrite H.
    apply (@inj_lt 0 off). lia.
Qed.

(** *** Difficult runs are exactly the closed form *)

Lemma difficult_run tr p :
  In (tr, p) difficult_puzzle_weighted_equality ->
  exists X Y Z k w off w0 w1 esc,
    In [X; Y; Z] (arrangements 3 SHAPES) /\
    1 <= k <= 3 /\ 1 <= w <= 4 /\ 2 <= off <= 4 /\
    ((w0 = k * w /\ w1 = k * (w + off)) \/ (w0 = k * (w + off) /\ w1 = k * w)) /\
    (forall o, esc = Some o -> 1 <= o <= 5) /\
    tr = difficult_trace k w w0 w1 off esc X Y Z /\
    p = difficult_outcome k w0 w1 off esc X Y Z.
Proof.
  unfold difficult_puzzle_weighted_equality. intros H.
  gen_inv.
  all: match goal with
       | H : In _ (arrangements 2 _) |- _ =>
           simpl in H; destruct H as [H | [H | []]]; subst
       end.
  all: match goal with
       | H : In ?l (arrangements 3 SHAPES) |- _ =>
           assert (Hlen : exists X Y Z, l = [X; Y; Z])
             by (simpl in H; repeat (destruct H as [H | H]; [subst; eauto | ]); contradiction);
           destruct Hlen as (X & Y & Z & ->)
       end.
  all: item_inv; subst.
  all: match goal with
       | Hb : Qpositive (true_div (?w1 - ?w0) ?k) = _ ,
         Hk : 1 <= ?k <= 3, Hw : 1 <= ?w <= 4, Ho : 2 <= ?off <= 4,
         Hs : In [?X; ?Y; ?Z] (arrangements 3 SHAPES) |- _ =>
           assert (Hord : (w0 = k * w /\ w1 = k * (w + off)) \/
                          (w0 = k * (w + off) /\ w1 = k * w))
             by (first [left; split; reflexivity | right; split; reflexivity]);
           destruct (@gap_of_offset k w off w0 w1 ltac:(lia) ltac:(lia) Hord)
             as (_ & _ & Hint & _ & Hpos);
           rewrite Hint;
           match goal with
           | |- context [("weight_offset", VInt ?o)] =>
               exists X, Y, Z, k, w, off, w0, w1, (Some o)
           | |- _ => exists X, Y, Z, k, w, off, w0, w1, None
           end;
           repeat apply conj; try assumption; try lia;
           try (intros ? [=]; subst; lia); try reflexivity;
           unfold difficult_outcome;
           first [ apply Hpos in Hb; apply Z.ltb_lt in Hb
                 | assert (Hb' : (w0 <? w1) = false)
                     by (destruct (w0 <? w1) eqn:E;
                         [apply Z.ltb_lt, Hpos in E; congruence | reflexivity]);
                   clear Hb; rename Hb' into Hb ];
           rewrite Hb
       end.
  all: try reflexivity.
  all: match goal with
       | |- context [?g + ?o] => rewrite (Z.add_comm g o); reflexivity
       end.
Qed.

End TiltedScalesFacts.

(** ** Balance puzzles: the generated answer is right *)

Module TiltedScalesClaims.
Import Py PyFacts TiltedScales TiltedScalesFacts.

Ltac weigh wt Hpos :=
  pose proof (Hpos "s" ltac:(simpl; auto));
  pose proof (Hpos "t" ltac:(simpl; auto));
  pose proof (Hpos "c" ltac:(simpl; auto)).

Ltac order_facts :=
  match goal with
  | Hc : (_ <? _) = true |- _ => apply Z.ltb_lt in Hc; pose proof (inj_lt Hc)
  | Hc : (_ <? _) = false |- _ =>
      apply Z.ltb_ge in Hc;
      match goal with
      | Hne : ?b <> ?a |- _ => assert (Hlt : b < a) by lia; pose proof (inj_lt Hlt)
      end
  end;
  repeat match goal with
  | Hr : 1 <= ?k <= _ |- _ =>
      assert (0 < inject_Z k)%Q by (apply (@inj_lt 0 k); lia); clear Hr
  end.

(** C1. Every run of the easy proportional-equality strategy draws distinct
    coefficients [k1], [k2] in 1..6 and an optional shared term [k3 * Z] on
    both pans. For all positive weights that balance the generated equality,
    the stored answer written into the stored template reads as a true
    statement (and so does the stored inequality under its operator), and the
    symbol with the smaller coefficient is the heavier one. With [k1 = 2],
    [k2 = 5] and operator [>] the answer is [[X; Y]]. *)
Theorem proportional_answer_correct tr p wt :
  In (tr, p) easy_puzzle_proportional_equality ->
  positive_weights wt ->
  balanced wt (p_equality p) ->
  exists X Y Z k1 k2 k3 o,
    drawn "shapes" tr = Some (VSyms [X; Y; Z]) /\
    drawn "k1" tr = Some (VInt k1) /\ drawn "k2" tr = Some (VInt k2) /\
    shapes (eq_left (p_equality p)) = [(X, k1); (Y, 0); (Z, k3)] /\
    shapes (eq_right (p_equality p)) = [(X, 0); (Y, k2); (Z, k3)] /\
    ineq_op (p_inequality p) = Some o /\ p_template p = "_" ++ o ++ "_" /\
    (1 <= k1 <= 6 /\ 1 <= k2 <= 6 /\ k1 <> k2 /\ 0 <= k3 <= 4) /\
    answer_fits wt p /\ inequality_holds wt o (p_inequality p) /\
    (k1 < k2 -> (wt Y < wt X)%Q) /\ (k2 < k1 -> (wt X < wt Y)%Q) /\
    (k1 = 2 -> k2 = 5 -> o = ">" -> p_answer p = [X; Y]).
Proof.
  unfold easy_puzzle_proportional_equality. intros H Hpos Hbal.
  gen_inv; shapes_cases.
  all: match goal with b : bool |- _ => destruct b end.
  all: item_inv; subst.
  all: try (cbn in *; discriminate).
  all: weigh wt Hpos; unfold balanced, side_total in Hbal; cbn in Hbal.
  all: do 7 eexists; repeat apply conj;
       try (match goal with |- _ = _ => reflexivity end); try (cbn; lia).
  all: try (intros; subst; simpl in *; congruence).
  all: unfold answer_fits, inequality_holds, statement_true, compare, side_total; cbn;
       change (inject_Z 0) with 0%Q in *; change (inject_Z 1) with 1%Q in *.
  all: order_facts.
  all: try (intros; lia); intros; nra.
Qed.

(** C2. Every run of the easy weighted-equality strategy shares one
    coefficient [k] in 1..4 and draws distinct additive weights [w1], [w2] in
    1..6. For all positive weights that balance the generated equality, the
    symbol on the side with the larger additive weight is the lighter one, and
    the stored answer written into the stored template reads as a true
    statement. *)
Theorem weighted_answer_correct tr p wt :
  In (tr, p) easy_puzzle_weighted_equality ->
  positive_weights wt ->
  balanced wt (p_equality p) ->
  exists X Y Z w1 w2 k o,
    drawn "shapes" tr = Some (VSyms [X; Y; Z]) /\
    drawn "w1" tr = Some (VInt w1) /\ drawn "w2" tr = Some (VInt w2) /\
    drawn "k1" tr = Some (VInt k) /\
    eq_left (p_equality p) = {| shapes := [(X, k); (Y, 0); (Z, 0)]; weight := w1 |} /\
    eq_right (p_equality p) = {| shapes := [(X, 0); (Y, k); (Z, 0)]; weight := w2 |} /\
    ineq_op (p_inequality p) = Some o /\ p_template p = "_" ++ o ++ "_" /\
    (1 <= w1 <= 6 /\ 1 <= w2 <= 6 /\ w1 <> w2 /\ 1 <= k <= 4) /\
    answer_fits wt p /\ inequality_holds wt o (p_inequality p) /\
    (w1 < w2 -> (wt Y < wt X)%Q) /\ (w2 < w1 -> (wt X < wt Y)%Q).
Proof.
  unfold easy_puzzle_weighted_equality. intros H Hpos Hbal.
  gen_inv; shapes_cases.
  all: match goal with b : bool |- _ => destruct b end.
  all: item_inv; subst.
  all: try (cbn in *; discriminate).
  all: unfold balanced, side_total in Hbal; cbn in Hbal.
  all: do 7 eexists; repeat apply conj;
       try (match goal with |- _ = _ => reflexivity end); try (cbn; lia).
  all: unfold answer_fits, inequality_holds, statement_true, compare, side_total; cbn;
       change (inject_Z 0) with 0%Q in *; change (inject_Z 1) with 1%Q in *.
  all: order_facts.
  all: try (intros; lia); intros; nra.
Qed.
Ltac shape_names :=
  match goal with
  | H : In [_; _; _] (arrangements 3 SHAPES) |- _ =>
      simpl in H;
      repeat (destruct H as [H | H]; [inversion H; subst; clear H | ]); try contradiction
  end.

Lemma order_ltb (k w off w0 w1 : Z) :
  1 <= k -> 2 <= off ->
  (w0 = k * w /\ w1 = k * (w + off)) \/ (w0 = k * (w + off) /\ w1 = k * w) ->
  ((w0 <? w1) = true /\ w1 - w0 = k * off) \/ ((w0 <? w1) = false /\ w0 - w1 = k * off).
Proof.
  intros Hk Hoff [[-> ->] | [-> ->]]; [left | right]; split;
    try (apply Z.ltb_lt; nia); try (apply Z.ltb_ge; nia); ring.
Qed.

(** C10. In every run of the difficult strategy the two side weights are
    [k * w] and [k * (w + w_offset)] with [w_offset] in 2..4, so [|d|] is
    exactly [w_offset], and the emitted gap [int(|d| - 1)] is [w_offset - 1],
    an integer in 1..3: a zero or negative gap cannot occur. *)
Theorem difficult_gap_in_range tr p :
  In (tr, p) difficult_puzzle_weighted_equality ->
  exists k w off,
    drawn "k1" tr = Some (VInt k) /\ drawn "w" tr = Some (VInt w) /\
    drawn "w_offset" tr = Some (VInt off) /\
    1 <= k <= 3 /\ 1 <= w <= 4 /\ 2 <= off <= 4 /\
    let w0 := weight (eq_left (p_equality p)) in
    let w1 := weight (eq_right (p_equality p)) in
    ((w0 = k * w /\ w1 = k * (w + off)) \/ (w0 = k * (w + off) /\ w1 = k * w)) /\
    let d := true_div (w1 - w0) k in
    (Qabs d == inject_Z off)%Q /\
    let gap := int_of_Q (Qabs d - 1) in
    gap = off - 1 /\ 1 <= gap <= 3 /\
    weight (ineq_right (p_inequality p)) - weight (ineq_left (p_inequality p)) = gap.
Proof.
  intros H. apply difficult_run in H.
  destruct H as (X & Y & Z & k & w & off & w0 & w1 & esc & HS & Hk & Hw & Hoff & Hord & Hesc & -> & ->).
  destruct (@gap_of_offset k w off w0 w1 ltac:(lia) ltac:(lia) Hord) as (_ & Habs & Hint & _ & _).
  exists k, w, off.
  assert (Hweights : weight (eq_left (p_equality (difficult_outcome k w0 w1 off esc X Y Z))) = w0 /\
                     weight (eq_right (p_equality (difficult_outcome k w0 w1 off esc X Y Z))) = w1)
    by (split; reflexivity).
  destruct Hweights as [E0 E1].
  cbv zeta. rewrite E0, E1, Hint.
  repeat apply conj; try reflexivity; try assumption; try lia.
  destruct esc; cbn; lia.
Qed.


(** C3, as the code has it. In every run of the difficult strategy the gap
    between the two inequality constants is [floor(|d|) - 1] with
    [d = (right weight - left weight) / k]. The template is [_>_+gap] when the
    harder branch is not taken and [_+Z+o>_+Z+(gap+o)] when it is; in both
    cases its operator is [>]. The first symbol of the answer is chosen by the
    sign of [d] and is the heavier unit for all weights that balance the
    equality. *)
Theorem difficult_gap_template_answer tr p wt :
  In (tr, p) difficult_puzzle_weighted_equality ->
  balanced wt (p_equality p) ->
  exists X Y Z k a0 a1,
    drawn "shapes" tr = Some (VSyms [X; Y; Z]) /\ drawn "k1" tr = Some (VInt k) /\
    let d := true_div (weight (eq_right (p_equality p)) - weight (eq_left (p_equality p))) k in
    let gap := floor_Q (Qabs d) - 1 in
    weight (ineq_right (p_inequality p)) - weight (ineq_left (p_inequality p)) = gap /\
    (drawn "increase_difficulty" tr = Some (VBool false) ->
       p_template p = "_>_+" ++ str_of_int gap) /\
    (drawn "increase_difficulty" tr = Some (VBool true) ->
       exists o, drawn "weight_offset" tr = Some (VInt o) /\
         p_template p = "_+" ++ Z ++ "+" ++ str_of_int o ++ ">_+" ++ Z ++ "+" ++ str_of_int (gap + o)) /\
    (exists st, parse_statement (fill (p_template p) (p_answer p)) = Some st /\ st_op st = ">") /\
    ineq_op (p_inequality p) = None /\
    p_answer p = [a0; a1] /\
    (a0, a1) = (if Qpositive d then (X, Y) else (Y, X)) /\
    (wt a1 < wt a0)%Q /\
    answer_fits wt p.
Proof.
  intros H Hbal. apply difficult_run in H.
  destruct H as (X & Y & Z & k & w & off & w0 & w1 & esc & HS & Hk & Hw & Hoff & Hord & Ho & -> & ->).
  destruct (@gap_of_offset k w off w0 w1 ltac:(lia) ltac:(lia) Hord) as (Hd & Habs & _ & Hfl & Hpos).
  exists X, Y, Z, k, (if w0 <? w1 then X else Y), (if w0 <? w1 then Y else X).
  assert (Hweights : weight (eq_left (p_equality (difficult_outcome k w0 w1 off esc X Y Z))) = w0 /\
                     weight (eq_right (p_equality (difficult_outcome k w0 w1 off esc X Y Z))) = w1)
    by (split; reflexivity).
  destruct Hweights as [E0 E1].
  cbv zeta. rewrite E0, E1, Hfl.
  assert (HQ : Qpositive (true_div (w1 - w0) k) = (w0 <? w1)).
  { destruct (w0 <? w1) eqn:E.
    - apply Hpos, Z.ltb_lt, E.
    - apply not_true_is_false. intros E'. apply Hpos, Z.ltb_lt in E'. congruence. }
  rewrite HQ.
  destruct (@order_ltb k w off w0 w1 ltac:(lia) ltac:(lia) Hord) as [[E Hdiff] | [E Hdiff]];
    rewrite E; clear Hd Hpos HQ Habs Hfl E0 E1.
  all: apply (f_equal inject_Z) in Hdiff; rewrite inject_Z_mult in Hdiff;
       unfold Z.sub in Hdiff; rewrite inject_Z_plus, inject_Z_opp in Hdiff;
       match type of Hdiff with ?l = ?r => assert (Hdiff' : (l == r)%Q) by (rewrite Hdiff; reflexivity) end;
       clear Hdiff.
  all: assert (Hkpos : (0 < inject_Z k)%Q) by (apply (@inj_lt 0 k); lia).
  all: shape_names.
  all: unfold balanced, side_total, difficult_outcome in Hbal; cbn in Hbal;
       change (inject_Z 0) with 0%Q in Hbal.
  all: match goal with
       | f : weights |- context [Qlt (?g ?b) (?g ?a)] =>
           constr_eq f g;
           assert (Hgap : (f a == f b + inject_Z off)%Q) by nra
       end;
       clear Hbal Hdiff' Hord Hkpos Hk Hw.
  all: assert (Hoffs : off = 2 \/ off = 3 \/ off = 4) by lia;
       destruct Hoffs as [-> | [-> | ->]].
  all: destruct esc as [o|];
       [ assert (Hos : o = 1 \/ o = 2 \/ o = 3 \/ o = 4 \/ o = 5) by (specialize (Ho o eq_refl); lia);
         destruct Hos as [-> | [-> | [-> | [-> | ->]]]]
       | ].
  all: unfold difficult_outcome, difficult_trace; rewrite E; clear E Ho.
  all: repeat apply conj; try reflexivity; try discriminate.
  all: try (intros _; eexists; split; reflexivity).
  all: try (eexists; split; reflexivity).
  all: try (unfold answer_fits, statement_true, compare; cbn).
  all: unfold inject_Z in *; lra.
Qed.

(** *** The theorems at the sample runs *)

Lemma positive_two_one (a : string) :
  positive_weights (fun sh => if String.eqb sh a then 2%Q else 1%Q).
Proof. intros sh _. destruct (String.eqb sh a); reflexivity. Qed.

Lemma positive_three_one (a : string) :
  positive_weights (fun sh => if String.eqb sh a then 3%Q else 1%Q).
Proof. intros sh _. destruct (String.eqb sh a); reflexivity. Qed.

Lemma proportional_answer_correct_witness :
  In proportional_example easy_puzzle_proportional_equality /\
  positive_weights proportional_weights /\
  balanced proportional_weights (p_equality (snd proportional_example)) /\
  answer_fits proportional_weights (snd proportional_example).
Proof.
  assert (Hin : In proportional_example easy_puzzle_proportional_equality)
    by (apply (@run_at _ _ 7%nat); vm_compute; reflexivity).
  assert (Hpos : positive_weights proportional_weights) by apply positive_two_one.
  assert (Hbal : balanced proportional_weights (p_equality (snd proportional_example)))
    by (vm_compute; reflexivity).
  split; [exact Hin|]. split; [exact Hpos|]. split; [exact Hbal|].
  destruct (@proportional_answer_correct _ _ _ Hin Hpos Hbal)
    as (X & Y & Z & k1 & k2 & k3 & o & H). apply H.
Defined.

Lemma weighted_answer_correct_witness :
  In weighted_example easy_puzzle_weighted_equality /\
  positive_weights weighted_weights /\
  balanced weighted_weights (p_equality (snd weighted_example)) /\
  answer_fits weighted_weights (snd weighted_example).
Proof.
  assert (Hin : In weighted_example easy_puzzle_weighted_equality)
    by (apply (@run_at _ _ 10%nat); vm_compute; reflexivity).
  assert (Hpos : positive_weights weighted_weights) by apply positive_two_one.
  assert (Hbal : balanced weighted_weights (p_equality (snd weighted_example)))
    by (vm_compute; reflexivity).
  split; [exact Hin|]. split; [exact Hpos|]. split; [exact Hbal|].
  destruct (@weighted_answer_correct _ _ _ Hin Hpos Hbal)
    as (X & Y & Z & w1 & w2 & k & o & H). apply H.
Defined.

Lemma difficult_gap_in_range_witness :
  In escalated_example difficult_puzzle_weighted_equality /\
  weight (ineq_right (p_inequality (snd escalated_example)))
  - weight (ineq_left (p_inequality (snd escalated_example))) = 1.
Proof.
  assert (Hin : In escalated_example difficult_puzzle_weighted_equality)
    by (apply (@run_at _ _ 7%nat); vm_compute; reflexivity).
  split; [exact Hin|].
  destruct (@difficult_gap_in_range _ _ Hin)
    as (k & w & off & Hk & _ & Hoff & _ & _ & _ & _ & _ & Hgap & _ & Hw).
  cbn in Hoff. injection Hoff as <-. cbv zeta in Hgap, Hw. rewrite Hgap in Hw. exact Hw.
Defined.


Lemma difficult_gap_template_answer_witness :
  In escalated_example difficult_puzzle_weighted_equality /\
  balanced escalated_weights (p_equality (snd escalated_example)) /\
  answer_fits escalated_weights (snd escalated_example).
Proof.
  assert (Hin : In escalated_example difficult_puzzle_weighted_equality)
    by (apply (@run_at _ _ 7%nat); vm_compute; reflexivity).
  assert (Hbal : balanced escalated_weights (p_equality (snd escalated_example)))
    by (vm_compute; reflexivity).
  split; [exact Hin|]. split; [exact Hbal|].
  destruct (@difficult_gap_template_answer _ _ _ Hin Hbal)
    as (X & Y & Z & k & a0 & a1 & H). apply H.
Defined.

(** C3 as worded fails: a run that takes the harder branch emits a template
    that is not of the form [_>_+gap], whatever the gap. *)
Lemma difficult_template_counterexample :
  In escalated_example difficult_puzzle_weighted_equality /\
  p_template (snd escalated_example) = "_+c+1>_+c+2" /\
  forall gap, p_template (snd escalated_example) <> "_>_+" ++ str_of_int gap.
Proof.
  split; [apply (@run_at _ _ 7%nat); vm_compute; reflexivity|].
  split; [reflexivity|].
  intros gap H. cbn in H. discriminate H.
Qed.

End TiltedScalesClaims.

(** ** Price puzzles: what the validator reports *)

Module WritingEquationsFacts.
Import Py WritingEquations.

(** *** Computations only ever append to [errs] *)

Lemma appends_ret {A} P (a : A) : appends P (vret a).
Proof. right. exists a, []. split; [constructor|]. intros. unfold vret. now rewrite app_nil_r. Qed.

Lemma appends_lift {A} P (r : result A) : appends P (lift r).
Proof.
  destruct r as [a|e]; [right | left].
  - exists a, []. split; [constructor|]. intros. simpl. now rewrite app_nil_r.
  - exists e. reflexivity.
Qed.

Lemma appends_require P c msg : P msg -> appends P (require c msg).
Proof.
  intros HP. right. destruct c.
  - exists true, []. split; [constructor|]. intros. unfold require. now rewrite app_nil_r.
  - exists false, [msg]. split; [repeat constructor; exact HP|]. reflexivity.
Qed.

Lemma appends_bind {A B} P (m : V A) (f : A -> V B) :
  appends P m -> (forall a, appends P (f a)) -> appends P (vbind m f).
Proof.
  intros [[e He] | (a & new & Hnew & Hm)] Hf.
  - left. exists e. intros. unfold vbind. now rewrite He.
  - destruct (Hf a) as [[e He] | (b & new' & Hnew' & Hfa)].
    + left. exists e. intros. unfold vbind. now rewrite Hm, He.
    + right. exists b, (new ++ new')%list. split.
      * apply Forall_app. auto.
      * intros. unfold vbind. now rewrite Hm, Hfa, app_assoc.
Qed.

Lemma appends_check P r msg : P msg -> appends P (check r msg).
Proof.
  intros HP. unfold check. apply appends_bind; [apply appends_lift|].
  intros c. apply appends_bind; [apply appends_require; exact HP|].
  intros _. apply appends_ret.
Qed.

Lemma appends_for_each {A} P (l : list A) (body : A -> V unit) :
  (forall x, appends P (body x)) -> appends P (for_each l body).
Proof.
  intros Hb. induction l as [|x r IH]; simpl.
  - apply appends_ret.
  - apply appends_bind; [apply Hb | intros _; exact IH].
Qed.

(** Reading [appends] at a run that returned. *)
Lemma appends_run {A} P (m : V A) errs a errs' :
  appends P m -> m errs = Ok (a, errs') ->
  exists new, errs' = (errs ++ new)%list /\ Forall P new /\
              forall s, m s = Ok (a, (s ++ new)%list).
Proof.
  intros [[e He] | (b & new & Hnew & Hm)] Hrun.
  - rewrite He in Hrun. discriminate.
  - rewrite Hm in Hrun. injection Hrun as <- <-. exists new. auto.
Qed.

Lemma bind_run {A B} (m : V A) (f : A -> V B) errs b errs' :
  vbind m f errs = Ok (b, errs') ->
  exists a mid, m errs = Ok (a, mid) /\ f a mid = Ok (b, errs').
Proof.
  unfold vbind. destruct (m errs) as [[a mid]|e]; [|discriminate].
  intros H. exists a, mid. auto.
Qed.

Lemma lift_run {A} (r : result A) errs a errs' :
  lift r errs = Ok (a, errs') -> r = Ok a /\ errs' = errs.
Proof. destruct r; simpl; [|discriminate]. intros [= -> ->]. auto. Qed.

(** *** No section but the third reports a table violation *)










(** *** What the third section appends *)

Lemma check_run r msg errs u errs' :
  check r msg errs = Ok (u, errs') ->
  exists b, r = Ok b /\ errs' = (errs ++ (if b then [] else [msg]))%list.
Proof.
  unfold check, vbind, lift, require, vret. destruct r as [b|e]; [|discriminate].
  intros [= _ <-]. exists b. split; [reflexivity|].
  destruct b; [now rewrite app_nil_r | reflexivity].
Qed.

Lemma rbind_ok {A B} (r : result A) (f : A -> result B) b :
  rbind r f = Ok b -> exists a, r = Ok a /\ f a = Ok b.
Proof. destruct r as [a|e]; simpl; [|discriminate]. eauto. Qed.

Lemma pos_int_in a : is_pos_int a && int_in 1 10 a = int_in 1 10 a.
Proof.
  destruct a; simpl; try reflexivity.
  destruct (1 <=? z) eqn:E1; simpl; [|apply andb_false_r].
  apply Z.leb_le in E1. replace (0 <? z) with true by (symmetry; apply Z.ltb_lt; lia).
  reflexivity.
Qed.

Lemma app_nil_iff {A} (l r : list A) : (l ++ r)%list = [] <-> l = [] /\ r = [].
Proof.
  split; [apply app_eq_nil | intros [-> ->]; reflexivity].
Qed.

Lemma if_nil_iff (b : bool) (msg : string) : (if b then [] else [msg]) = [] <-> b = true.
Proof. destruct b; split; intros; try reflexivity; discriminate. Qed.

Lemma check_table_spec item c errs u errs' :
  check_table item c errs = Ok (u, errs') ->
  exists table uv ud av ad tv td new,
    py_getitem item "table" = Ok table /\
    row_value table "unit_price" = Ok uv /\ row_display table "unit_price" = Ok ud /\
    row_value table "amount" = Ok av /\ row_display table "amount" = Ok ad /\
    row_value table "total" = Ok tv /\ row_display table "total" = Ok td /\
    errs' = (errs ++ new)%list /\
    Forall (fun msg => In msg table_messages) new /\
    (new = [] <->
     table_rules (mk_table_view (slope_m c) (x_unit c) (x_ulab c) uv ud av ad tv td)).
Proof.
  unfold check_table. intros H.
  repeat match type of H with
  | vbind (lift _) _ _ = Ok _ =>
      apply bind_run in H; destruct H as (? & ? & Hl & H);
      apply lift_run in Hl; destruct Hl as [? ->]
  end.
  repeat match type of H with
  | vbind (check _ _) _ _ = Ok _ =>
      apply bind_run in H; destruct H as (? & ? & Hc & H);
      apply check_run in Hc; destruct Hc as (? & ? & ->)
  end.
  unfold vret in H. injection H as _ <-.
  repeat match goal with
  | Hc : Ok _ = Ok _ |- _ => injection Hc as <-
  end.
  do 7 eexists. eexists.
  repeat (split; [eassumption|]).
  split; [rewrite <- !app_assoc; reflexivity|].
  match goal with
  | Ht : and_then _ _ = Ok ?b |- _ => rename Ht into Htot; rename b into btot
  end.
  split.
  - repeat (apply Forall_app; split);
      match goal with
      | |- Forall _ (if ?b then _ else _) => destruct b; repeat constructor; simpl; tauto
      end.
  - unfold table_rules; cbn [t_slope t_unit t_ulab up_val up_disp amt_val amt_disp tot_val tot_disp].
    rewrite pos_int_in.
    match type of Htot with
    | and_then (Ok (is_pos_int ?tv)) (rbind (py_mul _ ?av) _) = _ =>
        assert (Htot' : btot = true <->
                  is_pos_int tv = true /\
                  exists prod, py_mul (slope_m c) av = Ok prod /\ py_eq tv prod = true);
        [ unfold and_then in Htot; simpl in Htot; destruct (is_pos_int tv) | ]
    end.
    {
      apply rbind_ok in Htot. destruct Htot as (prod & Hp & [= <-]). rewrite Hp. split.
      - intros E. split; [reflexivity|]. eauto.
      - intros [_ (prod' & [= <-] & E)]. exact E. }
    { injection Htot as <-. split; [discriminate | intros [E _]; discriminate]. }
    rewrite !app_nil_iff, !if_nil_iff, !andb_true_iff, Htot'. tauto.
Qed.

End WritingEquationsFacts.

Module DedupeFacts.
Import Py WritingEquations.

(** *** Equality of hashable values is an equivalence *)


Lemma py_eq_hashable a b : hashable a = true -> py_eq a b = true -> hashable b = true.
Proof. destruct a, b; simpl; intros; try reflexivity; discriminate. Qed.





(** *** The loop keeps exactly the first occurrences *)





(** *** What is kept has no repeated key left *)





(** *** The batch loop *)

Lemma validate_item_verdict it ok errs :
  validate_item it = Ok (ok, errs) -> (ok = true <-> errs = []).
Proof.
  unfold validate_item.
  destruct (check_root_keys it []) as [[u e0]|e]; [|discriminate].
  destruct e0 as [|m r].
  - destruct (check_sections it []) as [[u' e1]|e]; [|discriminate].
    intros [= <- <-]. destruct e1; simpl; split; intros; congruence.
  - intros [= <- <-]. split; intros; discriminate.
Qed.



End DedupeFacts.

Module WritingEquationsClaims.
Import Py WritingEquations WritingEquationsFacts DedupeFacts.

(** *** Presence of the top-level fields *)

Lemma root_keys_run d keys errs :
  for_each keys (fun k => check (py_in k (JDict d)) ("missing key: " ++ k)) errs
  = Ok (tt, (errs ++ map (fun k => ("missing key: " ++ k)%string)
                        (filter (missing (JDict d)) keys))%list).
Proof.
  revert errs. induction keys as [|k r IH]; intros errs; simpl.
  - now rewrite app_nil_r.
  - unfold vbind at 1. unfold check, vbind, lift, require, vret, missing. simpl.
    destruct (lookup k d); simpl.
    + apply IH.
    + rewrite IH, <- app_assoc. reflexivity.
Qed.


(** C7. If any of the eight required top-level fields is missing from an
    item, [validate_item] runs no further check: it returns a fail verdict
    whose violations are exactly the missing-field errors, one per missing
    field in the order of [REQ_ROOT_KEYS]. *)
Theorem missing_field_aborts (d : list (string * json)) :
  (exists k, In k REQ_ROOT_KEYS /\ lookup k d = None) ->
  validate_item (JDict d)
  = Ok (false, map (fun k => "missing key: " ++ k)
                   (filter (fun k => match lookup k d with None => true | Some _ => false end)
                           REQ_ROOT_KEYS)).
Proof.
  intros (k & Hin & Hk). unfold validate_item, check_root_keys.
  rewrite root_keys_run.
  set (gone := filter (fun k => match lookup k d with None => true | Some _ => false end)
                      REQ_ROOT_KEYS).
  assert (Hf : filter (missing (JDict d)) REQ_ROOT_KEYS = gone).
  { apply filter_ext. intros x. unfold missing. simpl. destruct (lookup x d); reflexivity. }
  rewrite Hf.
  assert (Hne : In k gone).
  { apply filter_In. split; [exact Hin|]. now rewrite Hk. }
  destruct gone as [|x r]; [destruct Hne|]. reflexivity.
Qed.

Lemma missing_field_aborts_witness :
  (exists k, In k REQ_ROOT_KEYS /\ lookup k [("id", JInt 1)] = None) /\
  validate_item (JDict [("id", JInt 1)])
  = Ok (false, ["missing key: stem"; "missing key: table"; "missing key: graph";
                "missing key: equation_template"; "missing key: tokens";
                "missing key: answers"; "missing key: explanation"]).
Proof.
  assert (H : exists k, In k REQ_ROOT_KEYS /\ lookup k [("id", JInt 1)] = None).
  { exists "stem". split; [simpl; auto | reflexivity]. }
  split; [exact H|].
  exact (missing_field_aborts [("id", JInt 1)] H).
Defined.

(** *** The table section *)




Lemma bananas_with_root_keys name us ud td total :
  has_root_keys (bananas_with name us ud td total).
Proof.
  intros k Hk. simpl in Hk.
  repeat (destruct Hk as [<- | Hk]; [reflexivity|]). destruct Hk.
Qed.


(** Scenario 1, continued: a total display of [$15.00] fails. *)
Lemma total_display_15_fails :
  validate_item bananas_15
  = Ok (false, ["total.display must start with '$' and include total value"]).
Proof. vm_compute. reflexivity. Qed.


(** *** Verdict, and the item that has no slope *)

(** C6. The verdict [validate_item] returns is true exactly when the list of
    violations is empty; checks after a violated one still run (here four
    sections each add their violation). But on an item with all required
    top-level fields whose context has no [slope_m], [validate_item] returns
    nothing: line 107 multiplies [None] by the amount and raises
    [TypeError]. *)
Theorem validate_item_without_slope :
  (forall item ok errs, validate_item item = Ok (ok, errs) -> (ok = true <-> errs = [])) /\
  has_root_keys bananas_without_slope /\
  validate_item bananas_without_slope = Raise TypeError.
Proof.
  split; [intros item ok errs; apply validate_item_verdict|].
  split; [apply bananas_with_root_keys|].
  vm_compute. reflexivity.
Qed.

(** *** De-duplication *)





(** *** Running the validator on its own output *)



End WritingEquationsClaims.

(** ** Strings *)

Module PyStringFacts.
Import Py WritingEquations.

Lemma length_append (a b : string) :
  String.length (a ++ b) = (String.length a + String.length b)%nat.
Proof. induction a as [|c a IH]; simpl; [reflexivity|]. now rewrite IH. Qed.

Lemma append_assoc (a b c : string) : (a ++ b) ++ c = a ++ b ++ c.
Proof. induction a as [|x a IH]; simpl; [reflexivity|]. now rewrite IH. Qed.

Lemma append_empty (a : string) : a ++ "" = a.
Proof. induction a as [|x a IH]; simpl; [reflexivity|]. now rewrite IH. Qed.

Lemma append_inv_head (a x y : string) : a ++ x = a ++ y -> x = y.
Proof. induction a as [|c a IH]; simpl; intros H; [exact H|]. injection H as H. auto. Qed.




Lemma rev_string_involutive s : rev_string (rev_string s) = s.
Proof.
  unfold rev_string. rewrite list_ascii_of_string_of_list_ascii, rev_involutive.
  apply string_of_list_ascii_of_string.
Qed.

End PyStringFacts.

(** ** Price puzzles: what a passed item guarantees *)

Module PassedItemsFacts.
Import Py WritingEquations WritingEquationsFacts PassedItems.

(** *** A run that ends without a violation had none on the way *)

Ltac grow_step :=
  first
    [ apply appends_ret
    | apply appends_lift
    | apply appends_require; exact I
    | apply appends_check; exact I
    | apply appends_bind; [ | intros ? ]
    | apply appends_for_each; intros ?
    | match goal with
      | |- appends _ (match ?x with _ => _ end) => destruct x
      | |- appends _ (if ?x then _ else _) => destruct x
      | |- appends _ (let _ := _ in _) => cbv zeta
      end ].

Lemma check_token_labels_grows slope seen ts :
  appends any_msg (check_token_labels slope seen ts).
Proof.
  revert seen. induction ts as [|t r IH]; intros seen; simpl.
  - apply appends_ret.
  - repeat grow_step; apply IH.
Qed.

Ltac grows := repeat first [ apply check_token_labels_grows | grow_step ].

Lemma check_context_grows item : appends any_msg (check_context item).
Proof. unfold check_context. grows. Qed.

Lemma check_table_grows item c : appends any_msg (check_table item c).
Proof. unfold check_table. grows. Qed.

Lemma check_graph_grows item c : appends any_msg (check_graph item c).
Proof. unfold check_graph. grows. Qed.

Lemma check_tokens_grows item c : appends any_msg (check_tokens item c).
Proof. unfold check_tokens. grows. Qed.

Lemma check_answers_grows item c tmpl tokens :
  appends any_msg (check_answers item c tmpl tokens).
Proof. unfold check_answers. grows. Qed.

Lemma check_explanation_grows item c : appends any_msg (check_explanation item c).
Proof. unfold check_explanation. grows. Qed.

Lemma quiet_bind {A B} (m : V A) (f : A -> V B) b :
  appends any_msg m -> (forall a, appends any_msg (f a)) ->
  vbind m f [] = Ok (b, []) -> exists a, m [] = Ok (a, []) /\ f a [] = Ok (b, []).
Proof.
  intros Hm Hf H. apply bind_run in H. destruct H as (a & mid & H1 & H2).
  destruct (@appends_run _ _ _ _ _ _ (Hf a) H2) as (new & Hnew & _).
  symmetry in Hnew. apply app_eq_nil in Hnew. destruct Hnew as [-> _].
  exists a. auto.
Qed.

Lemma quiet_lift {A B} (r : result A) (f : A -> V B) b errs :
  vbind (lift r) f [] = Ok (b, errs) -> exists a, r = Ok a /\ f a [] = Ok (b, errs).
Proof.
  intros H. apply bind_run in H. destruct H as (a & mid & H1 & H2).
  apply lift_run in H1. destruct H1 as [-> ->]. exists a. auto.
Qed.

Lemma quiet_require {B} c msg (k : bool -> V B) b :
  (forall x, appends any_msg (k x)) ->
  vbind (require c msg) k [] = Ok (b, []) -> c = true /\ k true [] = Ok (b, []).
Proof.
  intros Hk H. apply quiet_bind in H; [|apply appends_require; exact I|exact Hk].
  destruct H as (a & H1 & H2). unfold require in H1. destruct c; [|discriminate].
  injection H1 as <-. auto.
Qed.

Lemma quiet_check {B} r msg (k : unit -> V B) b :
  (forall x, appends any_msg (k x)) ->
  vbind (check r msg) k [] = Ok (b, []) -> r = Ok true /\ k tt [] = Ok (b, []).
Proof.
  intros Hk H. apply quiet_bind in H; [|apply appends_check; exact I|exact Hk].
  destruct H as ([] & H1 & H2). apply check_run in H1. destruct H1 as (c & -> & Hc).
  destruct c; [auto | discriminate].
Qed.

Lemma quiet_check_end r msg u :
  check r msg [] = Ok (u, []) -> r = Ok true.
Proof.
  intros H. apply check_run in H. destruct H as (c & -> & Hc).
  destruct c; [auto | discriminate].
Qed.

Lemma quiet_for_each {A} (l : list A) (body : A -> V unit) :
  (forall x, appends any_msg (body x)) ->
  for_each l body [] = Ok (tt, []) -> Forall (fun x => body x [] = Ok (tt, [])) l.
Proof.
  intros Hb. induction l as [|x r IH]; simpl; intros H; [constructor|].
  apply quiet_bind in H; [|apply Hb|intros _; apply appends_for_each, Hb].
  destruct H as ([] & H1 & H2). constructor; auto.
Qed.

(** A run of all of [validate_item] with a true verdict, section by section. *)
Lemma passed_sections item errs :
  validate_item item = Ok (true, errs) ->
  errs = [] /\
  exists c tmpl tokens,
    check_context item [] = Ok (c, []) /\
    check_table item c [] = Ok (tt, []) /\
    check_graph item c [] = Ok (tt, []) /\
    check_tokens item c [] = Ok ((tmpl, tokens), []) /\
    check_answers item c tmpl tokens [] = Ok (tt, []) /\
    check_explanation item c [] = Ok (tt, []).
Proof.
  unfold validate_item.
  destruct (check_root_keys item []) as [[u e0]|e]; [|discriminate].
  destruct e0 as [|m0 r0]; [|discriminate].
  destruct (check_sections item []) as [[u' e1]|e] eqn:Hs; [|discriminate].
  intros [= Hlen <-]. destruct e1; [|discriminate]. split; [reflexivity|].
  destruct u'. unfold check_sections in Hs.
  apply quiet_bind in Hs; [|apply check_context_grows|intros; grows; first [apply check_table_grows|apply check_graph_grows|apply check_tokens_grows|apply check_answers_grows|apply check_explanation_grows]].
  destruct Hs as (c & Hc & Hs).
  apply quiet_bind in Hs; [|apply check_table_grows|intros; grows; first [apply check_graph_grows|apply check_tokens_grows|apply check_answers_grows|apply check_explanation_grows]].
  destruct Hs as ([] & Ht & Hs).
  apply quiet_bind in Hs; [|apply check_graph_grows|intros; grows; first [apply check_tokens_grows|apply check_answers_grows|apply check_explanation_grows]].
  destruct Hs as ([] & Hg & Hs).
  apply quiet_bind in Hs; [|apply check_tokens_grows|intros; grows; first [apply check_answers_grows|apply check_explanation_grows]].
  destruct Hs as ([tmpl tokens] & Hk & Hs).
  apply quiet_bind in Hs; [|apply check_answers_grows|intros; apply check_explanation_grows].
  destruct Hs as ([] & Ha & He).
  exists c, tmpl, tokens. auto 10.
Qed.

End PassedItemsFacts.

Module PassedContextFacts.
Import Py WritingEquations WritingEquationsFacts PassedItems PassedItemsFacts.

Ltac qlift H x Hx := apply quiet_lift in H; destruct H as (x & Hx & H).
Ltac qreq H Hc :=
  apply quiet_require in H; [ destruct H as (Hc & H) | intros; solve [grows] ].
Ltac qchk H Hc :=
  apply quiet_check in H; [ destruct H as (Hc & H) | intros; solve [grows] ].

(** A non-empty result of [norm(obj.get(k, ""))] is the trimmed string that
    [obj] holds under [k]. *)
Lemma norm_get_text obj k s :
  norm_get obj k = Ok s -> s <> "" ->
  exists d raw, obj = JDict d /\ lookup k d = Some (JStr raw) /\ s = strip raw.
Proof.
  unfold norm_get, py_get. destruct obj; simpl; try discriminate.
  intros H Hs. exists d. destruct (lookup k d) as [v|]; simpl in H.
  - unfold norm in H. destruct (truthy v); [|injection H as <-; congruence].
    destruct v; try discriminate. injection H as <-. eauto.
  - injection H as <-. congruence.
Qed.

Lemma norm_get_at d k s :
  norm_get (JDict d) k = Ok s -> s <> "" -> text_at [k] (JDict d) = Some s.
Proof.
  intros Hn Hs. destruct (@norm_get_text _ _ _ Hn Hs) as (d' & raw & [= <-] & Hl & ->).
  unfold text_at. simpl. now rewrite Hl.
Qed.

Lemma py_get_dict obj k dflt v :
  py_get obj k dflt = Ok v ->
  exists d, obj = JDict d /\ v = match lookup k d with Some x => x | None => dflt end.
Proof. destruct obj; simpl; try discriminate. intros [= <-]. eauto. Qed.

Lemma py_getitem_dict obj k v :
  py_getitem obj k = Ok v -> exists d, obj = JDict d /\ lookup k d = Some v.
Proof.
  destruct obj; simpl; try discriminate. destruct (lookup k d) eqn:E; [|discriminate].
  intros [= <-]. eauto.
Qed.

Lemma int_in_range lo hi v : int_in lo hi v = true -> exists z, v = JInt z /\ lo <= z <= hi.
Proof.
  destruct v; simpl; try discriminate. rewrite andb_true_iff, !Z.leb_le. eauto.
Qed.

Lemma lower_ne_empty s : lower s <> "" -> s <> "".
Proof. destruct s; simpl; congruence. Qed.

(** The three modes. *)
Lemma modes_cases xv en eu el :
  lookup xv MODES = Some (en, eu, el) ->
  (xv, en, eu, el) = ("w", "weight", "kg", "kg") \/
  (xv, en, eu, el) = ("v", "volume", "L", "L") \/
  (xv, en, eu, el) = ("n", "items", "pcs", "pc").
Proof.
  unfold MODES. cbn [lookup]. intros H.
  destruct (String.eqb "w" xv) eqn:E1.
  { apply String.eqb_eq in E1. subst. injection H as <- <- <-. auto. }
  destruct (String.eqb "v" xv) eqn:E2.
  { apply String.eqb_eq in E2. subst. injection H as <- <- <-. auto. }
  destruct (String.eqb "n" xv) eqn:E3; [|discriminate].
  apply String.eqb_eq in E3. subst. injection H as <- <- <-. auto.
Qed.

(** What section 2 has established when it reports nothing. *)
Lemma context_facts item c :
  check_context item [] = Ok (c, []) ->
  exists d sd cd m yn nm pt,
    item = JDict d /\ lookup "stem" d = Some (JDict sd) /\
    lookup "context" sd = Some (JDict cd) /\ ctx c = JDict cd /\
    slope_m c = JInt m /\ 1 <= m <= 20 /\ lookup "slope_m" cd = Some (JInt m) /\
    lookup (x_var c) MODES = Some (lower (x_name c), x_unit c, x_ulab c) /\
    text_at ["y_var"] (JDict cd) = Some "p" /\
    text_at ["y_name"] (JDict cd) = Some yn /\ lower yn = "price" /\
    text_at ["y_unit"] (JDict cd) = Some "$" /\
    text_at ["x_var"] (JDict cd) = Some (x_var c) /\
    text_at ["x_name"] (JDict cd) = Some (x_name c) /\
    text_at ["x_unit"] (JDict cd) = Some (x_unit c) /\
    text_at ["x_unit_label"] (JDict cd) = Some (x_ulab c) /\
    text_at ["item_name"] (JDict cd) = Some nm /\ nm <> "" /\
    text_at ["prompt_text"] (JDict sd) = Some pt /\
    contains pt "p" || contains (lower pt) "price" = true /\
    contains pt (x_var c) || contains (lower pt) (x_name c) = true /\
    contains pt "$" = true /\
    contains (lower pt) (lower nm) = true.
Proof.
  unfold check_context. intros H.
  qlift H stem Hstem. qlift H cx Hcx.
  qlift H yv Hyv. qlift H yn Hyn. qlift H yu Hyu.
  qlift H xv Hxv. qlift H xn Hxn. qlift H xu Hxu. qlift H xl Hxl.
  qlift H nm Hnm. qlift H sl Hsl.
  qreq H Eyv. qreq H Eyn. qreq H Eyu. qreq H Emode.
  apply quiet_bind in H; [|grows|intros; grows]. destruct H as ([] & Hmode & H).
  qreq H Enm. qreq H Esl. qlift H pt Hpt.
  qreq H Ep. qreq H Ex. qreq H Ed. qreq H En.
  unfold vret in H. injection H as <-. cbn [ctx slope_m x_var x_name x_unit x_ulab].
  apply String.eqb_eq in Eyv, Eyn, Eyu. apply negb_true_iff in Enm.
  apply String.eqb_neq in Enm.
  destruct (lookup xv MODES) as [[[en eu] el]|] eqn:Hmodes; [|discriminate].
  qreq Hmode Een. qreq Hmode Eeu. qreq Hmode Eel. clear Hmode.
  apply String.eqb_eq in Een, Eeu, Eel.
  apply py_getitem_dict in Hstem. destruct Hstem as (d & -> & Hstem).
  apply py_get_dict in Hcx. destruct Hcx as (sd & -> & Hcx).
  apply int_in_range in Esl. destruct Esl as (m & -> & Hm).
  apply py_get_dict in Hsl. destruct Hsl as (cd & -> & Hsl).
  destruct (lookup "context" sd) as [cv|] eqn:Hc;
    [subst cv | injection Hcx as ->; subst yv; discriminate Hyv].
  destruct (lookup "slope_m" cd) as [sv|] eqn:Hslope; [|discriminate]. subst sv.
  assert (Hne : xv <> "" /\ en <> "" /\ eu <> "" /\ el <> "").
  { destruct (@modes_cases _ _ _ _ Hmodes) as [E | [E | E]]; inversion E; subst;
      repeat split; discriminate. }
  destruct Hne as (Hn1 & Hn2 & Hn3 & Hn4).
  assert (Hpt' : pt <> "").
  { intros ->. simpl in Ed. discriminate. }
  subst yv yu en eu el.
  exists d, sd, cd, m, yn, nm, pt.
  repeat apply conj; try reflexivity; try assumption; try lia.
  all: apply norm_get_at; try assumption; try discriminate.
  - apply lower_ne_empty. rewrite Eyn. discriminate.
  - apply lower_ne_empty. assumption.
Qed.

End PassedContextFacts.

Module PassedSectionsFacts.
Import Py WritingEquations WritingEquationsFacts PassedItems PassedItemsFacts PassedContextFacts.

Lemma py_get_found obj k dflt v :
  py_get obj k dflt = Ok v -> v <> dflt -> exists d, obj = JDict d /\ lookup k d = Some v.
Proof.
  intros H Hv. apply py_get_dict in H. destruct H as (d & -> & ->).
  exists d. split; [reflexivity|]. destruct (lookup k d); [reflexivity | congruence].
Qed.

Lemma row_value_field table row v :
  row_value table row = Ok v -> v <> JNull -> field [row; "value"] table = Some v.
Proof.
  unfold row_value. intros H Hv. apply rbind_ok in H. destruct H as (r & Hr & Hval).
  apply (@py_get_found _ _ _ _ Hval) in Hv. destruct Hv as (rd & -> & Hl).
  apply py_get_found in Hr.
  - destruct Hr as (td & -> & Hrow). simpl. now rewrite Hrow, Hl.
  - intros [= ->]. discriminate.
Qed.

Lemma pos_int_eq v m : is_pos_int v = true -> py_eq v (JInt m) = true -> v = JInt m /\ 0 < m.
Proof.
  destruct v; simpl; try discriminate. intros Hp He.
  apply Z.ltb_lt in Hp. apply Z.eqb_eq in He. subst. auto.
Qed.

(** What section 3 has established when it reports nothing. *)
Lemma table_facts item c m :
  check_table item c [] = Ok (tt, []) -> slope_m c = JInt m ->
  exists a,
    field ["table"; "unit_price"; "value"] item = Some (JInt m) /\
    field ["table"; "amount"; "value"] item = Some (JInt a) /\ 1 <= a <= 10 /\
    field ["table"; "total"; "value"] item = Some (JInt (m * a)).
Proof.
  intros H Hm. apply check_table_spec in H.
  destruct H as (table & uv & ud & av & ad & tv & td & new & Htab & Huv & _ & Hav & _ & Htv & _
                 & Hnew & _ & Hrules).
  simpl in Hnew. subst new. destruct Hrules as [Hrules _]. specialize (Hrules eq_refl).
  destruct Hrules as ((Hup & Hue) & _ & Ha & _ & (Htp & prod & Hmul & Hte) & _).
  cbn [up_val t_slope amt_val tot_val] in *. rewrite Hm in *.
  destruct (@pos_int_eq _ _ Hup Hue) as [-> Hmpos].
  apply int_in_range in Ha. destruct Ha as (a & -> & Ha).
  simpl in Hmul. injection Hmul as <-.
  destruct (@pos_int_eq _ _ Htp Hte) as [-> _].
  apply py_getitem_dict in Htab. destruct Htab as (d & -> & Htab).
  exists a.
  assert (Hf : forall row v, row_value table row = Ok v -> v <> JNull ->
                 field ["table"; row; "value"] (JDict d) = Some v).
  { intros row v Hr Hv. cbn [field]. rewrite Htab. apply row_value_field; assumption. }
  repeat apply conj; try lia; apply Hf; try assumption; discriminate.
Qed.

Lemma and_then_true a b : and_then a b = Ok true -> a = Ok true /\ b = Ok true.
Proof.
  unfold and_then. destruct a as [[|]|e]; simpl; intros H; try discriminate. auto.
Qed.

Lemma list_of_length n v :
  and_then (Ok (is_list v)) (len_is n v) = Ok true ->
  exists l, v = JList l /\ Z.of_nat (length l) = n.
Proof.
  intros H. apply and_then_true in H. destruct H as [Hl Hn].
  destruct v; try discriminate. unfold len_is in Hn. simpl in Hn.
  injection Hn as Hn. apply Z.eqb_eq in Hn. eauto.
Qed.

Lemma inc_pos_ints l :
  forall prev, inc_pos_list prev l = true ->
  exists zs, l = map JInt zs /\ Forall (Z.lt 0) zs /\ StronglySorted Z.lt zs /\
             forall p, prev = Some p -> Forall (Z.lt p) zs.
Proof.
  induction l as [|v r IH]; intros prev H.
  - exists []. repeat split; constructor.
  - simpl in H. destruct v; try discriminate.
    apply andb_true_iff in H. destruct H as [H Hr].
    apply andb_true_iff in H. destruct H as [Hpos Hprev].
    apply Z.ltb_lt in Hpos.
    apply IH in Hr. destruct Hr as (zs & -> & Hall & Hsorted & Habove).
    specialize (Habove z eq_refl).
    exists (z :: zs). repeat split.
    + constructor; assumption.
    + constructor; assumption.
    + intros p ->. apply Z.ltb_lt in Hprev. constructor; [exact Hprev|].
      eapply Forall_impl; [|exact Habove]. intros x Hx. simpl in Hx. lia.
Qed.

Lemma ticks_on_line m msg zs :
  forall ws, length ws = length zs ->
  Forall (fun xy => check (rbind (py_mul (JInt m) (fst xy)) (fun p => Ok (py_eq (snd xy) p)))
                          msg [] = Ok (tt, []))
         (combine (map JInt zs) (map JInt ws)) ->
  ws = map (Z.mul m) zs.
Proof.
  induction zs as [|z zs IH]; intros [|w ws] Hlen H; try discriminate; [reflexivity|].
  simpl in H. inversion H as [|? ? Hhd Htl]; subst.
  apply quiet_check_end in Hhd. simpl in Hhd. injection Hhd as Hhd. apply Z.eqb_eq in Hhd.
  subst w. simpl. f_equal. apply IH; [simpl in Hlen; lia | exact Htl].
Qed.

Lemma pt_ok_on_line m p : pt_ok (JInt m) p = Ok true -> exists x, p = JList [JInt x; JInt (m * x)].
Proof.
  destruct p as [| | | |l|]; simpl; try discriminate.
  destruct l as [|a [|b [|? ?]]]; try discriminate;
    destruct a; try discriminate; destruct b; try discriminate.
  simpl. intros [= H]. apply Z.eqb_eq in H. subst. eauto.
Qed.

Lemma lower_empty s : lower s = "" -> s = "".
Proof. destruct s; simpl; [reflexivity | discriminate]. Qed.

Lemma eqb_lower_text obj k s t :
  norm_get obj k = Ok s -> String.eqb (lower s) t = true -> t <> "" ->
  exists d, obj = JDict d /\ text_at [k] obj = Some s.
Proof.
  intros Hn He Ht. apply String.eqb_eq in He.
  assert (Hs : s <> "") by (intros ->; simpl in He; congruence).
  destruct (@norm_get_text _ _ _ Hn Hs) as (d & raw & -> & Hl & ->).
  exists d. split; [reflexivity|]. unfold text_at. simpl. now rewrite Hl.
Qed.

(** What section 4 has established when it reports nothing. *)
Lemma graph_facts item c m :
  check_graph item c [] = Ok (tt, []) -> slope_m c = JInt m ->
  exists zs xlab ylab x1 x2,
    field ["graph"; "x_axis"; "ticks"] item = Some (JList (map JInt zs)) /\
    field ["graph"; "y_axis"; "ticks"] item
      = Some (JList (map JInt (map (Z.mul m) zs))) /\
    length zs = 5%nat /\ Forall (Z.lt 0) zs /\ StronglySorted Z.lt zs /\
    text_at ["graph"; "x_axis"; "label"] item = Some xlab /\
    lower xlab = lower (x_name c ++ " (" ++ x_unit c ++ ")") /\
    text_at ["graph"; "y_axis"; "label"] item = Some ylab /\
    lower ylab = "price ($)" /\
    field ["graph"; "line_points"] item
      = Some (JList [JList [JInt x1; JInt (m * x1)]; JList [JInt x2; JInt (m * x2)]]) /\
    x1 <> x2.
Proof.
  unfold check_graph. intros H Hm. rewrite Hm in H.
  qlift H graph Hgraph. qlift H xaxis Hxaxis. qlift H yaxis Hyaxis.
  qlift H x_ticks Hxt. qlift H y_ticks Hyt.
  qlift H x_label Hxl. qreq H Exl. qlift H y_label Hyl. qreq H Eyl.
  qchk H Ex5. qchk H Ey5. qlift H both5 Hboth.
  apply quiet_bind in H; [|grows|intros; grows]. destruct H as ([] & Hticks & H).
  qlift H line_pts Hlp. qchk H E2. qlift H two Htwo.
  apply list_of_length in Ex5, Ey5, E2.
  destruct Ex5 as (xs & -> & Hxlen). destruct Ey5 as (ys & -> & Hylen).
  destruct E2 as (ps & -> & Hplen).
  unfold len_is in Hboth, Htwo. simpl in Hboth, Htwo.
  rewrite Hxlen, Hylen in Hboth. simpl in Hboth. injection Hboth as <-.
  rewrite Hplen in Htwo. simpl in Htwo. injection Htwo as <-.
  qchk Hticks Eincx. qchk Hticks Eincy. qlift Hticks xs' Hxs'. qlift Hticks ys' Hys'.
  simpl in Hxs', Hys'. injection Hxs' as <-. injection Hys' as <-.
  apply quiet_for_each in Hticks; [|intros; grows].
  simpl in Eincx, Eincy. injection Eincx as Eincx. injection Eincy as Eincy.
  apply inc_pos_ints in Eincx, Eincy.
  destruct Eincx as (zs & -> & Hpos & Hsorted & _). destruct Eincy as (ws & -> & _ & _ & _).
  rewrite length_map in Hxlen, Hylen.
  assert (Hws : ws = map (Z.mul m) zs).
  { eapply ticks_on_line; [lia | exact Hticks]. }
  subst ws.
  qlift H pts Hpts. simpl in Hpts. injection Hpts as <-.
  destruct ps as [|p1 [|p2 [|? ?]]]; try (simpl in Hplen; lia).
  apply quiet_check_end in H.
  apply and_then_true in H. destruct H as [Hp1 H].
  apply and_then_true in H. destruct H as [Hp2 Hne].
  apply pt_ok_on_line in Hp1, Hp2. destruct Hp1 as (x1 & ->). destruct Hp2 as (x2 & ->).
  injection Hne as Hne. apply negb_true_iff in Hne. simpl in Hne.
  assert (Hx : x1 <> x2).
  { intros ->. rewrite !Z.eqb_refl in Hne. discriminate. }
  apply py_getitem_dict in Hgraph. destruct Hgraph as (d & -> & Hgraph).
  apply py_get_found in Hlp; [|discriminate]. destruct Hlp as (gd & -> & Hlp).
  apply py_get_found in Hxt; [|destruct zs; discriminate]. destruct Hxt as (xd & -> & Hxt).
  apply py_get_found in Hyt; [|destruct zs; discriminate]. destruct Hyt as (yd & -> & Hyt).
  apply py_get_found in Hxaxis; [|intros [= ->]; discriminate].
  destruct Hxaxis as (gd' & [= <-] & Hxaxis).
  apply py_get_found in Hyaxis; [|intros [= ->]; discriminate].
  destruct Hyaxis as (gd' & [= <-] & Hyaxis).
  destruct (@eqb_lower_text _ _ _ _ Hxl Exl) as (xd' & _ & Hxlab).
  { intros E. apply lower_empty in E. destruct (x_name c); discriminate. }
  destruct (@eqb_lower_text _ _ _ _ Hyl Eyl) as (yd' & _ & Hylab); [discriminate|].
  apply String.eqb_eq in Exl, Eyl.
  exists zs, x_label, y_label, x1, x2.
  unfold text_at in *. cbn [field] in *. rewrite Hgraph, Hxaxis, Hyaxis, Hxt, Hyt, Hlp.
  repeat apply conj; try reflexivity; try assumption; try lia.
Qed.

End PassedSectionsFacts.

Module PassedTokensFacts.
Import Py WritingEquations WritingEquationsFacts DedupeFacts.
Import PassedItems PassedItemsFacts PassedContextFacts PassedSectionsFacts.

Lemma py_eq_str x s : py_eq x (JStr s) = true -> x = JStr s.
Proof.
  destruct x; simpl; try discriminate. intros H. apply String.eqb_eq in H. now subst.
Qed.

Lemma py_eq_str_iff x s : py_eq x (JStr s) = true <-> x = JStr s.
Proof.
  split; [apply py_eq_str|]. intros ->. simpl. apply String.eqb_refl.
Qed.

Lemma py_any_true {A} (p : A -> result bool) l :
  py_any p l = Ok true -> exists x, In x l /\ p x = Ok true.
Proof.
  induction l as [|x r IH]; simpl; [discriminate|].
  unfold or_else. destruct (p x) as [[|]|e] eqn:E; simpl; try discriminate.
  - intros _. exists x. auto.
  - intros H. destruct (IH H) as (y & Hy & Hp). exists y. auto.
Qed.

Lemma get_eq_str t k s :
  rbind (py_get t k JNull) (fun x => Ok (py_eq x (JStr s))) = Ok true ->
  field [k] t = Some (JStr s).
Proof.
  intros H. apply rbind_ok in H. destruct H as (x & Hx & [= Hs]).
  apply py_eq_str in Hs. subst x.
  apply py_get_found in Hx; [|discriminate]. destruct Hx as (d & -> & Hl).
  simpl. now rewrite Hl.
Qed.

Lemma token_is_true ty lbl t :
  token_is ty lbl t = Ok true ->
  field ["type"] t = Some (JStr ty) /\ field ["label"] t = Some (JStr lbl).
Proof.
  unfold token_is. intros H. apply and_then_true in H. destruct H as [H1 H2].
  split; apply get_eq_str; assumption.
Qed.

(** The loop over the tokens: every token is an object, no label is equal
    to one already seen, and every distractor is in range. *)
Lemma token_labels_facts m ts :
  forall seen,
    check_token_labels (JInt m) seen ts [] = Ok (tt, []) ->
    Forall is_object ts /\
    Forall (fun t => hashable (label_or (JStr "") t) = true /\
                     forall s, In s seen -> py_eq (label_or (JStr "") t) s = false) ts /\
    ForallOrdPairs (fun a b => py_eq b a = false) (map (label_or (JStr "")) ts) /\
    Forall (distractor_ok m) ts.
Proof.
  induction ts as [|t r IH]; intros seen H.
  - repeat split; constructor.
  - simpl in H.
    qlift H lbl Hlbl. qchk H Eseen. qlift H dis Hdis.
    apply quiet_bind in H; [|grows|intros; grows]. destruct H as ([] & Hv & H).
    apply IH in H. destruct H as (Hobj & Hseen & Hpairs & Hdist).
    apply py_get_dict in Hlbl. destruct Hlbl as (td & -> & Hlbl).
    assert (Hlab : label_or (JStr "") (JDict td) = lbl).
    { unfold label_or. simpl. subst lbl. destruct (lookup "label" td); reflexivity. }
    apply rbind_ok in Eseen. destruct Eseen as (b & Hmem & [= Hb]).
    apply negb_true_iff in Hb. subst b.
    unfold set_member in Hmem. destruct (hashable lbl) eqn:Hh; [|discriminate].
    injection Hmem as Hmem.
    assert (Hnot : forall s, In s seen -> py_eq lbl s = false).
    { intros s Hs. destruct (py_eq lbl s) eqn:E; [|reflexivity].
      rewrite <- Hmem. symmetry. apply existsb_exists. eauto. }
    repeat split.
    + constructor; [exists td; reflexivity | exact Hobj].
    + constructor.
      * rewrite Hlab. auto.
      * eapply Forall_impl; [|exact Hseen]. intros x [Hx1 Hx2]. split; [exact Hx1|].
        intros s Hs. apply Hx2. now right.
    + simpl. constructor; [|exact Hpairs].
      rewrite Hlab. apply Forall_forall. intros x Hx.
      apply in_map_iff in Hx. destruct Hx as (t' & <- & Ht').
      eapply Forall_forall in Hseen; [|exact Ht']. destruct Hseen as [_ Hx2].
      apply Hx2. now left.
    + constructor; [|exact Hdist].
      intros Hty Hne. simpl in Hty, Hne.
      assert (Hd : dis = true).
      { unfold and_then in Hdis. simpl in Hdis.
        destruct (lookup "type" td) as [ty|]; [|discriminate]. injection Hty as ->.
        simpl in Hdis. injection Hdis as <-.
        apply negb_true_iff. destruct (lookup "label" td) as [lv|]; [|reflexivity].
        destruct (py_eq lv (JStr (str_of_int m))) eqn:E; [|reflexivity].
        apply py_eq_str in E. subst lv. congruence. }
      subst dis. qlift Hv v Hval. qreq Hv Ev. clear Hv.
      apply andb_true_iff in Ev. destruct Ev as [Ein Ene].
      apply int_in_range in Ein. destruct Ein as (z & -> & Hz).
      apply negb_true_iff in Ene. simpl in Ene. apply Z.eqb_neq in Ene.
      apply py_get_found in Hval; [|discriminate]. destruct Hval as (td' & [= <-] & Hval).
      exists z. simpl. rewrite Hval. auto.
Qed.

(** What section 5 has established when it reports nothing. *)
Lemma tokens_facts item c m tmpl tokens :
  check_tokens item c [] = Ok ((tmpl, tokens), []) -> slope_m c = JInt m ->
  exists ts,
    tokens = JList ts /\
    text_at ["equation_template"] item = Some tmpl /\
    (tmpl = "_ = _ * _" \/ tmpl = "_ * _ = _") /\
    field ["tokens"] item = Some (JList ts) /\ (3 <= length ts <= 5)%nat /\
    Forall is_object ts /\
    (exists t, In t ts /\ field ["type"] t = Some (JStr "var")
               /\ field ["label"] t = Some (JStr "p")) /\
    (exists t, In t ts /\ field ["type"] t = Some (JStr "var")
               /\ field ["label"] t = Some (JStr (x_var c))) /\
    (exists t v, In t ts /\ field ["type"] t = Some (JStr "const")
                 /\ field ["label"] t = Some (JStr (str_of_int m))
                 /\ field ["value"] t = Some v /\ as_number v = Some m) /\
    ForallOrdPairs (fun a b => py_eq b a = false) (map (label_or (JStr "")) ts) /\
    Forall (distractor_ok m) ts.
Proof.
  unfold check_tokens. intros H Hm. rewrite Hm in H.
  qlift H eq_tmpl Htmpl. qreq H Etmpl. qlift H toks Htoks. qchk H Elen.
  apply quiet_bind in H; [|grows|intros; grows]. destruct H as ([] & Hbody & H).
  unfold vret in H. injection H as <- <-.
  apply and_then_true in Elen. destruct Elen as [Hl Hn].
  destruct toks as [| | | |ts|]; try discriminate.
  simpl in Hn. injection Hn as Hn. apply andb_true_iff in Hn.
  rewrite !Z.leb_le in Hn.
  qlift Hbody has_p Hp. qlift Hbody has_x Hx. qlift Hbody has_m Hhm. qreq Hbody Ehas.
  apply andb_true_iff in Ehas. destruct Ehas as [Ehas ->].
  apply andb_true_iff in Ehas. destruct Ehas as [-> ->].
  apply token_labels_facts in Hbody. destruct Hbody as (Hobj & _ & Hpairs & Hdist).
  apply py_any_true in Hp, Hx, Hhm.
  destruct Hp as (tp & Htp & Hp). destruct Hx as (tx & Htx & Hx).
  destruct Hhm as (tm & Htm & Hhm).
  apply token_is_true in Hp, Hx. apply and_then_true in Hhm. destruct Hhm as [Hm1 Hm2].
  apply token_is_true in Hm1.
  apply rbind_ok in Hm2. destruct Hm2 as (v & Hv & [= Ev]).
  assert (Hvm : as_number v = Some m).
  { destruct v; try (simpl in Ev; discriminate Ev); cbn [py_eq as_number] in Ev |- *.
    - destruct b; apply Z.eqb_eq in Ev; subst; reflexivity.
    - apply Z.eqb_eq in Ev. subst. reflexivity. }
  apply py_get_found in Hv; [|intros ->; discriminate]. destruct Hv as (td & -> & Hv).
  assert (Etmpl' : eq_tmpl = "_ = _ * _" \/ eq_tmpl = "_ * _ = _").
  { apply orb_true_iff in Etmpl. destruct Etmpl as [E | E]; apply String.eqb_eq in E; auto. }
  assert (Hne : eq_tmpl <> "") by (destruct Etmpl' as [-> | ->]; discriminate).
  destruct (@norm_get_text _ _ _ Htmpl Hne) as (d & raw & -> & Hraw & ->).
  apply py_get_found in Htoks; [|destruct ts; [simpl in Hn; lia | discriminate]].
  destruct Htoks as (d' & [= <-] & Htoks).
  exists ts. unfold text_at. cbn [field]. rewrite Hraw, Htoks.
  repeat apply conj; try reflexivity; try assumption; try lia.
  - exists tp. auto.
  - exists tx. auto.
  - exists (JDict td), v. simpl. rewrite Hv. simpl in Hm1. destruct Hm1. auto.
Qed.

End PassedTokensFacts.

Module PassedAnswersFacts.
Import Py WritingEquations WritingEquationsFacts DedupeFacts.
Import PassedItems PassedItemsFacts PassedContextFacts PassedSectionsFacts PassedTokensFacts.

Lemma label_set_ok ts :
  forall labs, label_set ts = Ok labs -> labs = map (label_or JNull) ts.
Proof.
  induction ts as [|t r IH]; simpl; intros labs H.
  - now injection H as <-.
  - apply rbind_ok in H. destruct H as (lbl & Hlbl & H).
    destruct (hashable lbl); [|discriminate].
    apply rbind_ok in H. destruct H as (s & Hs & [= <-]).
    apply IH in Hs. subst s. f_equal.
    apply py_get_dict in Hlbl. destruct Hlbl as (td & -> & ->).
    unfold label_or. simpl. destruct (lookup "label" td); reflexivity.
Qed.

Lemma py_eq_lists l1 :
  forall l2, py_eq (JList l1) (JList l2) = true -> Forall2 (fun x y => py_eq x y = true) l1 l2.
Proof.
  induction l1 as [|x r1 IH]; intros [|y r2] H; try discriminate H; [constructor|].
  cbn [py_eq] in H. apply andb_true_iff in H. destruct H as [Hxy Hr].
  constructor; [exact Hxy | apply IH; exact Hr].
Qed.

Lemma py_eq_strs f a b c :
  py_eq f (JList [JStr a; JStr b; JStr c]) = true -> f = JList [JStr a; JStr b; JStr c].
Proof.
  destruct f as [| | | |l|]; try (simpl; discriminate).
  intros H. apply py_eq_lists in H.
  inversion H as [|x ? r ? Hx H1]; subst. inversion H1 as [|y ? r' ? Hy H2]; subst.
  inversion H2 as [|z ? r'' ? Hz H3]; subst. inversion H3; subst.
  apply py_eq_str in Hx, Hy, Hz. now subst.
Qed.

Lemma listed_fill a b c fills msg u :
  check (list_in (JList [JStr a; JStr b; JStr c]) (JList fills)) msg [] = Ok (u, []) ->
  In (JList [JStr a; JStr b; JStr c]) fills.
Proof.
  intros H. apply quiet_check_end in H. unfold list_in in H. injection H as H.
  apply existsb_exists in H. destruct H as (f & Hin & Hf).
  apply py_eq_strs in Hf. now subst.
Qed.

(** What section 6 has established when it reports nothing. *)
Lemma answers_facts item c m tmpl ts :
  check_answers item c tmpl (JList ts) [] = Ok (tt, []) -> slope_m c = JInt m ->
  exists fills canon,
    field ["answers"; "valid_fills"] item = Some (JList fills) /\
    (2 <= length fills)%nat /\
    Forall (fun f => exists syms, f = JList syms /\ length syms = 3%nat /\
              Forall (fun sym => exists t, In t ts /\ py_eq sym (label_or JNull t) = true) syms)
           fills /\
    (if String.eqb tmpl "_ = _ * _"
     then In (JList [JStr "p"; JStr (str_of_int m); JStr (x_var c)]) fills /\
          In (JList [JStr "p"; JStr (x_var c); JStr (str_of_int m)]) fills
     else In (JList [JStr (str_of_int m); JStr (x_var c); JStr "p"]) fills /\
          In (JList [JStr (x_var c); JStr (str_of_int m); JStr "p"]) fills) /\
    text_at ["answers"; "canonical_str"] item = Some canon /\
    (canon = "p=" ++ str_of_int m ++ "*" ++ x_var c \/
     canon = str_of_int m ++ "*" ++ x_var c ++ "=p").
Proof.
  unfold check_answers. intros H Hm. rewrite Hm in H.
  qlift H answers Hans. qlift H fills Hfills. qlift H canon Hcanon.
  qchk H Elen. qlift H labs Hlabs. qlift H fs Hfs.
  apply quiet_bind in H; [|grows|intros; grows]. destruct H as ([] & Hloop & H).
  cbv zeta in H.
  apply quiet_bind in H; [|grows|intros; grows]. destruct H as ([] & Hexp & H).
  qreq H Ecanon. clear H.
  apply and_then_true in Elen. destruct Elen as [Hl Hn].
  destruct fills as [| | | |fl|]; try discriminate.
  simpl in Hn. injection Hn as Hn. apply Z.leb_le in Hn.
  simpl in Hfs. injection Hfs as <-. simpl in Hlabs. apply label_set_ok in Hlabs. subst labs.
  apply quiet_for_each in Hloop; [|intros; grows].
  assert (Hsyms : Forall (fun f => exists syms, f = JList syms /\ length syms = 3%nat /\
              Forall (fun sym => exists t, In t ts /\ py_eq sym (label_or JNull t) = true) syms) fl).
  { eapply Forall_impl; [|exact Hloop]. intros f Hf. cbv beta in Hf.
    qchk Hf E3. qlift Hf syms Hsyms. apply list_of_length in E3.
    destruct E3 as (l & -> & Hlen3). simpl in Hsyms. injection Hsyms as <-.
    exists l. split; [reflexivity|]. split; [lia|].
    apply quiet_for_each in Hf; [|intros; grows].
    eapply Forall_impl; [|exact Hf]. intros sym Hsym. cbv beta in Hsym.
    apply quiet_check_end in Hsym. unfold set_member in Hsym.
    destruct (hashable sym); [|discriminate]. injection Hsym as Hsym.
    apply existsb_exists in Hsym. destruct Hsym as (lab & Hlab & Heq).
    apply in_map_iff in Hlab. destruct Hlab as (t & <- & Ht). eauto. }
  assert (Hcan : canon = "p=" ++ str_of_int m ++ "*" ++ x_var c \/
                 canon = str_of_int m ++ "*" ++ x_var c ++ "=p").
  { apply orb_true_iff in Ecanon. destruct Ecanon as [E | E]; apply String.eqb_eq in E; auto. }
  assert (Hne : canon <> "").
  { destruct Hcan as [-> | ->]; [discriminate|].
    simpl. destruct (str_of_int m); discriminate. }
  destruct (@norm_get_text _ _ _ Hcanon Hne) as (ad & raw & -> & Hraw & ->).
  apply py_get_found in Hfills; [|destruct fl; [simpl in Hn; lia | discriminate]].
  destruct Hfills as (ad' & [= <-] & Hfills).
  apply py_get_found in Hans; [|intros [= ->]; discriminate].
  destruct Hans as (d & -> & Hans).
  exists fl, (strip raw). unfold text_at. cbn [field]. rewrite Hans, Hfills, Hraw.
  repeat apply conj; try reflexivity; try assumption; try lia.
  simpl py_str in Hexp.
  destruct (String.eqb tmpl "_ = _ * _"); simpl in Hexp;
    apply quiet_bind in Hexp; try (grows; fail); try (intros; grows; fail);
    destruct Hexp as ([] & H1 & H2);
    apply quiet_bind in H2; try (grows; fail); try (intros; grows; fail);
    destruct H2 as ([] & H2 & _);
    apply listed_fill in H1, H2; auto.
Qed.

Lemma contains_ne_empty s sub : contains s sub = true -> sub <> "" -> s <> "".
Proof. intros H Hs ->. simpl in H. destruct sub; [congruence | discriminate]. Qed.

(** What section 7 has established when it reports nothing. *)
Lemma explanation_facts item c m cd :
  check_explanation item c [] = Ok (tt, []) -> slope_m c = JInt m -> ctx c = JDict cd ->
  exists txt,
    text_at ["explanation"; "equation_str"] item
      = Some ("p=" ++ str_of_int m ++ "×" ++ x_var c) /\
    text_at ["explanation"; "text"] item = Some txt /\
    contains txt "p" = true /\ contains txt (x_var c) = true /\
    (contains txt "$" = true \/ contains txt (str_of_int m) = true \/
     exists lab, match lookup "x_unit_label" cd with Some v => v | None => JStr "" end = JStr lab
                 /\ contains txt ("per " ++ lab) = true).
Proof.
  unfold check_explanation. intros H Hm Hctx. rewrite Hm, Hctx in H.
  qlift H expl Hexpl. qlift H eq_str Heq. qlift H e_txt Htxt.
  qreq H Eeq. qreq H Emention. qlift H rate_ok Hrate. qreq H Erate. clear H. subst rate_ok.
  apply String.eqb_eq in Eeq. apply andb_true_iff in Emention. destruct Emention as [Ep Ex].
  assert (Hne1 : eq_str <> "") by (subst; discriminate).
  assert (Hne2 : e_txt <> "") by (eapply contains_ne_empty; [exact Ep | discriminate]).
  destruct (@norm_get_text _ _ _ Heq Hne1) as (ed & raw1 & -> & Hraw1 & E1).
  destruct (@norm_get_text _ _ _ Htxt Hne2) as (ed' & raw2 & [= <-] & Hraw2 & E2).
  apply py_get_found in Hexpl; [|intros [= ->]; discriminate].
  destruct Hexpl as (d & -> & Hexpl).
  exists e_txt. unfold text_at. cbn [field]. rewrite Hexpl, Hraw1, Hraw2.
  simpl py_str in *.
  repeat apply conj; try assumption; try (f_equal; congruence).
  unfold or_else in Hrate. simpl in Hrate.
  destruct (contains e_txt "$"); [auto|].
  simpl in Hrate. destruct (contains e_txt (str_of_int m)); [auto|].
  simpl in Hrate. right. right.
  destruct (match lookup "x_unit_label" cd with Some v => v | None => JStr "" end) as [| | |lab| |];
    try discriminate.
  simpl in Hrate. injection Hrate as Hrate. eauto.
Qed.

End PassedAnswersFacts.

Module PassedItemProperties.
Import Py WritingEquations WritingEquationsFacts DedupeFacts.
Import PassedItems PassedItemsFacts PassedContextFacts PassedSectionsFacts.
Import PassedTokensFacts PassedAnswersFacts.

Lemma bananas_pass : validate_item bananas = Ok (true, []).
Proof. vm_compute. reflexivity. Qed.

Ltac sections H c tmpl tokens Hc Ht Hg Hk Ha He :=
  apply passed_sections in H;
  destruct H as (_ & c & tmpl & tokens & Hc & Ht & Hg & Hk & Ha & He).





(** X3. In an item that [validate_item] passes, [unit_price.value] is the
    integer [slope_m], [amount.value] is an integer in 1..10 and
    [total.value] is their product, so a total between 1 and 200. *)
Theorem passed_item_table item errs :
  validate_item item = Ok (true, errs) ->
  exists m a,
    field ["stem"; "context"; "slope_m"] item = Some (JInt m) /\ 1 <= m <= 20 /\
    field ["table"; "unit_price"; "value"] item = Some (JInt m) /\
    field ["table"; "amount"; "value"] item = Some (JInt a) /\ 1 <= a <= 10 /\
    field ["table"; "total"; "value"] item = Some (JInt (m * a)) /\
    1 <= m * a <= 200.
Proof.
  intros H. sections H c tmpl tokens Hc Ht Hg Hk Ha He.
  apply context_facts in Hc.
  destruct Hc as (d & sd & cd & m & yn & nm & pt & -> & Hstem & Hctx & _ & Hsl & Hm & Hslope & _).
  destruct (@table_facts _ _ _ Ht Hsl) as (a & Hup & Hamt & Ha' & Htot).
  exists m, a. cbn [field] in *. rewrite Hstem, Hctx, Hslope.
  repeat apply conj; try assumption; try reflexivity; nia.
Qed.

Lemma passed_item_table_witness :
  validate_item bananas = Ok (true, []) /\
  field ["table"; "total"; "value"] bananas = Some (JInt (8 * 2)).
Proof.
  split; [exact bananas_pass|].
  destruct (@passed_item_table _ _ bananas_pass) as (m & a & Hm & _ & _ & Ha & _ & Ht & _).
  cbn in Hm, Ha. injection Hm as <-. injection Ha as <-. exact Ht.
Defined.



(** X5. In an item that [validate_item] passes, [line_points] is a list of
    exactly two points [[x, y]] with integer coordinates, both on the line
    [y = slope_m * x], at two different [x]. *)
Theorem passed_item_line_points item errs :
  validate_item item = Ok (true, errs) ->
  exists m x1 x2,
    field ["stem"; "context"; "slope_m"] item = Some (JInt m) /\
    field ["graph"; "line_points"] item
      = Some (JList [JList [JInt x1; JInt (m * x1)]; JList [JInt x2; JInt (m * x2)]]) /\
    x1 <> x2.
Proof.
  intros H. sections H c tmpl tokens Hc Ht Hg Hk Ha He.
  apply context_facts in Hc.
  destruct Hc as (d & sd & cd & m & yn & nm & pt & -> & Hstem & Hctx & _ & Hsl & _ & Hslope & _).
  destruct (@graph_facts _ _ _ Hg Hsl)
    as (zs & xlab & ylab & x1 & x2 & _ & _ & _ & _ & _ & _ & _ & _ & _ & Hlp & Hne).
  exists m, x1, x2. cbn [field] in *. rewrite Hstem, Hctx, Hslope. auto.
Qed.

Lemma passed_item_line_points_witness :
  validate_item bananas = Ok (true, []) /\
  exists x1 x2,
    field ["graph"; "line_points"] bananas
      = Some (JList [JList [JInt x1; JInt (8 * x1)]; JList [JInt x2; JInt (8 * x2)]]) /\
    x1 <> x2.
Proof.
  split; [exact bananas_pass|].
  destruct (@passed_item_line_points _ _ bananas_pass) as (m & x1 & x2 & Hm & Hl & Hne).
  cbn in Hm. injection Hm as <-. exists x1, x2. auto.
Defined.

(** X6. In an item that [validate_item] passes, the equation template is
    one of the two orientations and [tokens] is a list of three to five
    objects, among them a variable token labelled [p], a variable token
    labelled [x_var] and a constant token labelled [str(slope_m)] whose value
    equals [slope_m]. No two tokens have equal labels (a missing label
    counting as the empty string), and every other constant token carries an
    integer value in 1..20 different from [slope_m]. *)
Theorem passed_item_tokens item errs :
  validate_item item = Ok (true, errs) ->
  exists m xv tmpl ts,
    field ["stem"; "context"; "slope_m"] item = Some (JInt m) /\
    text_at ["stem"; "context"; "x_var"] item = Some xv /\
    text_at ["equation_template"] item = Some tmpl /\
    (tmpl = "_ = _ * _" \/ tmpl = "_ * _ = _") /\
    field ["tokens"] item = Some (JList ts) /\ (3 <= length ts <= 5)%nat /\
    Forall is_object ts /\
    (exists t, In t ts /\ field ["type"] t = Some (JStr "var")
               /\ field ["label"] t = Some (JStr "p")) /\
    (exists t, In t ts /\ field ["type"] t = Some (JStr "var")
               /\ field ["label"] t = Some (JStr xv)) /\
    (exists t v, In t ts /\ field ["type"] t = Some (JStr "const")
                 /\ field ["label"] t = Some (JStr (str_of_int m))
                 /\ field ["value"] t = Some v /\ as_number v = Some m) /\
    ForallOrdPairs (fun a b => py_eq b a = false) (map (label_or (JStr "")) ts) /\
    Forall (distractor_ok m) ts.
Proof.
  intros H. sections H c tmpl tokens Hc Ht Hg Hk Ha He.
  apply context_facts in Hc.
  destruct Hc as (d & sd & cd & m & yn & nm & pt & -> & Hstem & Hctx & _ & Hsl & _ & Hslope
                  & _ & _ & _ & _ & _ & Hxv & _).
  destruct (@tokens_facts _ _ _ _ _ Hk Hsl)
    as (ts & -> & Htmpl & Etmpl & Hts & Hlen & Hobj & Hp & Hx & Hmm & Hpairs & Hdist).
  exists m, (x_var c), tmpl, ts.
  unfold text_at in *. cbn [field] in *. rewrite Hstem, Hctx, Hslope.
  repeat apply conj; try assumption; try reflexivity; lia.
Qed.

Lemma passed_item_tokens_witness :
  validate_item bananas = Ok (true, []) /\
  exists ts, field ["tokens"] bananas = Some (JList ts) /\ (3 <= length ts <= 5)%nat.
Proof.
  split; [exact bananas_pass|].
  destruct (@passed_item_tokens _ _ bananas_pass)
    as (m & xv & tmpl & ts & _ & _ & _ & _ & Hts & Hlen & _).
  exists ts. auto.
Defined.

(** X7. In an item that [validate_item] passes, [answers.valid_fills] is a
    list of at least two fills, each a list of three symbols that are token
    labels, and it holds both orderings of the product for the orientation of
    the template: [[p, m, x]] and [[p, x, m]] for [_ = _ * _], [[m, x, p]]
    and [[x, m, p]] for [_ * _ = _], with [m = str(slope_m)] and [x = x_var].
    [answers.canonical_str] is [p=m*x] or [m*x=p], whichever the
    orientation. *)
Theorem passed_item_answers item errs :
  validate_item item = Ok (true, errs) ->
  exists m xv tmpl ts fills canon,
    field ["stem"; "context"; "slope_m"] item = Some (JInt m) /\
    text_at ["stem"; "context"; "x_var"] item = Some xv /\
    text_at ["equation_template"] item = Some tmpl /\
    field ["tokens"] item = Some (JList ts) /\
    field ["answers"; "valid_fills"] item = Some (JList fills) /\
    (2 <= length fills)%nat /\
    Forall (fun f => exists syms, f = JList syms /\ length syms = 3%nat /\
              Forall (fun sym => exists t, In t ts /\ py_eq sym (label_or JNull t) = true) syms)
           fills /\
    (tmpl = "_ = _ * _" ->
       In (JList [JStr "p"; JStr (str_of_int m); JStr xv]) fills /\
       In (JList [JStr "p"; JStr xv; JStr (str_of_int m)]) fills) /\
    (tmpl = "_ * _ = _" ->
       In (JList [JStr (str_of_int m); JStr xv; JStr "p"]) fills /\
       In (JList [JStr xv; JStr (str_of_int m); JStr "p"]) fills) /\
    text_at ["answers"; "canonical_str"] item = Some canon /\
    (canon = "p=" ++ str_of_int m ++ "*" ++ xv \/ canon = str_of_int m ++ "*" ++ xv ++ "=p").
Proof.
  intros H. sections H c tmpl tokens Hc Ht Hg Hk Ha He.
  apply context_facts in Hc.
  destruct Hc as (d & sd & cd & m & yn & nm & pt & -> & Hstem & Hctx & _ & Hsl & _ & Hslope
                  & _ & _ & _ & _ & _ & Hxv & _).
  destruct (@tokens_facts _ _ _ _ _ Hk Hsl) as (ts & -> & Htmpl & Etmpl & Hts & _).
  destruct (@answers_facts _ _ _ _ _ Ha Hsl) as (fills & canon & Hf & Hlen & Hsyms & Hexp & Hcanon & Ecanon).
  exists m, (x_var c), tmpl, ts, fills, canon.
  unfold text_at in *. cbn [field] in *. rewrite Hstem, Hctx, Hslope.
  repeat apply conj; try assumption; try reflexivity.
  - intros ->. exact Hexp.
  - intros ->. exact Hexp.
Qed.

Lemma passed_item_answers_witness :
  validate_item bananas = Ok (true, []) /\
  exists fills, field ["answers"; "valid_fills"] bananas = Some (JList fills) /\
                In (JList [JStr "p"; JStr (str_of_int 8); JStr "w"]) fills.
Proof.
  split; [exact bananas_pass|].
  destruct (@passed_item_answers _ _ bananas_pass)
    as (m & xv & tmpl & ts & fills & canon & Hm & Hxv & Htmpl & _ & Hf & _ & _ & Hexp & _).
  cbn in Hm, Hxv, Htmpl. injection Hm as <-. injection Hxv as <-. injection Htmpl as <-.
  exists fills. split; [exact Hf|]. apply Hexp. reflexivity.
Defined.

(** X8. In an item that [validate_item] passes, [explanation.equation_str]
    is [p=m×x] with [m = str(slope_m)] and [x = x_var], and
    [explanation.text] mentions [p], [x_var] and the rate: the currency
    marker, the slope, or [per] followed by the unit label as the context
    spells it. *)
Theorem passed_item_explanation item errs :
  validate_item item = Ok (true, errs) ->
  exists m xv txt,
    field ["stem"; "context"; "slope_m"] item = Some (JInt m) /\
    text_at ["stem"; "context"; "x_var"] item = Some xv /\
    text_at ["explanation"; "equation_str"] item = Some ("p=" ++ str_of_int m ++ "×" ++ xv) /\
    text_at ["explanation"; "text"] item = Some txt /\
    contains txt "p" = true /\ contains txt xv = true /\
    (contains txt "$" = true \/ contains txt (str_of_int m) = true \/
     exists lab, field ["stem"; "context"; "x_unit_label"] item = Some (JStr lab)
                 /\ contains txt ("per " ++ lab) = true).
Proof.
  intros H. sections H c tmpl tokens Hc Ht Hg Hk Ha He.
  apply context_facts in Hc.
  destruct Hc as (d & sd & cd & m & yn & nm & pt & -> & Hstem & Hctx & Hcc & Hsl & _ & Hslope
                  & _ & _ & _ & _ & _ & Hxv & _ & _ & Hxl & _).
  destruct (@explanation_facts _ _ _ _ He Hsl Hcc) as (txt & Heq & Htxt & Ep & Ex & Erate).
  exists m, (x_var c), txt.
  unfold text_at in *. cbn [field] in *. rewrite Hstem, Hctx, Hslope.
  repeat apply conj; try assumption; try reflexivity.
  destruct Erate as [E | [E | (lab & Hlab & E)]]; [auto | auto |].
  right. right. exists lab. split; [|exact E].
  destruct (lookup "x_unit_label" cd) as [v|]; [|discriminate]. now subst.
Qed.

Lemma passed_item_explanation_witness :
  validate_item bananas = Ok (true, []) /\
  text_at ["explanation"; "equation_str"] bananas = Some ("p=" ++ str_of_int 8 ++ "×" ++ "w").
Proof.
  split; [exact bananas_pass|].
  destruct (@passed_item_explanation _ _ bananas_pass) as (m & xv & txt & Hm & Hxv & Heq & _).
  cbn in Hm, Hxv. injection Hm as <-. injection Hxv as <-. exact Heq.
Defined.

End PassedItemProperties.

(** ** Price puzzles: de-duplication and the batch loop *)

Module BatchFacts.
Import Py WritingEquations WritingEquationsFacts DedupeFacts Batches.

Lemma subseq_refl {A} (l : list A) : subseq l l.
Proof. induction l; constructor; assumption. Qed.

Lemma subseq_app {A} (a b c d : list A) : subseq a b -> subseq c d -> subseq (a ++ c) (b ++ d).
Proof. intros H. induction H; intros Hc; simpl; try constructor; auto. Qed.

Lemma subseq_trans {A} (l1 l2 l3 : list A) : subseq l1 l2 -> subseq l2 l3 -> subseq l1 l3.
Proof.
  intros H12 H23. revert l1 H12. induction H23; intros l0 H12.
  - exact H12.
  - inversion H12; subst; constructor; auto.
  - constructor. auto.
Qed.

Lemma subseq_filter {A} (f : A -> bool) (l : list A) : subseq (filter f l) l.
Proof. induction l as [|x r IH]; simpl; [constructor|]. destruct (f x); constructor; exact IH. Qed.

Lemma subseq_length {A} (l1 l2 : list A) : subseq l1 l2 -> (length l1 <= length l2)%nat.
Proof. intros H. induction H; simpl; lia. Qed.

(** The loop of [dedupe_items], whatever the keys: what it keeps is a
    subsequence of the batch, and every item is kept or counted. *)
Lemma dedupe_loop_accounts items :
  forall seen kept dropped kept' dropped',
    dedupe_loop items seen kept dropped = Ok (kept', dropped') ->
    exists l, kept' = (kept ++ l)%list /\ subseq l items /\
              dropped' = dropped + (Z.of_nat (length items) - Z.of_nat (length l)) /\
              (forall it, In it items -> key_of it = None -> In it l) /\
              (seen = [] -> forall it rest, items = it :: rest -> exists l', l = it :: l').
Proof.
  induction items as [|it rest IH]; intros seen kept dropped kept' dropped' H; simpl in H.
  - injection H as <- <-. exists []. rewrite app_nil_r. repeat split; try constructor; try lia.
    + intros it [].
    + intros _ it rest [=].
  - destruct (extract_key it) as [k|e] eqn:Hk.
    + destruct (key_seen k seen) as [[|]|] eqn:Hs; [| |discriminate].
      * apply IH in H. destruct H as (l & -> & Hsub & -> & Hun & _). exists l.
        repeat split; [constructor; exact Hsub | cbn [length]; lia | |].
        -- intros x [<- | Hx] Hx'; [unfold key_of in Hx'; rewrite Hk in Hx'; discriminate|].
           apply Hun; assumption.
        -- intros ->. destruct k as [[n u] m]. simpl in Hs. destruct (hashable u); discriminate.
      * apply IH in H. destruct H as (l & -> & Hsub & -> & Hun & _). exists (it :: l).
        rewrite <- app_assoc. repeat split; [constructor; exact Hsub | cbn [length]; lia | |].
        -- intros x [<- | Hx] Hx'; [now left | right; apply Hun; assumption].
        -- intros _ x r [= <- <-]. eauto.
    + apply IH in H. destruct H as (l & -> & Hsub & -> & Hun & _). exists (it :: l).
      rewrite <- app_assoc. repeat split; [constructor; exact Hsub | cbn [length]; lia | |].
      * intros x [<- | Hx] Hx'; [now left | right; apply Hun; assumption].
      * intros _ x r [= <- <-]. eauto.
Qed.

(** The loop raises nothing but the [TypeError] of an unhashable key. *)
Lemma dedupe_loop_raise_cause items :
  forall seen kept dropped e,
    dedupe_loop items seen kept dropped = Raise e ->
    e = TypeError /\
    exists it name unit m, In it items /\ key_of it = Some (name, unit, m) /\ hashable unit = false.
Proof.
  induction items as [|it rest IH]; intros seen kept dropped e H; simpl in H; [discriminate|].
  destruct (extract_key it) as [k|e'] eqn:Hk.
  - destruct (key_seen k seen) as [[|]|e''] eqn:Hs.
    + apply IH in H. destruct H as (-> & x & n & u & m & Hin & Hkey & Hu).
      split; [reflexivity|]. exists x, n, u, m. auto with datatypes.
    + apply IH in H. destruct H as (-> & x & n & u & m & Hin & Hkey & Hu).
      split; [reflexivity|]. exists x, n, u, m. auto with datatypes.
    + injection H as <-. destruct k as [[n u] m]. simpl in Hs.
      destruct (hashable u) eqn:Hu; [discriminate|]. injection Hs as <-.
      split; [reflexivity|]. exists it, n, u, m. unfold key_of. rewrite Hk. auto with datatypes.
  - apply IH in H. destruct H as (-> & x & n & u & m & Hin & Hkey & Hu).
    split; [reflexivity|]. exists x, n, u, m. auto with datatypes.
Qed.

(** The loop of [main]: passed items in order, one failure with its reasons
    for each of the others. *)
Lemma validate_all_accounts items :
  forall passed failed passed' failed',
    validate_all items passed failed = Ok (passed', failed') ->
    passed' = (passed ++ filter passes items)%list /\
    exists fl, failed' = (failed ++ fl)%list /\
               (length (filter passes items) + length fl = length items)%nat /\
               Forall (fun f => snd f <> []) fl.
Proof.
  induction items as [|it rest IH]; intros passed failed passed' failed' H; simpl in H.
  - injection H as <- <-. simpl. rewrite app_nil_r. split; [reflexivity|].
    exists []. rewrite app_nil_r. repeat split. constructor.
  - cbn [filter].
    destruct (validate_item it) as [[[|] errs]|e] eqn:Hv; [| |discriminate].
    + assert (Hp : passes it = true) by (unfold passes; now rewrite Hv). rewrite Hp.
      apply IH in H. destruct H as (-> & fl & -> & Hlen & Hne).
      split; [now rewrite <- app_assoc|]. exists fl. repeat split; [cbn [length]; lia | exact Hne].
    + assert (Hp : passes it = false) by (unfold passes; now rewrite Hv). rewrite Hp.
      destruct (py_get it "id" (JStr "<no-id>")) as [id|]; [|discriminate].
      apply IH in H. destruct H as (-> & fl & -> & Hlen & Hne).
      split; [reflexivity|]. exists ((py_str id, errs) :: fl).
      rewrite <- app_assoc. repeat split; [cbn [length]; lia|].
      constructor; [|exact Hne]. simpl. intros ->.
      apply validate_item_verdict in Hv. destruct Hv as [_ Hv]. specialize (Hv eq_refl). discriminate.
Qed.

(** [validate_item] gives no pass to a value that is not an object, and such
    a value has no [get] for the failure record. *)
Lemma non_object_stops it :
  (forall d, it <> JDict d) ->
  (exists e, validate_item it = Raise e) \/
  (exists errs, validate_item it = Ok (false, errs) /\ py_get it "id" (JStr "<no-id>") = Raise AttributeError).
Proof.
  intros Hd. unfold validate_item.
  destruct (check_root_keys it []) as [[u e0]|e]; [|left; eauto].
  destruct e0 as [|m0 r0].
  - left. unfold check_sections, check_context.
    assert (Hstem : py_getitem it "stem" = Raise TypeError).
    { destruct it; try reflexivity. exfalso. eapply Hd. reflexivity. }
    unfold vbind at 1. unfold vbind at 1. rewrite Hstem. simpl. eauto.
  - right. exists (m0 :: r0). split; [reflexivity|].
    destruct it; try reflexivity. exfalso. eapply Hd. reflexivity.
Qed.

Lemma validate_all_stops items it :
  forall passed failed,
    In it items -> (forall d, it <> JDict d) ->
    exists e, validate_all items passed failed = Raise e.
Proof.
  induction items as [|x rest IH]; intros passed failed Hin Hd; [destruct Hin|].
  simpl. destruct Hin as [-> | Hin].
  - destruct (non_object_stops Hd) as [[e He] | (errs & He & Hid)].
    + rewrite He. eauto.
    + rewrite He, Hid. eauto.
  - destruct (validate_item x) as [[[|] errs]|e]; [| |eauto].
    + apply IH; assumption.
    + destruct (py_get x "id" (JStr "<no-id>")); [|eauto]. apply IH; assumption.
Qed.

Lemma non_object_unkeyed it : (forall d, it <> JDict d) -> key_of it = None.
Proof.
  intros Hd. unfold key_of, extract_key.
  destruct it; try reflexivity. exfalso. eapply Hd. reflexivity.
Qed.

End BatchFacts.

Module BatchProperties.
Import Py WritingEquations WritingEquationsFacts DedupeFacts Batches BatchFacts ValidatorInputs.






(** X12. When a run of the validator completes, every item of the input
    batch is accounted for exactly once, as passed, failed or dropped
    duplicate; the passed items are a subsequence of the input; and every
    failure record carries at least one reason. *)
Theorem report_accounts_for_batch items r :
  run_validator items = Ok r ->
  Z.of_nat (length (passed r)) + Z.of_nat (length (failed r)) + dropped_dupes r
    = Z.of_nat (length items) /\
  0 <= dropped_dupes r /\
  subseq (passed r) items /\
  Forall (fun f => snd f <> []) (failed r).
Proof.
  unfold run_validator. intros H.
  apply rbind_ok in H. destruct H as ([kept dropped] & Hd & H).
  apply rbind_ok in H. destruct H as ([ps fs] & Hv & [= <-]). simpl in *.
  apply dedupe_loop_accounts in Hd. destruct Hd as (l & -> & Hsub & -> & _). simpl in *.
  apply validate_all_accounts in Hv. destruct Hv as (-> & fl & -> & Hlen & Hne). simpl in *.
  pose proof (subseq_length Hsub).
  repeat split; try lia; try assumption.
  eapply subseq_trans; [apply subseq_filter | exact Hsub].
Qed.

Lemma report_accounts_for_batch_witness :
  run_validator [bananas; apples_15; bananas_again]
  = Ok (mk_report [bananas]
          [("lin-001", ["prompt should mention item_name";
                        "total.display must start with '$' and include total value"])]
          1) /\
  1 + 1 + 1 = 3.
Proof.
  assert (H : run_validator [bananas; apples_15; bananas_again]
              = Ok (mk_report [bananas]
                      [("lin-001", ["prompt should mention item_name";
                                    "total.display must start with '$' and include total value"])]
                      1)) by (vm_compute; reflexivity).
  split; [exact H|].
  destruct (@report_accounts_for_batch _ _ H) as (Hlen & _). exact Hlen.
Defined.

(** X13. A batch with an element that is not a JSON object never yields a
    report: [dedupe_items] keeps the element (it has no key), and then either
    [validate_item] raises on it or the failure record's [it.get] does. *)
Theorem non_object_item_aborts items it :
  In it items -> (forall d, it <> JDict d) -> exists e, run_validator items = Raise e.
Proof.
  intros Hin Hd. unfold run_validator.
  destruct (dedupe_items items) as [[kept dropped]|e] eqn:Hdd; [|simpl; eauto].
  simpl. unfold dedupe_items in Hdd. apply dedupe_loop_accounts in Hdd.
  destruct Hdd as (l & -> & _ & _ & Hun & _). simpl.
  assert (Hk : In it l) by (apply Hun; [exact Hin | apply non_object_unkeyed; exact Hd]).
  destruct (@validate_all_stops l it [] [] Hk Hd) as [e He].
  rewrite He. simpl. eauto.
Qed.

Lemma non_object_item_aborts_witness :
  In (JInt 7) [bananas; JInt 7] /\ (forall d, JInt 7 <> JDict d) /\
  exists e, run_validator [bananas; JInt 7] = Raise e.
Proof.
  assert (Hin : In (JInt 7) [bananas; JInt 7]) by (simpl; auto).
  assert (Hd : forall d, JInt 7 <> JDict d) by (intros d; discriminate).
  split; [exact Hin|]. split; [exact Hd|].
  exact (@non_object_item_aborts _ _ Hin Hd).
Defined.

End BatchProperties.

(** ** Balance puzzles: every puzzle has one answer *)

Module PuzzleMeaningFacts.
Import Py PyFacts TiltedScales TiltedScalesFacts PuzzleMeaning.

Lemma positive_weights_of X Y a b :
  (0 < a)%Q -> (0 < b)%Q -> positive_weights (weights_of X Y a b).
Proof.
  intros Ha Hb sh _. unfold weights_of.
  destruct (String.eqb sh X); [exact Ha|]. destruct (String.eqb sh Y); [exact Hb | reflexivity].
Qed.

Lemma inject_Z_pos k : 0 < k -> (0 < inject_Z k)%Q.
Proof. intros H. apply (@inj_lt 0 k). exact H. Qed.

Lemma ratio_pos a k : 0 < a -> 0 < k -> (0 < inject_Z a / inject_Z k)%Q.
Proof.
  intros Ha Hk. apply Qlt_shift_div_l; [apply inject_Z_pos; exact Hk|].
  rewrite Qmult_0_l. apply inject_Z_pos. exact Ha.
Qed.

End PuzzleMeaningFacts.

Module PuzzleProperties.
Import Py PyFacts TiltedScales TiltedScalesFacts PuzzleMeaning PuzzleMeaningFacts.

Ltac pick_weights a b :=
  match goal with
  | |- context [dict_of [(?X, _); (?Y, 0); (_, _)]] => exists (weights_of X Y a b)
  end.

(** X14. Every puzzle of the three strategies can be solved: there are
    positive weights for the shapes that balance its equality. *)
Theorem every_puzzle_solvable tr p :
  generated tr p -> exists wt, positive_weights wt /\ balanced wt (p_equality p).
Proof.
  intros [H | [H | H]].
  - unfold easy_puzzle_proportional_equality in H.
    gen_inv; shapes_cases.
    all: match goal with b : bool |- _ => destruct b end.
    all: item_inv; subst.
    all: try (cbn in *; discriminate).
    all: match goal with
         | Hk1 : 1 <= ?k1 <= 6, Hk2 : 1 <= ?k2 <= 6 |- _ =>
             pick_weights (inject_Z k2) (inject_Z k1)
         end.
    all: (split; [apply positive_weights_of; apply inject_Z_pos; lia|]).
    all: unfold balanced, side_total, weights_of; cbn; ring.
  - unfold easy_puzzle_weighted_equality in H.
    gen_inv; shapes_cases.
    all: match goal with b : bool |- _ => destruct b end.
    all: item_inv; subst.
    all: try (cbn in *; discriminate).
    all: match goal with
         | Hw1 : 1 <= ?w1 <= 6, Hw2 : 1 <= ?w2 <= 6, Hk : 1 <= ?k <= 4 |- _ =>
             pick_weights (inject_Z (k + w2) / inject_Z k)%Q (inject_Z (k + w1) / inject_Z k)%Q;
             assert (Hk0 : ~ (inject_Z k == 0)%Q)
               by (intros E; pose proof (@inject_Z_pos k ltac:(lia)) as P; rewrite E in P;
                   apply (Qlt_irrefl 0), P)
         end.
    all: (split; [apply positive_weights_of; apply ratio_pos; lia|]).
    all: unfold balanced, side_total, weights_of; cbn; rewrite !inject_Z_plus; field; exact Hk0.
  - apply difficult_run in H.
    destruct H as (X & Y & Z & k & w & off & w0 & w1 & esc & HS & Hk & Hw & Hoff & Hord & Ho & -> & ->).
    assert (Hk0 : ~ (inject_Z k == 0)%Q)
      by (intros E; pose proof (@inject_Z_pos k ltac:(lia)) as P; rewrite E in P;
          apply (Qlt_irrefl 0), P).
    exists (weights_of X Y (inject_Z (k + w1) / inject_Z k)%Q (inject_Z (k + w0) / inject_Z k)%Q).
    split; [apply positive_weights_of; apply ratio_pos; nia|].
    simpl in HS.
    repeat (destruct HS as [HS | HS]; [inversion HS; subst; clear HS | ]); try contradiction.
    all: unfold balanced, side_total, weights_of, difficult_outcome; cbn;
         rewrite !inject_Z_plus; field; exact Hk0.
Qed.

Ltac weigh_shapes wt Hpos :=
  pose proof (Hpos "s" ltac:(simpl; auto));
  pose proof (Hpos "t" ltac:(simpl; auto));
  pose proof (Hpos "c" ltac:(simpl; auto)).

Ltac order_known :=
  match goal with
  | Hc : (_ <? _) = true |- _ => apply Z.ltb_lt in Hc; pose proof (inj_lt Hc)
  | Hc : (_ <? _) = false |- _ =>
      apply Z.ltb_ge in Hc;
      match goal with
      | Hne : ?b <> ?a |- _ => assert (Hlt : b < a) by lia; pose proof (inj_lt Hlt)
      end
  end;
  repeat match goal with
  | Hr : 1 <= ?k <= _ |- _ =>
      assert (0 < inject_Z k)%Q by (apply (@inj_lt 0 k); lia); clear Hr
  end.

Ltac other_fills :=
  let Ha := fresh "Ha" in
  let Hb := fresh "Hb" in
  let Hfit := fresh "Hfit" in
  intros Ha Hb Hfit;
  destruct Ha as [<- | [<- | []]]; destruct Hb as [<- | [<- | []]];
  try reflexivity; exfalso;
  unfold answer_fits, with_answer, statement_true, compare in Hfit; cbn in Hfit.

(** X15. The stored answer is the only one: for positive weights that
    balance the equality, no other way of writing the two compared shapes
    into the blanks of the template gives a true statement. *)
Theorem stored_answer_is_the_only_one tr p wt a b :
  generated tr p ->
  positive_weights wt -> balanced wt (p_equality p) ->
  In a (p_answer p) -> In b (p_answer p) ->
  answer_fits wt (with_answer p [a; b]) ->
  [a; b] = p_answer p.
Proof.
  intros [H | [H | H]] Hpos Hbal.
  - unfold easy_puzzle_proportional_equality in H.
    gen_inv; shapes_cases.
    all: match goal with b : bool |- _ => destruct b end.
    all: item_inv; subst.
    all: try (cbn in *; discriminate).
    all: weigh_shapes wt Hpos; unfold balanced, side_total in Hbal; cbn in Hbal.
    all: cbn [p_answer]; other_fills.
    all: change (inject_Z 0) with 0%Q in *; change (inject_Z 1) with 1%Q in *.
    all: order_known.
    all: nra.
  - unfold easy_puzzle_weighted_equality in H.
    gen_inv; shapes_cases.
    all: match goal with b : bool |- _ => destruct b end.
    all: item_inv; subst.
    all: try (cbn in *; discriminate).
    all: unfold balanced, side_total in Hbal; cbn in Hbal.
    all: cbn [p_answer]; other_fills.
    all: change (inject_Z 0) with 0%Q in *; change (inject_Z 1) with 1%Q in *.
    all: order_known.
    all: nra.
  - apply difficult_run in H.
    destruct H as (X & Y & Z & k & w & off & w0 & w1 & esc & HS & Hk & Hw & Hoff & Hord & Ho & -> & ->).
    assert (Hkpos : (0 < inject_Z k)%Q) by (apply (@inj_lt 0 k); lia).
    assert (Hdiff : ((w0 <? w1) = true /\ w1 - w0 = k * off) \/
                    ((w0 <? w1) = false /\ w0 - w1 = k * off)).
    { destruct Hord as [[-> ->] | [-> ->]]; [left | right]; split;
        try (apply Z.ltb_lt; nia); try (apply Z.ltb_ge; nia); ring. }
    destruct Hdiff as [[E Hdiff] | [E Hdiff]].
    all: apply (f_equal inject_Z) in Hdiff; rewrite inject_Z_mult in Hdiff;
         unfold Z.sub in Hdiff; rewrite inject_Z_plus, inject_Z_opp in Hdiff;
         match type of Hdiff with ?l = ?r =>
           assert (Hdiff' : (l == r)%Q) by (rewrite Hdiff; reflexivity) end;
         clear Hdiff.
    all: simpl in HS;
         repeat (destruct HS as [HS | HS]; [inversion HS; subst; clear HS | ]); try contradiction.
    all: unfold balanced, side_total, difficult_outcome in Hbal; cbn in Hbal;
         change (inject_Z 0) with 0%Q in Hbal.
    all: match goal with
         | |- In _ (p_answer (difficult_outcome _ _ _ _ _ ?X ?Y _)) -> _ =>
             first [ assert (Hgap : (wt X == wt Y + inject_Z off)%Q) by nra
                   | assert (Hgap : (wt Y == wt X + inject_Z off)%Q) by nra ]
         end;
         clear Hbal Hdiff' Hord Hkpos Hk Hw.
    all: assert (Hoffs : off = 2 \/ off = 3 \/ off = 4) by lia;
         destruct Hoffs as [-> | [-> | ->]].
    all: destruct esc as [o|];
         [ assert (Hos : o = 1 \/ o = 2 \/ o = 3 \/ o = 4 \/ o = 5)
             by (specialize (Ho o eq_refl); lia);
           destruct Hos as [-> | [-> | [-> | [-> | ->]]]]
         | ].
    all: unfold difficult_outcome; rewrite E; clear E Ho; cbn [p_answer].
    all: other_fills.
    all: unfold inject_Z in *; lra.
Qed.

(** X16. The two descriptions of the final comparison agree: the template
    with the stored answer written into its blanks reads as a statement whose
    two sides weigh, for all weights, what the two pans of the stored
    inequality weigh, and whose operator is the stored one (the difficult
    strategy stores none, and its template always has [>]). *)
Theorem inequality_matches_template tr p :
  generated tr p ->
  exists st,
    parse_statement (fill (p_template p) (p_answer p)) = Some st /\
    (forall o, ineq_op (p_inequality p) = Some o -> st_op st = o) /\
    (ineq_op (p_inequality p) = None -> st_op st = ">") /\
    forall wt : weights,
      (sum_value wt (st_left st) == side_total wt (ineq_left (p_inequality p)))%Q /\
      (sum_value wt (st_right st) == side_total wt (ineq_right (p_inequality p)))%Q.
Proof.
  intros [H | [H | H]].
  - unfold easy_puzzle_proportional_equality in H.
    gen_inv; shapes_cases.
    all: match goal with b : bool |- _ => destruct b end.
    all: item_inv; subst.
    all: try (cbn in *; discriminate).
    all: eexists; split; [cbn; reflexivity|].
    all: repeat split; try (cbn; congruence).
    all: unfold side_total; cbn; ring.
  - unfold easy_puzzle_weighted_equality in H.
    gen_inv; shapes_cases.
    all: match goal with b : bool |- _ => destruct b end.
    all: item_inv; subst.
    all: try (cbn in *; discriminate).
    all: eexists; split; [cbn; reflexivity|].
    all: repeat split; try (cbn; congruence).
    all: unfold side_total; cbn; ring.
  - apply difficult_run in H.
    destruct H as (X & Y & Z & k & w & off & w0 & w1 & esc & HS & Hk & Hw & Hoff & Hord & Ho & -> & ->).
    simpl in HS;
      repeat (destruct HS as [HS | HS]; [inversion HS; subst; clear HS | ]); try contradiction.
    all: assert (Hoffs : off = 2 \/ off = 3 \/ off = 4) by lia;
         destruct Hoffs as [-> | [-> | ->]].
    all: destruct esc as [o|];
         [ assert (Hos : o = 1 \/ o = 2 \/ o = 3 \/ o = 4 \/ o = 5)
             by (specialize (Ho o eq_refl); lia);
           destruct Hos as [-> | [-> | [-> | [-> | ->]]]]
         | ].
    all: unfold difficult_outcome; destruct (w0 <? w1).
    all: eexists; split; [cbn; reflexivity|].
    all: repeat split; try (cbn; congruence).
    all: unfold side_total; cbn; unfold inject_Z; ring.
Qed.

(** X17. [_pick_distinct(vars_list, n)] returns [n] elements taken from
    different positions of the list: together with the elements it left the
    picks are a rearrangement of the list. It has no result when [n] exceeds
    the length of the list. *)
Theorem pick_distinct_rearranges {A} `{Loggable A} lbl (l : list A) n tr picked :
  In (tr, picked) (_pick_distinct lbl l n) ->
  length picked = n /\ (n <= length l)%nat /\
  exists rest, Permutation (picked ++ rest) l.
Proof.
  intros Hin. apply in_pick_distinct in Hin. destruct Hin as [Hin _].
  assert (Hsel : forall (l0 : list A) x r, In (x, r) (select l0) -> Permutation (x :: r) l0).
  { induction l0 as [|y l0 IH]; intros x r Hx; [destruct Hx|].
    simpl in Hx. destruct Hx as [Hx | Hx].
    - injection Hx as <- <-. reflexivity.
    - apply in_map_iff in Hx. destruct Hx as ([x' r'] & Heq & Hx). injection Heq as <- <-.
      apply IH in Hx. rewrite perm_swap. constructor. exact Hx. }
  revert l picked Hin. induction n as [|n IH]; intros l picked Hin.
  - simpl in Hin. destruct Hin as [<- | []]. repeat split; [simpl; lia|].
    exists l. reflexivity.
  - simpl in Hin. apply in_flat_map in Hin. destruct Hin as ([x r] & Hx & Hin).
    apply in_map_iff in Hin. destruct Hin as (p' & <- & Hp').
    apply Hsel in Hx. apply IH in Hp'. destruct Hp' as (Hlen & Hle & rest & Hrest).
    pose proof (Permutation_length Hx) as Hl. simpl in Hl.
    repeat split; [simpl; lia | lia |].
    exists rest. simpl. rewrite Hrest. exact Hx.
Qed.

Lemma every_puzzle_solvable_witness :
  generated (fst escalated_example) (snd escalated_example) /\
  exists wt, positive_weights wt /\ balanced wt (p_equality (snd escalated_example)).
Proof.
  assert (Hin : generated (fst escalated_example) (snd escalated_example)).
  { right. right. apply (@run_at _ _ 7%nat). vm_compute. reflexivity. }
  split; [exact Hin|]. exact (@every_puzzle_solvable _ _ Hin).
Defined.

Lemma stored_answer_is_the_only_one_witness :
  generated (fst proportional_example) (snd proportional_example) /\
  positive_weights proportional_weights /\
  balanced proportional_weights (p_equality (snd proportional_example)) /\
  answer_fits proportional_weights (with_answer (snd proportional_example) ["t"; "s"]) /\
  ["t"; "s"] = p_answer (snd proportional_example).
Proof.
  assert (Hin : generated (fst proportional_example) (snd proportional_example)).
  { left. apply (@run_at _ _ 7%nat). vm_compute. reflexivity. }
  assert (Hpos : positive_weights proportional_weights).
  { intros sh _. unfold proportional_weights. destruct (String.eqb sh "s"); reflexivity. }
  assert (Hbal : balanced proportional_weights (p_equality (snd proportional_example)))
    by (vm_compute; reflexivity).
  assert (Hfit : answer_fits proportional_weights
                   (with_answer (snd proportional_example) ["t"; "s"]))
    by (vm_compute; reflexivity).
  repeat (split; [assumption|]).
  apply (@stored_answer_is_the_only_one _ _ _ "t" "s" Hin Hpos Hbal);
    [simpl; auto | simpl; auto | exact Hfit].
Defined.

Lemma inequality_matches_template_witness :
  generated (fst escalated_example) (snd escalated_example) /\
  exists st,
    parse_statement (fill (p_template (snd escalated_example))
                          (p_answer (snd escalated_example))) = Some st /\
    st_op st = ">".
Proof.
  assert (Hin : generated (fst escalated_example) (snd escalated_example)).
  { right. right. apply (@run_at _ _ 7%nat). vm_compute. reflexivity. }
  split; [exact Hin|].
  destruct (@inequality_matches_template _ _ Hin) as (st & Hst & _ & Hop & _).
  exists st. split; [exact Hst | apply Hop; reflexivity].
Defined.

Lemma pick_distinct_rearranges_witness :
  In ([("shapes", VSyms ["t"; "c"; "s"])], ["t"; "c"; "s"]) (_pick_distinct "shapes" SHAPES 3) /\
  exists rest, Permutation (["t"; "c"; "s"] ++ rest) SHAPES.
Proof.
  assert (Hin : In ([("shapes", VSyms ["t"; "c"; "s"])], ["t"; "c"; "s"])
                   (_pick_distinct "shapes" SHAPES 3)).
  { apply (@run_at _ _ 3%nat). vm_compute. reflexivity. }
  split; [exact Hin|].
  destruct (@pick_distinct_rearranges _ _ _ _ _ _ _ Hin) as (_ & _ & Hrest). exact Hrest.
Defined.

End PuzzleProperties.

(** ** Balance puzzles: the batch and the items written out *)

Module TiltedScalesScriptFacts.
Import Py PyFacts TiltedScales TiltedScalesFacts.
Import WritingEquations WritingEquationsFacts DedupeFacts PyStringFacts TiltedScalesScript.

(** *** The batch loop *)










(** *** Decimal digits read back *)

Lemma parse_digits_acc d :
  forall p, parse_digits (Zpos p) true (NilEmpty.string_of_uint d)
            = Some (Zpos (Pos.of_uint_acc d p)).
Proof.
  induction d; intros p; cbn [NilEmpty.string_of_uint parse_digits Pos.of_uint_acc];
    try reflexivity.
  all: match goal with
       | |- context [nat_of_ascii ?c] =>
           let n := eval vm_compute in (nat_of_ascii c) in change (nat_of_ascii c) with n
       end; cbn [Nat.leb andb Nat.sub Z.of_nat].
  all: match goal with
       | |- parse_digits ?z true _ = Some (Zpos (Pos.of_uint_acc _ ?q)) =>
           replace z with (Zpos q) by lia; apply IHd
       end.
Qed.

Lemma parse_digits_zero d :
  forall b, b = true \/ d <> Decimal.Nil ->
    parse_digits 0 b (NilEmpty.string_of_uint d) = Some (Z.of_N (Pos.of_uint d)).
Proof.
  induction d; intros b Hb; cbn [NilEmpty.string_of_uint parse_digits Pos.of_uint].
  1: destruct Hb as [-> | Hb]; [reflexivity | congruence].
  1: change (nat_of_ascii "0") with 48%nat; cbn [Nat.leb andb Nat.sub Z.of_nat];
     change (10 * 0 + 0) with 0; apply IHd; now left.
  all: match goal with
       | |- context [nat_of_ascii ?c] =>
           let n := eval vm_compute in (nat_of_ascii c) in change (nat_of_ascii c) with n
       end; cbn [Nat.leb andb Nat.sub Z.of_nat];
       match goal with
       | |- parse_digits ?z true _ = _ =>
           let v := eval vm_compute in z in change z with v
       end; rewrite parse_digits_acc; reflexivity.
Qed.

Lemma parse_digits_zeros n s :
  forall b, parse_digits 0 b (repeat_string n "0" ++ s)
            = parse_digits 0 (b || (0 <? n)%nat) s.
Proof.
  induction n as [|n IH]; intros b; cbn [repeat_string].
  - simpl. now rewrite orb_false_r.
  - change (("0" ++ repeat_string n "0") ++ s) with (String "0" (repeat_string n "0" ++ s)).
    cbn [parse_digits]. change (nat_of_ascii "0") with 48%nat.
    cbn [Nat.leb andb Nat.sub Z.of_nat]. change (10 * 0 + 0) with 0.
    rewrite IH. simpl. now rewrite orb_true_r.
Qed.

Lemma str_of_int_digits i :
  0 <= i -> forall b, parse_digits 0 b (str_of_int i) = Some i.
Proof.
  intros Hi b. unfold str_of_int. destruct i as [|p|p]; [| |lia].
  - destruct b; reflexivity.
  - cbn [Z.to_int NilZero.string_of_int].
    unfold NilZero.string_of_uint.
    pose proof (DecimalPos.Unsigned.to_uint_nonnil p) as Hnn.
    destruct (Pos.to_uint p) eqn:E; try congruence;
      rewrite <- E; rewrite parse_digits_zero by (right; congruence);
      rewrite DecimalPos.Unsigned.of_to; reflexivity.
Qed.

Lemma format_03d_digits i : 0 <= i -> parse_digits 0 false (format_03d i) = Some i.
Proof.
  intros Hi. unfold format_03d.
  replace (i <? 0) with false by (symmetry; apply Z.ltb_ge; lia).
  rewrite Z.abs_eq by exact Hi.
  change ("" ++ ?x) with x. cbn [append].
  rewrite parse_digits_zeros. apply str_of_int_digits. exact Hi.
Qed.

Lemma format_03d_inj i j : 0 <= i -> 0 <= j -> format_03d i = format_03d j -> i = j.
Proof.
  intros Hi Hj E. pose proof (format_03d_digits Hi) as H1.
  rewrite E, (format_03d_digits Hj) in H1. congruence.
Qed.

(** *** Strings *)

Lemma lstrip_spaceless s : spaceless s -> lstrip s = s.
Proof.
  destruct s as [|c r]; [reflexivity|]. unfold spaceless. simpl.
  intros H. inversion H as [|? ? Hc _]; subst. now rewrite Hc.
Qed.

Lemma spaceless_rev s : spaceless s -> spaceless (rev_string s).
Proof.
  unfold spaceless, rev_string. rewrite list_ascii_of_string_of_list_ascii.
  intros H. apply Forall_rev. exact H.
Qed.

Lemma strip_spaceless s : spaceless s -> strip s = s.
Proof.
  intros H. unfold strip. rewrite (lstrip_spaceless H).
  rewrite (lstrip_spaceless (spaceless_rev H)). apply rev_string_involutive.
Qed.

Lemma parse_digits_spaceless s :
  forall acc b v, parse_digits acc b s = Some v -> spaceless s.
Proof.
  induction s as [|c r IH]; intros acc b v H; [constructor|].
  unfold spaceless. simpl. cbn [parse_digits] in H.
  set (n := nat_of_ascii c) in *.
  destruct ((48 <=? n) && (n <=? 57))%nat eqn:Hd.
  - constructor; [|eapply IH; exact H].
    unfold is_space. fold n. apply andb_true_iff in Hd. destruct Hd as [H1 H2].
    apply Nat.leb_le in H1. apply Nat.leb_le in H2.
    replace (n <=? 13)%nat with false by (symmetry; apply Nat.leb_gt; lia).
    replace (n <=? 32)%nat with false by (symmetry; apply Nat.leb_gt; lia).
    now rewrite !andb_false_r.
  - destruct (Ascii.eqb c "_" && b) eqn:Hu; [|discriminate].
    apply andb_true_iff in Hu. destruct Hu as [Hu _]. apply Ascii.eqb_eq in Hu.
    constructor; [subst c; reflexivity | eapply IH; exact H].
Qed.

(** A string of digits reads as a number: [int] finds no white space to
    trim and no sign. *)
Lemma int_of_digits s v : parse_digits 0 false s = Some v -> int_of_string s = Ok v.
Proof.
  intros H. unfold int_of_string. rewrite (strip_spaceless (parse_digits_spaceless _ _ _ H)).
  destruct s as [|c r]; [discriminate H|].
  destruct (Ascii.eqb_spec c "-") as [-> | Hm]; [discriminate H|].
  destruct (Ascii.eqb_spec c "+") as [-> | Hp]; [discriminate H|].
  assert (Hbody : match String c r with
                  | String "-" r0 => option_map Z.opp (parse_digits 0 false r0)
                  | String "+" r0 => parse_digits 0 false r0
                  | _ => parse_digits 0 false (String c r)
                  end = parse_digits 0 false (String c r)).
  { destruct c as [[|] [|] [|] [|] [|] [|] [|] [|]]; try reflexivity; congruence. }
  rewrite Hbody, H. reflexivity.
Qed.

(** *** The dict of explanations *)

Lemma dict_put_hashable k v d :
  hashable k = true -> hashable_keys d -> hashable_keys (dict_put k v d).
Proof.
  intros Hk. induction d as [|[k' v'] r IH]; intros Hd; simpl.
  - repeat constructor. exact Hk.
  - inversion Hd as [|? ? Hk' Hr]; subst. destruct (py_eq k' k).
    + constructor; assumption.
    + constructor; [assumption | apply IH; assumption].
Qed.



Lemma collect_hashable arr :
  forall seen, hashable_keys seen -> hashable_keys (collect arr seen).
Proof.
  induction arr as [|obj rest IH]; intros seen Hs; simpl; [exact Hs|].
  destruct obj; try (apply IH; exact Hs).
  destruct (lookup "index" d) as [k|]; [|apply IH; exact Hs].
  destruct (text_of (JDict d) "explanation"); [|exact Hs].
  destruct (text_of (JDict d) "reasoned_answer"); [|exact Hs].
  destruct (hashable k) eqn:Hk; [|exact Hs].
  apply IH. apply dict_put_hashable; assumption.
Qed.


Lemma collect_stops good bad rest :
  forall seen, Forall (fun obj => readable obj = true) good -> readable bad = false ->
    collect (good ++ bad :: rest) seen = collect good seen.
Proof.
  induction good as [|obj good IH]; intros seen Hg Hb.
  - simpl. unfold readable in Hb. destruct bad; try discriminate.
    destruct (lookup "index" d) as [k|]; [|discriminate].
    destruct (text_of (JDict d) "explanation"); [|reflexivity].
    destruct (text_of (JDict d) "reasoned_answer"); [|reflexivity].
    destruct (hashable k); [discriminate | reflexivity].
  - inversion Hg as [|? ? Hobj Hgood]; subst. cbn [app collect].
    destruct obj; try (apply IH; assumption).
    destruct (lookup "index" d) as [k|]; [|apply IH; assumption].
    destruct (text_of (JDict d) "explanation"); [|reflexivity].
    destruct (text_of (JDict d) "reasoned_answer"); [|reflexivity].
    destruct (hashable k); [apply IH; assumption | reflexivity].
Qed.

(** *** The items *)

Lemma build_items_nth difficulty puzzles seen :
  forall i n it,
    nth_error (build_items difficulty i puzzles seen) n = Some it ->
    exists p, nth_error puzzles n = Some p /\
      it = {| it_id := difficulty ++ "-" ++ format_03d (i + Z.of_nat n);
              it_difficulty := difficulty;
              it_equality := p_equality p;
              it_inequality := p_inequality p;
              it_ineq_template := p_template p;
              it_answer := p_answer p;
              it_explanation :=
                fst (match dict_find (i + Z.of_nat n) seen with Some v => v | None => ("", "") end);
              it_reasoned_answer :=
                snd (match dict_find (i + Z.of_nat n) seen with Some v => v | None => ("", "") end) |}.
Proof.
  induction puzzles as [|p rest IH]; intros i n it H; simpl in H.
  - destruct n; discriminate.
  - destruct n as [|n]; simpl in H.
    + injection H as <-. exists p. split; [reflexivity|]. simpl. now rewrite Z.add_0_r.
    + apply IH in H. destruct H as (q & Hq & ->). exists q. split; [exact Hq|].
      replace (i + 1 + Z.of_nat n) with (i + Z.of_nat (S n)) by lia. reflexivity.
Qed.

Lemma build_items_length difficulty puzzles seen :
  forall i, length (build_items difficulty i puzzles seen) = length puzzles.
Proof. induction puzzles as [|p rest IH]; intros i; simpl; [reflexivity|]. now rewrite IH. Qed.

Lemma length_zeros n : String.length (repeat_string n "0") = n.
Proof. induction n as [|n IH]; simpl; [reflexivity|]. now rewrite IH. Qed.

Lemma format_03d_length i : 0 <= i -> (3 <= String.length (format_03d i))%nat.
Proof.
  intros Hi. unfold format_03d.
  replace (i <? 0) with false by (symmetry; apply Z.ltb_ge; lia).
  cbn [append String.length]. rewrite length_append, length_zeros. lia.
Qed.

Lemma final_item_at difficulty puzzles response n it :
  nth_error (final_items difficulty puzzles response) n = Some it ->
  exists p, nth_error puzzles n = Some p /\
    it_id it = difficulty ++ "-" ++ format_03d (1 + Z.of_nat n) /\
    it_difficulty it = difficulty /\
    it_equality it = p_equality p /\ it_inequality it = p_inequality p /\
    it_ineq_template it = p_template p /\ it_answer it = p_answer p /\
    (it_explanation it, it_reasoned_answer it)
    = match dict_find (1 + Z.of_nat n) (read_explanations response) with
      | Some v => v
      | None => ("", "")
      end.
Proof.
  unfold final_items. intros H. apply build_items_nth in H.
  destruct H as (p & Hp & ->). exists p. cbn.
  repeat split; try assumption. now destruct (dict_find _ _) as [[e r]|].
Qed.

End TiltedScalesScriptFacts.

Module TiltedScalesScriptProperties.
Import Py PyFacts TiltedScales TiltedScalesFacts.
Import WritingEquations WritingEquationsFacts DedupeFacts PyStringFacts.
Import TiltedScalesScript TiltedScalesScriptFacts.



(** X19. The script writes one item per puzzle, in order, with the
    puzzle's equality, inequality, template and answer unchanged whatever the
    LLM answered. The ids are pairwise different: each is the difficulty,
    a dash and at least three digits that read back as the 1-based position
    of the item. *)
Theorem final_items_follow_puzzles difficulty puzzles response :
  let items := final_items difficulty puzzles response in
  length items = length puzzles /\
  NoDup (map it_id items) /\
  forall n it, nth_error items n = Some it ->
    exists p digits,
      nth_error puzzles n = Some p /\
      it_id it = difficulty ++ "-" ++ digits /\
      int_of_string digits = Ok (Z.of_nat n + 1) /\ (3 <= String.length digits)%nat /\
      it_difficulty it = difficulty /\
      it_equality it = p_equality p /\ it_inequality it = p_inequality p /\
      it_ineq_template it = p_template p /\ it_answer it = p_answer p.
Proof.
  cbv zeta. split; [apply build_items_length|]. split.
  - apply NoDup_nth_error. intros i j Hi Hij.
    rewrite length_map in Hi. rewrite !nth_error_map in Hij.
    destruct (nth_error (final_items difficulty puzzles response) i) as [a|] eqn:Ha;
      [|apply nth_error_None in Ha; lia].
    destruct (nth_error (final_items difficulty puzzles response) j) as [b|] eqn:Hb;
      [|discriminate].
    apply final_item_at in Ha, Hb.
    destruct Ha as (p & _ & Hida & _). destruct Hb as (q & _ & Hidb & _).
    simpl in Hij. injection Hij as Hij. rewrite Hida, Hidb in Hij.
    apply append_inv_head in Hij. apply (@append_inv_head "-") in Hij.
    apply format_03d_inj in Hij; lia.
  - intros n it H. apply final_item_at in H.
    destruct H as (p & Hp & Hid & Hd & He & Hi & Ht & Ha & _).
    exists p, (format_03d (1 + Z.of_nat n)).
    repeat split; try assumption.
    + apply int_of_digits. rewrite format_03d_digits by lia. f_equal. lia.
    + apply format_03d_length. lia.
Qed.



(** X21. The first entry that cannot be read (its index is a list or an
    object, or one of its two texts is a true value that is not a string)
    ends the reading: the entries before it count, the entries after it are
    ignored. *)
Theorem unreadable_entry_ends_reading difficulty puzzles good bad rest :
  Forall (fun obj => readable obj = true) good -> readable bad = false ->
  final_items difficulty puzzles (Some (JList (good ++ bad :: rest)))
  = final_items difficulty puzzles (Some (JList good)).
Proof.
  intros Hg Hb. unfold final_items, read_explanations.
  now rewrite (@collect_stops good bad rest [] Hg Hb).
Qed.

Lemma unreadable_entry_ends_reading_witness :
  Forall (fun obj => readable obj = true) [hd JNull sample_response] /\
  readable unreadable_entry = false /\
  final_items "easy" [snd proportional_example]
    (Some (JList ([hd JNull sample_response] ++ unreadable_entry :: tl sample_response)))
  = final_items "easy" [snd proportional_example] (Some (JList [hd JNull sample_response])).
Proof.
  assert (Hg : Forall (fun obj => readable obj = true) [hd JNull sample_response])
    by (repeat constructor).
  assert (Hb : readable unreadable_entry = false) by reflexivity.
  split; [exact Hg|]. split; [exact Hb|].
  exact (@unreadable_entry_ends_reading "easy" [snd proportional_example] _ _
           (tl sample_response) Hg Hb).
Defined.

End TiltedScalesScriptProperties.

(** ** Price puzzles: the array cut out of the answer *)

Module WritingEquationsGenerateFacts.
Import Py PyStringFacts WritingEquationsGenerate.

Lemma occurs_cons c a r : occurs c (String a r) <-> a = c \/ occurs c r.
Proof. unfold occurs. simpl. tauto. Qed.

Lemma occurs_app c a b : occurs c (a ++ b) <-> occurs c a \/ occurs c b.
Proof.
  unfold occurs. induction a as [|x a IH]; simpl; [tauto|]. rewrite IH. tauto.
Qed.

(** Two ways to cut one string: the shorter head is a head of the longer. *)
Lemma app_split (a x b y : string) :
  a ++ x = b ++ y -> (String.length a <= String.length b)%nat ->
  exists z, b = a ++ z /\ x = z ++ y.
Proof.
  revert b. induction a as [|c a IH]; intros b H Hlen; simpl in *.
  - exists b. auto.
  - destruct b as [|d b]; simpl in *; [lia|]. injection H as <- H.
    destruct (IH b H ltac:(lia)) as (z & -> & ->). exists z. auto.
Qed.

(** *** [find] *)

Lemma find_low c s : -1 <= find c s.
Proof.
  induction s as [|a r IH]; simpl; [lia|].
  destruct (Ascii.eqb a c); [lia|]. destruct (find c r =? -1); lia.
Qed.

Lemma find_at c pre post :
  ~ occurs c pre -> find c (pre ++ String c post) = Z.of_nat (String.length pre).
Proof.
  induction pre as [|a pre IH]; intros H.
  - simpl. now rewrite Ascii.eqb_refl.
  - rewrite occurs_cons in H. cbn [append find String.length].
    destruct (Ascii.eqb_spec a c) as [-> | Hne]; [tauto|].
    rewrite IH by tauto.
    destruct (Z.of_nat (String.length pre) =? -1) eqn:E; [apply Z.eqb_eq in E; lia | lia].
Qed.

Lemma find_split c s :
  0 <= find c s ->
  exists pre post, s = pre ++ String c post /\ ~ occurs c pre /\
                   find c s = Z.of_nat (String.length pre).
Proof.
  induction s as [|a r IH]; simpl; [lia|].
  destruct (Ascii.eqb_spec a c) as [-> | Hne].
  - intros _. exists "", r. repeat split. intros [].
  - destruct (find c r =? -1) eqn:E; [lia|]. apply Z.eqb_neq in E. intros _.
    pose proof (find_low c r) as Hlow.
    destruct (IH ltac:(lia)) as (pre & post & -> & Hpre & Hlen).
    exists (String a pre), post. repeat split.
    + rewrite occurs_cons. tauto.
    + rewrite Hlen. cbn [String.length]. lia.
Qed.

Lemma find_absent c s : find c s = -1 <-> ~ occurs c s.
Proof.
  split.
  - intros H Hocc. induction s as [|a r IH]; [destruct Hocc|].
    simpl in H. rewrite occurs_cons in Hocc.
    destruct (Ascii.eqb_spec a c) as [-> | Hne]; [discriminate|].
    destruct (find c r =? -1) eqn:E.
    + apply Z.eqb_eq in E. destruct Hocc as [? | Hocc]; [congruence | auto].
    + pose proof (find_low c r). lia.
  - intros H. pose proof (find_low c s) as Hlow.
    destruct (Z.eq_dec (find c s) (-1)) as [E | E]; [exact E|]. exfalso.
    destruct (@find_split c s ltac:(lia)) as (pre & post & -> & _ & _).
    apply H. apply occurs_app. right. apply occurs_cons. now left.
Qed.

(** *** [rfind] *)

Lemma rfind_low c s : -1 <= rfind c s.
Proof.
  induction s as [|a r IH]; simpl; [lia|].
  destruct (rfind c r =? -1); [destruct (Ascii.eqb a c); lia | lia].
Qed.

Lemma rfind_absent c s : rfind c s = -1 <-> ~ occurs c s.
Proof.
  induction s as [|a r IH]; simpl.
  - split; [intros _ [] | reflexivity].
  - rewrite occurs_cons. pose proof (rfind_low c r) as Hlow.
    destruct (rfind c r =? -1) eqn:E.
    + apply Z.eqb_eq in E. destruct (Ascii.eqb_spec a c) as [-> | Hne].
      * split; [discriminate | tauto].
      * split; [|reflexivity]. intros _ [? | H]; [congruence|]. apply IH in E. tauto.
    + apply Z.eqb_neq in E. split; [lia|]. intros H. exfalso. apply E, IH. tauto.
Qed.

Lemma rfind_at c pre post :
  ~ occurs c post -> rfind c (pre ++ String c post) = Z.of_nat (String.length pre).
Proof.
  intros H. induction pre as [|a pre IH].
  - simpl. apply rfind_absent in H. rewrite H. simpl. now rewrite Ascii.eqb_refl.
  - cbn [append rfind String.length]. rewrite IH.
    destruct (Z.of_nat (String.length pre) =? -1) eqn:E; [apply Z.eqb_eq in E; lia | lia].
Qed.

Lemma rfind_split c s :
  0 <= rfind c s ->
  exists pre post, s = pre ++ String c post /\ ~ occurs c post /\
                   rfind c s = Z.of_nat (String.length pre).
Proof.
  induction s as [|a r IH]; simpl; [lia|].
  pose proof (rfind_low c r) as Hlow.
  destruct (rfind c r =? -1) eqn:E.
  - apply Z.eqb_eq in E. destruct (Ascii.eqb_spec a c) as [-> | Hne]; [|lia].
    intros _. exists "", r. repeat split. apply rfind_absent. exact E.
  - apply Z.eqb_neq in E. intros _.
    destruct (IH ltac:(lia)) as (pre & post & -> & Hpost & Hlen).
    exists (String a pre), post. repeat split; [exact Hpost|].
    rewrite Hlen. cbn [String.length]. lia.
Qed.

(** *** Slices *)

Lemma substring_skip pre s m :
  substring (String.length pre) m (pre ++ s) = substring 0 m s.
Proof. induction pre as [|a pre IH]; simpl; [reflexivity | exact IH]. Qed.

Lemma substring_head body post :
  substring 0 (String.length body) (body ++ post) = body.
Proof.
  induction body as [|a body IH]; simpl.
  - destruct post; reflexivity.
  - now rewrite IH.
Qed.

Lemma slice_middle pre body post :
  slice (pre ++ body ++ post) (Z.of_nat (String.length pre))
        (Z.of_nat (String.length pre) + Z.of_nat (String.length body))
  = body.
Proof.
  unfold slice. rewrite Nat2Z.id.
  replace (Z.to_nat (Z.of_nat (String.length pre) + Z.of_nat (String.length body)
                     - Z.of_nat (String.length pre)))
    with (String.length body) by lia.
  rewrite substring_skip. apply substring_head.
Qed.

(** The payload of a text with a bracketed span that no earlier [[] and no
    later []] widens. *)
Lemma payload_of_span pre mid post :
  ~ occurs "[" pre -> ~ occurs "]" post ->
  extract_payload (pre ++ ("[" ++ mid ++ "]") ++ post) = Some ("[" ++ mid ++ "]").
Proof.
  intros Hpre Hpost. unfold extract_payload.
  assert (Hfind : find "[" (pre ++ ("[" ++ mid ++ "]") ++ post)
                  = Z.of_nat (String.length pre)).
  { change (("[" ++ mid ++ "]") ++ post) with (String "[" ((mid ++ "]") ++ post)).
    apply find_at. exact Hpre. }
  assert (Hrfind : rfind "]" (pre ++ ("[" ++ mid ++ "]") ++ post)
                   = Z.of_nat (String.length (pre ++ "[" ++ mid))).
  { replace (pre ++ ("[" ++ mid ++ "]") ++ post)
      with ((pre ++ "[" ++ mid) ++ String "]" post).
    - apply rfind_at. exact Hpost.
    - rewrite !append_assoc. reflexivity. }
  rewrite Hfind, Hrfind. rewrite length_append. cbn [append String.length].
  replace (Z.of_nat (String.length pre) =? -1) with false by (symmetry; apply Z.eqb_neq; lia).
  replace (Z.of_nat (String.length pre + S (String.length mid)) =? -1) with false
    by (symmetry; apply Z.eqb_neq; lia).
  replace (Z.of_nat (String.length pre) <? Z.of_nat (String.length pre + S (String.length mid)))
    with true by (symmetry; apply Z.ltb_lt; lia).
  cbn [negb andb]. f_equal.
  replace (Z.of_nat (String.length pre + S (String.length mid)) + 1)
    with (Z.of_nat (String.length pre) + Z.of_nat (String.length (String "[" (mid ++ "]")))).
  - apply (@slice_middle pre (String "[" (mid ++ "]")) post).
  - cbn [String.length]. rewrite length_append. cbn [String.length]. lia.
Qed.

(** What a payload is. *)
Lemma payload_span raw p :
  extract_payload raw = Some p ->
  exists pre mid post,
    raw = pre ++ p ++ post /\ p = "[" ++ mid ++ "]" /\
    ~ occurs "[" pre /\ ~ occurs "]" post.
Proof.
  unfold extract_payload. intros H.
  destruct (find "[" raw =? -1) eqn:E1; [discriminate|].
  destruct (rfind "]" raw =? -1) eqn:E2; [discriminate|].
  destruct (find "[" raw <? rfind "]" raw) eqn:E3; [|discriminate].
  apply Z.eqb_neq in E1, E2. apply Z.ltb_lt in E3.
  pose proof (find_low "[" raw). pose proof (rfind_low "]" raw).
  destruct (@find_split "[" raw ltac:(lia)) as (pre & r1 & Hraw1 & Hpre & Hstart).
  destruct (@rfind_split "]" raw ltac:(lia)) as (pre2 & post & Hraw2 & Hpost & Hend).
  assert (Hcut : pre ++ String "[" r1 = pre2 ++ String "]" post) by congruence.
  destruct (@app_split pre (String "[" r1) pre2 (String "]" post) Hcut ltac:(lia))
    as (z & -> & Hz).
  destruct z as [|c mid].
  { rewrite append_empty in Hend. lia. }
  simpl in Hz. injection Hz as <- Hr1.
  assert (Hraw : raw = pre ++ ("[" ++ mid ++ "]") ++ post).
  { rewrite Hraw2. rewrite !append_assoc. reflexivity. }
  exists pre, mid, post.
  pose proof (@payload_of_span pre mid post Hpre Hpost) as Hp.
  rewrite <- Hraw in Hp. unfold extract_payload in Hp.
  replace (find "[" raw =? -1) with false in Hp by (symmetry; apply Z.eqb_neq; lia).
  replace (rfind "]" raw =? -1) with false in Hp by (symmetry; apply Z.eqb_neq; lia).
  replace (find "[" raw <? rfind "]" raw) with true in Hp by (symmetry; apply Z.ltb_lt; lia).
  cbn [negb andb] in *. rewrite Hp in H. injection H as <-.
  repeat split; try assumption.
Qed.

(** Any [[] before any []] is enough for a payload. *)
Lemma payload_exists a m b : exists p, extract_payload (a ++ "[" ++ m ++ "]" ++ b) = Some p.
Proof.
  set (raw := a ++ "[" ++ m ++ "]" ++ b).
  assert (Ho1 : occurs "[" raw).
  { unfold raw. apply occurs_app. right. apply occurs_cons. now left. }
  assert (Ho2 : occurs "]" raw).
  { unfold raw. apply occurs_app. right. apply occurs_cons. right.
    apply occurs_app. right. apply occurs_cons. now left. }
  pose proof (find_low "[" raw). pose proof (rfind_low "]" raw).
  assert (E1 : find "[" raw <> -1) by (intros E; apply find_absent in E; contradiction).
  assert (E2 : rfind "]" raw <> -1) by (intros E; apply rfind_absent in E; contradiction).
  destruct (@find_split "[" raw ltac:(lia)) as (pre & r1 & Hraw1 & Hpre & Hstart).
  destruct (@rfind_split "]" raw ltac:(lia)) as (pre2 & post & Hraw2 & Hpost & Hend).
  assert (Hs : (String.length pre <= String.length a)%nat).
  { destruct (Nat.le_gt_cases (String.length pre) (String.length a)) as [Hle | Hgt]; [exact Hle|].
    exfalso. assert (Hcut : a ++ String "[" (m ++ "]" ++ b) = pre ++ String "[" r1)
      by (rewrite <- Hraw1; reflexivity).
    destruct (@app_split _ _ _ _ Hcut ltac:(lia)) as (z & -> & Hz).
    destruct z as [|c z]; [rewrite append_empty in Hgt; lia|].
    simpl in Hz. injection Hz as <- _.
    apply Hpre. apply occurs_app. right. apply occurs_cons. now left. }
  assert (He : (String.length (a ++ "[" ++ m) <= String.length pre2)%nat).
  { destruct (Nat.le_gt_cases (String.length (a ++ "[" ++ m)) (String.length pre2))
      as [Hle | Hgt]; [exact Hle|].
    exfalso.
    assert (Hcut : pre2 ++ String "]" post = (a ++ "[" ++ m) ++ String "]" b).
    { rewrite <- Hraw2. unfold raw. rewrite !append_assoc. reflexivity. }
    destruct (@app_split _ _ _ _ Hcut ltac:(lia)) as (z & Hz1 & Hz2).
    destruct z as [|c z]; [rewrite Hz1, append_empty in Hgt; lia|].
    simpl in Hz2. injection Hz2 as <- Hz2.
    apply Hpost. rewrite Hz2. apply occurs_app. right. apply occurs_cons. now left. }
  rewrite length_append in He. cbn [append String.length] in He.
  unfold extract_payload. fold raw.
  replace (find "[" raw =? -1) with false by (symmetry; apply Z.eqb_neq; lia).
  replace (rfind "]" raw =? -1) with false by (symmetry; apply Z.eqb_neq; lia).
  replace (find "[" raw <? rfind "]" raw) with true by (symmetry; apply Z.ltb_lt; lia).
  cbn [negb andb]. eauto.
Qed.

End WritingEquationsGenerateFacts.

Module WritingEquationsGenerateProperties.
Import Py PyStringFacts WritingEquationsGenerate WritingEquationsGenerateFacts.

(** X22. The text that [main] hands to [json.loads] is the widest bracketed
    span of the answer: it runs from the first [[] of the answer to its last
    []], so it starts with [[], ends with []], and what is cut off in front
    has no [[] and what is cut off behind has no []]. Every text with such a
    span has it as its payload. *)
Theorem payload_is_widest_span raw p :
  extract_payload raw = Some p <->
  exists pre mid post,
    raw = pre ++ p ++ post /\ p = "[" ++ mid ++ "]" /\
    ~ occurs "[" pre /\ ~ occurs "]" post.
Proof.
  split; [apply payload_span|].
  intros (pre & mid & post & -> & -> & Hpre & Hpost).
  apply payload_of_span; assumption.
Qed.

(** X23. The [assert] of [main] fails, so that nothing reaches [json.loads]
    and the script exits with status 5, exactly when the answer has no [[]
    in front of a []]. *)
Theorem no_payload_iff raw :
  extract_payload raw = None <->
  forall a m b, raw <> a ++ "[" ++ m ++ "]" ++ b.
Proof.
  split.
  - intros H a m b ->. destruct (payload_exists a m b) as [p Hp]. congruence.
  - intros H. destruct (extract_payload raw) as [p|] eqn:E; [|reflexivity].
    exfalso. apply payload_span in E.
    destruct E as (pre & mid & post & -> & -> & _). apply (H pre mid post).
    rewrite !append_assoc. reflexivity.
Qed.

(** X24. Extracting again changes nothing: a payload is its own payload. *)
Theorem payload_idempotent raw p :
  extract_payload raw = Some p -> extract_payload p = Some p.
Proof.
  intros H. apply payload_span in H. destruct H as (pre & mid & post & _ & -> & _).
  pose proof (@payload_of_span "" mid "" (fun x => x) (fun x => x)) as Hp.
  cbn [append] in Hp. rewrite append_empty in Hp. exact Hp.
Qed.

Lemma payload_idempotent_witness :
  extract_payload "Here you go: [1, [2]] (done)" = Some "[1, [2]]" /\
  extract_payload "[1, [2]]" = Some "[1, [2]]".
Proof.
  assert (H : extract_payload "Here you go: [1, [2]] (done)" = Some "[1, [2]]")
    by (vm_compute; reflexivity).
  split; [exact H|]. exact (@payload_idempotent _ _ H).
Defined.

End WritingEquationsGenerateProperties.

(** ** Price puzzles: [norm], the id and the prompt's examples *)

Module ValidatorInputsFacts.
Import Py WritingEquations WritingEquationsFacts PyStringFacts ValidatorInputs.

(** *** Trimming *)





(** *** The id *)

Lemma same_but_in k d1 d2 key :
  same_but k d1 d2 -> py_in key (JDict d1) = py_in key (JDict d2).
Proof.
  intros [Hother Hk]. simpl. destruct (String.eqb_spec key k) as [-> | Hne].
  - destruct (lookup k d1), (lookup k d2); try reflexivity.
    + destruct Hk as [_ Hk]. discriminate (Hk eq_refl).
    + destruct Hk as [Hk _]. discriminate (Hk eq_refl).
  - now rewrite (Hother key Hne).
Qed.

Lemma same_but_head k a b (fields : list (string * json)) :
  same_but k ((k, a) :: fields) ((k, b) :: fields).
Proof.
  split.
  - intros k' Hk. cbn [lookup]. destruct (String.eqb_spec k k'); [congruence | reflexivity].
  - cbn [lookup]. rewrite String.eqb_refl. split; discriminate.
Qed.

End ValidatorInputsFacts.

Module ValidatorInputsProperties.
Import Py WritingEquations WritingEquationsFacts ValidatorInputs ValidatorInputsFacts.



(** X26. [validate_item] never looks at the value of ["id"]: two items
    that differ at most in their id get the same verdict and the same
    violations (or raise the same exception). *)
Theorem validate_item_ignores_id d1 d2 :
  same_but "id" d1 d2 -> validate_item (JDict d1) = validate_item (JDict d2).
Proof.
  intros H.
  assert (Hin : forall key, py_in key (JDict d1) = py_in key (JDict d2))
    by (intros key; apply (same_but_in key H)).
  assert (Hitem : forall key, key <> "id" ->
            py_getitem (JDict d1) key = py_getitem (JDict d2) key).
  { intros key Hk. simpl. destruct H as [H _]. now rewrite (H key Hk). }
  assert (Hget : forall key dflt, key <> "id" ->
            py_get (JDict d1) key dflt = py_get (JDict d2) key dflt).
  { intros key dflt Hk. simpl. destruct H as [H _]. now rewrite (H key Hk). }
  unfold validate_item.
  assert (Hroot : check_root_keys (JDict d1) [] = check_root_keys (JDict d2) []).
  { unfold check_root_keys, REQ_ROOT_KEYS. cbn [for_each]. now rewrite !Hin. }
  rewrite Hroot.
  assert (Hsec : check_sections (JDict d1) [] = check_sections (JDict d2) []).
  { unfold check_sections, check_context, check_table, check_graph, check_tokens,
      check_answers, check_explanation, norm_get.
    rewrite !(Hitem "stem"), !(Hitem "table"), !(Hitem "graph") by discriminate.
    rewrite !(Hget "equation_template"), !(Hget "tokens"), !(Hget "answers"),
      !(Hget "explanation") by discriminate.
    reflexivity. }
  destruct (check_root_keys (JDict d2) []) as [[u [|m0 r0]]|e]; try reflexivity.
  now rewrite Hsec.
Qed.

Lemma validate_item_ignores_id_witness :
  validate_item bananas_renamed = validate_item bananas /\
  validate_item bananas_renamed = Ok (true, []).
Proof.
  pose proof (@validate_item_ignores_id _ _
                (same_but_head "id" (JInt 0) (JStr "lin-001")
                   (match bananas with JDict (_ :: fields) => fields | _ => [] end))) as E.
  change (validate_item bananas_renamed = validate_item bananas) in E.
  split; [exact E|]. rewrite E. vm_compute. reflexivity.
Defined.

(** X27. The three worked examples that the generation prompt shows to the
    LLM satisfy the validator: each passes [validate_item] with no
    violation, and a run over the three keeps and passes them all. *)
Theorem prompt_examples_pass :
  Forall (fun it => validate_item it = Ok (true, [])) EXAMPLES /\
  run_validator EXAMPLES = Ok (mk_report EXAMPLES [] 0).
Proof.
  split; [repeat constructor; vm_compute; reflexivity | vm_compute; reflexivity].
Qed.

End ValidatorInputsProperties.

(** ** Price puzzles: the validator returns on typed items *)

Module TypedItemsFacts.
Import Py WritingEquations WritingEquationsFacts DedupeFacts Batches BatchFacts TypedItems.

Lemma returns_ret {A} (P : A -> Prop) a : P a -> returns P (vret a).
Proof. intros H errs. exists a, errs. auto. Qed.

Lemma returns_lift {A B} (r : result A) (f : A -> V B) (P : B -> Prop) a :
  r = Ok a -> returns P (f a) -> returns P (vbind (lift r) f).
Proof. intros -> H errs. unfold vbind, lift. apply H. Qed.

Lemma returns_bind {A B} (m : V A) (f : A -> V B) (Q : A -> Prop) (P : B -> Prop) :
  returns Q m -> (forall a, Q a -> returns P (f a)) -> returns P (vbind m f).
Proof.
  intros Hm Hf errs. destruct (Hm errs) as (a & mid & E & Ha).
  unfold vbind. rewrite E. apply Hf. exact Ha.
Qed.

Lemma returns_require {B} c msg (k : bool -> V B) (P : B -> Prop) :
  (forall b, returns P (k b)) -> returns P (vbind (require c msg) k).
Proof. intros H errs. unfold vbind, require. apply H. Qed.

Lemma returns_check {B} r msg (k : unit -> V B) (P : B -> Prop) b :
  r = Ok b -> returns P (k tt) -> returns P (vbind (check r msg) k).
Proof. intros -> H errs. unfold check, vbind, lift, require, vret. apply H. Qed.

Lemma returns_check_ex {B} r msg (k : unit -> V B) (P : B -> Prop) :
  (exists b, r = Ok b) -> returns P (k tt) -> returns P (vbind (check r msg) k).
Proof. intros (b & E). exact (returns_check msg k E). Qed.

Lemma returns_check_end r msg b : r = Ok b -> returns (fun _ => True) (check r msg).
Proof.
  intros -> errs. unfold check, vbind, lift, require, vret. eauto.
Qed.

Lemma returns_any {A} (P : A -> Prop) (m : V A) : returns P m -> returns (fun _ => True) m.
Proof. intros H errs. destruct (H errs) as (a & e & E & _). eauto. Qed.

Lemma returns_for_each {A} (l : list A) (body : A -> V unit) :
  (forall x, In x l -> returns (fun _ => True) (body x)) ->
  returns (fun _ => True) (for_each l body).
Proof.
  induction l as [|x r IH]; intros H; simpl.
  - apply returns_ret. exact I.
  - eapply returns_bind; [apply H; now left|]. intros _ _. apply IH.
    intros y Hy. apply H. now right.
Qed.

(** *** Typed values *)

Lemma optional_get k p v dflt :
  optional k p v = true -> p dflt = true ->
  exists x, py_get v k dflt = Ok x /\ p x = true.
Proof.
  destruct v; simpl; try discriminate. destruct (lookup k d); eauto.
Qed.

Lemma required_get k p v dflt :
  required k p v = true -> exists x, py_get v k dflt = Ok x /\ p x = true.
Proof.
  destruct v; simpl; try discriminate. destruct (lookup k d); [eauto | discriminate].
Qed.

Lemma optional_dict k p v : optional k p v = true -> exists d, v = JDict d.
Proof. destruct v; simpl; try discriminate. eauto. Qed.

Lemma norm_str v : is_str v = true -> exists s, norm v = Ok s.
Proof.
  destruct v; try discriminate. intros _. unfold norm. destruct (truthy (JStr s)); eauto.
Qed.

Lemma norm_get_typed k v : optional k is_str v = true -> exists s, norm_get v k = Ok s.
Proof.
  intros H. destruct (@optional_get k is_str v (JStr "") H eq_refl) as (x & Hx & Hs).
  unfold norm_get. rewrite Hx. simpl. apply norm_str. exact Hs.
Qed.

Lemma is_int_JInt v : is_int v = true -> exists z, v = JInt z.
Proof. destruct v; try discriminate. eauto. Qed.

Ltac split_typed H :=
  repeat match type of H with
         | _ && _ = true => let H' := fresh "T" in apply andb_true_iff in H; destruct H as [H H']
         end.

Ltac norm_step key x Hx T :=
  destruct (@norm_get_typed key _ T) as (x & Hx);
  eapply returns_lift; [exact Hx|].

Ltac requires := repeat (apply returns_require; intros _).

(** *** Section 2 *)

Lemma check_context_returns d stem :
  lookup "stem" d = Some stem -> typed_stem stem = true ->
  returns (fun c => (exists m, slope_m c = JInt m) /\
                    optional "x_unit_label" is_str (ctx c) = true)
          (check_context (JDict d)).
Proof.
  intros Hstem T. unfold typed_stem in T. split_typed T. rename T0 into Tc.
  destruct (@required_get "context" typed_context stem (JDict []) Tc) as (cx & Hcx & Tcx).
  unfold typed_context in Tcx. split_typed Tcx.
  destruct (@required_get "slope_m" is_int cx JNull T0) as (sl & Hsl & Tsl).
  apply is_int_JInt in Tsl. destruct Tsl as (m & ->).
  unfold check_context.
  eapply returns_lift; [simpl; rewrite Hstem; reflexivity|].
  eapply returns_lift; [exact Hcx|].
  norm_step "y_var" yv Hyv Tcx. norm_step "y_name" yn Hyn T7. norm_step "y_unit" yu Hyu T6.
  norm_step "x_var" xv Hxv T5. norm_step "x_name" xn Hxn T4. norm_step "x_unit" xu Hxu T3.
  norm_step "x_unit_label" xl Hxl T2. norm_step "item_name" nm Hnm T1.
  eapply returns_lift; [exact Hsl|].
  requires.
  eapply returns_bind with (Q := fun _ => True).
  { destruct (lookup xv MODES) as [[[en eu] el]|]; requires; apply returns_ret; exact I. }
  intros _ _. requires.
  norm_step "prompt_text" pt Hpt T.
  requires. apply returns_ret. simpl. split; [eauto | exact T2].
Qed.

(** *** Section 3 *)

Lemma py_get_object v k dflt : (exists d, v = JDict d) -> exists x, py_get v k dflt = Ok x.
Proof. intros (d & ->). simpl. eauto. Qed.

Lemma row_value_typed row p table :
  optional row (typed_row p) table = true -> exists v, row_value table row = Ok v.
Proof.
  intros H. unfold row_value.
  destruct (@optional_get row (typed_row p) table (JDict []) H eq_refl) as (r & Hr & Tr).
  rewrite Hr. simpl. unfold typed_row in Tr. apply andb_true_iff in Tr. destruct Tr as [Tv _].
  apply py_get_object. eapply optional_dict. exact Tv.
Qed.

Lemma row_display_typed row p table :
  optional row (typed_row p) table = true -> exists s, row_display table row = Ok s.
Proof.
  intros H. unfold row_display.
  destruct (@optional_get row (typed_row p) table (JDict []) H eq_refl) as (r & Hr & Tr).
  rewrite Hr. simpl. unfold typed_row in Tr. apply andb_true_iff in Tr. destruct Tr as [_ Td].
  apply norm_get_typed. exact Td.
Qed.

Lemma check_table_returns d table c m :
  lookup "table" d = Some table -> typed_table table = true -> slope_m c = JInt m ->
  returns (fun _ => True) (check_table (JDict d) c).
Proof.
  intros Htable T Hm. unfold typed_table in T. split_typed T. rename T into Tup.
  destruct (row_value_typed _ _ _ Tup) as (uv & Huv).
  destruct (row_display_typed _ _ _ Tup) as (ud & Hud).
  destruct (row_value_typed _ _ _ T0) as (tv & Htv).
  destruct (row_display_typed _ _ _ T0) as (td & Htd).
  destruct (@required_get "amount" _ table (JDict []) T1) as (ar & Har & Tar).
  apply andb_true_iff in Tar. destruct Tar as [Tav Tad].
  destruct (@required_get "value" is_int ar JNull Tav) as (av & Hav & Tint).
  apply is_int_JInt in Tint. destruct Tint as (a & ->).
  destruct (@norm_get_typed "display" ar Tad) as (ad & Had).
  unfold check_table. rewrite Hm.
  eapply returns_lift; [simpl; rewrite Htable; reflexivity|].
  eapply returns_lift; [exact Huv|]. eapply returns_lift; [exact Hud|].
  eapply returns_lift; [unfold row_value; rewrite Har; simpl; exact Hav|].
  eapply returns_lift; [unfold row_display; rewrite Har; simpl; exact Had|].
  eapply returns_lift; [exact Htv|]. eapply returns_lift; [exact Htd|].
  eapply returns_check; [reflexivity|]. eapply returns_check; [reflexivity|].
  eapply returns_check; [reflexivity|]. eapply returns_check; [reflexivity|].
  eapply returns_check_ex.
  { unfold and_then. simpl. destruct (is_pos_int tv); eauto. }
  eapply returns_check; [reflexivity|].
  apply returns_ret. exact I.
Qed.

(** *** Section 4 *)

Lemma and_then_ok x y : and_then (Ok x) (Ok y) = Ok (x && y).
Proof. unfold and_then. simpl. destruct x; reflexivity. Qed.

Lemma len_is_list n l : len_is n (JList l) = Ok (Z.of_nat (length l) =? n).
Proof. reflexivity. Qed.

Lemma pt_ok_returns m p : exists b, pt_ok (JInt m) p = Ok b.
Proof.
  destruct p as [| | | |l|]; simpl; eauto.
  destruct l as [|a [|b [|? ?]]]; eauto; destruct a; eauto; destruct b; simpl; eauto.
Qed.

Lemma ticks_get axis :
  typed_axis axis = true ->
  exists l, py_get axis "ticks" (JList []) = Ok (JList l) /\ forallb is_int l = true.
Proof.
  unfold typed_axis. intros T. apply andb_true_iff in T. destruct T as [_ T].
  destruct (@optional_get "ticks" (list_of is_int) axis (JList []) T eq_refl) as (x & Hx & Tx).
  destruct x; try discriminate. eauto.
Qed.

Lemma check_graph_returns d graph c m :
  lookup "graph" d = Some graph -> typed_graph graph = true -> slope_m c = JInt m ->
  returns (fun _ => True) (check_graph (JDict d) c).
Proof.
  intros Hgraph T Hm. unfold typed_graph in T. split_typed T. rename T into Tx.
  destruct (@optional_get "x_axis" typed_axis graph (JDict []) Tx eq_refl) as (xa & Hxa & Txa).
  destruct (@optional_get "y_axis" typed_axis graph (JDict []) T1 eq_refl) as (ya & Hya & Tya).
  destruct (ticks_get _ Txa) as (xs & Hxs & Txs).
  destruct (ticks_get _ Tya) as (ys & Hys & Tys).
  unfold typed_axis in Txa, Tya. apply andb_true_iff in Txa, Tya.
  destruct Txa as [Txl _]. destruct Tya as [Tyl _].
  destruct (@optional_get "line_points" is_list graph (JList []) T0 eq_refl) as (lp & Hlp & Tlp).
  destruct lp as [| | | |ps|]; try discriminate.
  unfold check_graph. rewrite Hm.
  eapply returns_lift; [simpl; rewrite Hgraph; reflexivity|].
  eapply returns_lift; [exact Hxa|]. eapply returns_lift; [exact Hya|].
  eapply returns_lift; [exact Hxs|]. eapply returns_lift; [exact Hys|].
  norm_step "label" xl Hxl Txl. requires. norm_step "label" yl Hyl Tyl. requires.
  eapply returns_check; [reflexivity|]. eapply returns_check; [reflexivity|].
  eapply returns_lift; [rewrite !len_is_list; apply and_then_ok|].
  eapply returns_bind with (Q := fun _ => True).
  { destruct ((Z.of_nat (length xs) =? 5) && (Z.of_nat (length ys) =? 5)); [|apply returns_ret; exact I].
    eapply returns_check; [reflexivity|]. eapply returns_check; [reflexivity|].
    eapply returns_lift; [reflexivity|]. eapply returns_lift; [reflexivity|].
    apply returns_for_each. intros [x y] Hin. apply in_combine_l in Hin.
    eapply (proj1 (forallb_forall _ _)) in Txs; [|exact Hin].
    apply is_int_JInt in Txs. destruct Txs as (z & ->).
    eapply returns_check_end. reflexivity. }
  intros _ _.
  eapply returns_lift; [exact Hlp|].
  eapply returns_check; [reflexivity|].
  eapply returns_lift; [reflexivity|].
  destruct (Z.of_nat (length ps) =? 2); [|apply returns_ret; exact I].
  eapply returns_lift; [reflexivity|].
  destruct ps as [|p1 [|p2 [|? ?]]]; try (apply returns_ret; exact I).
  destruct (pt_ok_returns m p1) as (b1 & Hb1). destruct (pt_ok_returns m p2) as (b2 & Hb2).
  eapply returns_check_end. rewrite Hb1, Hb2, and_then_ok. apply and_then_ok.
Qed.

(** *** Section 5 *)

Lemma py_any_returns {A} (p : A -> result bool) l :
  (forall x, In x l -> exists b, p x = Ok b) -> exists b, py_any p l = Ok b.
Proof.
  induction l as [|x r IH]; intros H; simpl; [eauto|].
  destruct (H x (or_introl eq_refl)) as (b & ->).
  destruct IH as (b' & ->); [intros y Hy; apply H; now right|].
  unfold or_else. simpl. destruct b; eauto.
Qed.

Lemma token_is_returns ty lbl t : typed_token t = true -> exists b, token_is ty lbl t = Ok b.
Proof.
  intros T. destruct (optional_dict _ _ _ T) as (d & ->).
  unfold token_is. cbn [py_get rbind]. rewrite and_then_ok. eauto.
Qed.

Lemma token_label_get t dflt :
  typed_token t = true -> is_str dflt = true ->
  exists s, py_get t "label" dflt = Ok (JStr s).
Proof.
  intros T Hd. destruct (@optional_get "label" is_str t dflt T Hd) as (x & Hx & Tx).
  destruct x; try discriminate. eauto.
Qed.

Lemma check_token_labels_returns m ts seen :
  forallb typed_token ts = true ->
  returns (fun _ => True) (check_token_labels m seen ts).
Proof.
  revert seen. induction ts as [|t r IH]; intros seen T; simpl.
  - apply returns_ret. exact I.
  - simpl in T. apply andb_true_iff in T. destruct T as [Tt Tr].
    destruct (@token_label_get t (JStr "") Tt eq_refl) as (lbl & Hlbl).
    destruct (optional_dict _ _ _ Tt) as (d & ->).
    eapply returns_lift; [exact Hlbl|].
    eapply returns_check; [reflexivity|].
    eapply returns_lift; [cbn [py_get rbind]; apply and_then_ok|].
    eapply returns_bind with (Q := fun _ => True).
    { match goal with |- returns _ (if ?b then _ else _) => destruct b end.
      - eapply returns_lift; [reflexivity|]. apply returns_require. intros _.
        apply returns_ret. exact I.
      - apply returns_ret. exact I. }
    intros _ _. apply IH. exact Tr.
Qed.

Lemma check_tokens_returns d c :
  optional "equation_template" is_str (JDict d) = true ->
  optional "tokens" (list_of typed_token) (JDict d) = true ->
  returns (fun r => exists ts, snd r = JList ts /\ forallb typed_token ts = true)
          (check_tokens (JDict d) c).
Proof.
  intros Te Tt.
  destruct (@optional_get "tokens" _ (JDict d) (JList []) Tt eq_refl) as (tokens & Htok & Ttok).
  destruct tokens as [| | | |ts|]; try discriminate. simpl in Ttok.
  unfold check_tokens.
  norm_step "equation_template" tmpl Htmpl Te. requires.
  eapply returns_lift; [exact Htok|].
  eapply returns_check; [reflexivity|].
  eapply returns_bind with (Q := fun _ => True).
  { assert (Hany : forall ty lbl, exists b, py_any (token_is ty lbl) ts = Ok b).
    { intros ty lbl. apply py_any_returns. intros t Ht. apply token_is_returns.
      exact (proj1 (forallb_forall _ _) Ttok t Ht). }
    destruct (Hany "var" "p") as (hp & Hp). destruct (Hany "var" (x_var c)) as (hx & Hx).
    eapply returns_lift; [exact Hp|]. eapply returns_lift; [exact Hx|].
    assert (Hm : exists b, py_any (fun t =>
                 and_then (token_is "const" (py_str (slope_m c)) t)
                          (rbind (py_get t "value" JNull)
                                 (fun x => Ok (py_eq x (slope_m c))))) ts = Ok b).
    { apply py_any_returns. intros t Ht.
      pose proof (proj1 (forallb_forall _ _) Ttok t Ht) as T.
      destruct (@token_is_returns "const" (py_str (slope_m c)) t T) as (b & ->).
      destruct (optional_dict _ _ _ T) as (td & ->). cbn [py_get rbind].
      rewrite and_then_ok. eauto. }
    destruct Hm as (hm & Hm). eapply returns_lift; [exact Hm|].
    requires. apply check_token_labels_returns. exact Ttok. }
  intros _ _. apply returns_ret. simpl. eauto.
Qed.

(** *** Section 6 *)

Lemma label_set_returns ts :
  forallb typed_token ts = true ->
  exists s, label_set ts = Ok s.
Proof.
  induction ts as [|t r IH]; intros T; simpl; [eauto|].
  simpl in T. apply andb_true_iff in T. destruct T as [Tt Tr].
  destruct (IH Tr) as (s & ->).
  unfold typed_token in Tt. destruct t; try discriminate. simpl in Tt |- *.
  destruct (lookup "label" d) as [x|]; simpl; [|eauto].
  destruct x; try discriminate; simpl; eauto.
Qed.

Lemma check_answers_returns d c tmpl ts :
  optional "answers" typed_answers (JDict d) = true ->
  forallb typed_token ts = true ->
  returns (fun _ => True) (check_answers (JDict d) c tmpl (JList ts)).
Proof.
  intros Ta Tts.
  destruct (@optional_get "answers" _ (JDict d) (JDict []) Ta eq_refl) as (ans & Hans & Tans).
  unfold typed_answers in Tans. apply andb_true_iff in Tans. destruct Tans as [Tf Tc].
  destruct (@optional_get "valid_fills" _ ans (JList []) Tf eq_refl) as (fills & Hf & Tfills).
  destruct fills as [| | | |fl|]; try discriminate. simpl in Tfills.
  destruct (label_set_returns _ Tts) as (labels & Hl).
  unfold check_answers.
  eapply returns_lift; [exact Hans|]. eapply returns_lift; [exact Hf|].
  norm_step "canonical_str" canon Hcanon Tc.
  eapply returns_check; [reflexivity|].
  eapply returns_lift; [simpl; exact Hl|].
  eapply returns_lift; [reflexivity|].
  eapply returns_bind with (Q := fun _ => True).
  { apply returns_for_each. intros f Hf'.
    pose proof (proj1 (forallb_forall _ _) Tfills f Hf') as T.
    destruct f as [| | | |syms|]; try discriminate. simpl in T.
    eapply returns_check; [reflexivity|].
    eapply returns_lift; [reflexivity|].
    apply returns_for_each. intros sym Hsym.
    pose proof (proj1 (forallb_forall _ _) T sym Hsym) as Ts.
    destruct sym; try discriminate.
    eapply returns_check_end. reflexivity. }
  intros _ _.
  eapply returns_bind with (Q := fun _ => True).
  { apply returns_for_each. intros ex _. eapply returns_check_end. reflexivity. }
  intros _ _. requires. apply returns_ret. exact I.
Qed.

(** *** Section 7 *)

Lemma check_explanation_returns d c m :
  optional "explanation" typed_explanation (JDict d) = true ->
  slope_m c = JInt m ->
  optional "x_unit_label" is_str (ctx c) = true ->
  returns (fun _ => True) (check_explanation (JDict d) c).
Proof.
  intros Te Hm Tl.
  destruct (@optional_get "explanation" _ (JDict d) (JDict []) Te eq_refl) as (ex & Hex & Tex).
  unfold typed_explanation in Tex. apply andb_true_iff in Tex. destruct Tex as [Tq Tt].
  destruct (@optional_get "x_unit_label" is_str (ctx c) (JStr "") Tl eq_refl) as (lab & Hlab & Tlab).
  destruct lab; try discriminate.
  unfold check_explanation.
  eapply returns_lift; [exact Hex|].
  norm_step "equation_str" q Hq Tq. norm_step "text" txt Htxt Tt. requires.
  eapply returns_bind with (Q := fun _ => True).
  { intros errs. unfold lift. rewrite Hlab. simpl. unfold or_else. simpl.
    destruct (contains txt "$"); [eauto|].
    destruct (contains txt (py_str (slope_m c))); eauto. }
  intros rate_ok _. requires. apply returns_ret. exact I.
Qed.

(** *** The whole item *)

Lemma root_keys_report d keys errs :
  for_each keys (fun k => check (py_in k (JDict d)) ("missing key: " ++ k)) errs
  = Ok (tt, (errs ++ map (fun k => ("missing key: " ++ k)%string)
                        (filter (missing (JDict d)) keys))%list).
Proof.
  revert errs. induction keys as [|k r IH]; intros errs; simpl.
  - now rewrite app_nil_r.
  - unfold vbind at 1. unfold check, vbind, lift, require, vret, missing. simpl.
    destruct (lookup k d); simpl.
    + apply IH.
    + rewrite IH, <- app_assoc. reflexivity.
Qed.

Lemma present_keys d :
  filter (missing (JDict d)) REQ_ROOT_KEYS = [] ->
  forall k, In k REQ_ROOT_KEYS -> exists v, lookup k d = Some v.
Proof.
  intros F k Hk. destruct (lookup k d) as [v|] eqn:E; [eauto|].
  assert (Hin : In k (filter (missing (JDict d)) REQ_ROOT_KEYS)).
  { apply filter_In. split; [exact Hk|]. unfold missing. simpl. now rewrite E. }
  rewrite F in Hin. destruct Hin.
Qed.

Lemma optional_at k p d v :
  optional k p (JDict d) = true -> lookup k d = Some v -> p v = true.
Proof. simpl. intros H E. now rewrite E in H. Qed.

Lemma check_sections_returns d :
  well_typed (JDict d) = true ->
  (forall k, In k REQ_ROOT_KEYS -> exists v, lookup k d = Some v) ->
  returns (fun _ => True) (check_sections (JDict d)).
Proof.
  intros T Hkeys. unfold well_typed in T. split_typed T. rename T into Tstem.
  destruct (Hkeys "stem") as (stem & Hstem); [simpl; auto|].
  destruct (Hkeys "table") as (table & Htable); [simpl; auto|].
  destruct (Hkeys "graph") as (graph & Hgraph); [simpl; auto|].
  unfold check_sections.
  eapply returns_bind.
  { apply (check_context_returns _ Hstem). exact (optional_at _ _ _ Tstem Hstem). }
  intros c ((m & Hm) & Tlab).
  eapply returns_bind; [eapply check_table_returns; eauto using optional_at|]. intros _ _.
  eapply returns_bind; [eapply check_graph_returns; eauto using optional_at|]. intros _ _.
  eapply returns_bind; [apply check_tokens_returns; eassumption|].
  intros [tmpl tokens] (ts & Hts & Tts). simpl in Hts. subst tokens. simpl.
  eapply returns_bind; [apply check_answers_returns; eassumption|]. intros _ _.
  eapply check_explanation_returns; eassumption.
Qed.

(** [validate_item] on a typed item. *)
Lemma validate_item_returns item :
  well_typed item = true ->
  exists ok errs, validate_item item = Ok (ok, errs) /\ (ok = true <-> errs = []).
Proof.
  intros T. assert (Hd : exists d, item = JDict d).
  { unfold well_typed in T. split_typed T. eapply optional_dict. exact T. }
  destruct Hd as (d & ->).
  unfold validate_item, check_root_keys. rewrite root_keys_report. cbn [app].
  destruct (filter (missing (JDict d)) REQ_ROOT_KEYS) as [|k0 r0] eqn:F.
  - cbn [map]. destruct (@check_sections_returns d T (present_keys d F) []) as ([] & errs & -> & _).
    exists (length errs =? 0)%nat, errs. split; [reflexivity|].
    destruct errs; simpl; split; intros; congruence.
  - cbn [map]. eexists _, _. split; [reflexivity|]. split; intros; discriminate.
Qed.

(** *** Batches of typed items *)

Lemma typed_key_hashable it name unit m :
  well_typed it = true -> key_of it = Some (name, unit, m) -> hashable unit = true.
Proof.
  intros T. unfold well_typed in T. split_typed T.
  destruct (optional_dict _ _ _ T) as (d & ->).
  unfold key_of, extract_key. cbn [py_getitem].
  destruct (lookup "stem" d) as [stem|] eqn:Hs; [|discriminate].
  pose proof (optional_at _ _ _ T Hs) as Ts.
  unfold typed_stem in Ts. apply andb_true_iff in Ts. destruct Ts as [_ Tc].
  destruct stem as [| | | | |sd]; try discriminate. simpl in Tc. cbn [rbind py_getitem].
  destruct (lookup "context" sd) as [c|] eqn:Hc; [|discriminate].
  unfold typed_context in Tc. split_typed Tc.
  destruct c as [| | | | |cd]; try discriminate. cbn [rbind py_getitem].
  destruct (lookup "item_name" cd) as [n|]; [|discriminate]. cbn [rbind].
  destruct (lower_strip n); [|discriminate]. cbn [rbind].
  destruct (lookup "x_unit" cd) as [u|] eqn:Hu; [|discriminate]. cbn [rbind].
  match goal with H : optional "x_unit" is_str _ = true |- _ =>
    pose proof (optional_at _ _ _ H Hu) as Tu end.
  destruct (lookup "slope_m" cd) as [sm|]; [|discriminate]. cbn [rbind].
  destruct (py_int sm); [|discriminate]. cbn [rbind].
  intros [= _ <- _]. destruct u; try discriminate; reflexivity.
Qed.

Lemma subseq_In {A} (l1 l2 : list A) x : subseq l1 l2 -> In x l1 -> In x l2.
Proof.
  intros H. induction H; simpl; intros Hin; auto.
  destruct Hin; auto.
Qed.

Lemma validate_all_returns items :
  Forall (fun it => well_typed it = true) items ->
  forall passed failed, exists r, validate_all items passed failed = Ok r.
Proof.
  induction 1 as [|it rest T _ IH]; intros passed failed; simpl; [eauto|].
  destruct (@validate_item_returns it T) as (ok & errs & -> & _).
  destruct ok; [apply IH|].
  unfold well_typed in T. split_typed T. destruct (optional_dict _ _ _ T) as (d & ->).
  simpl. apply IH.
Qed.

End TypedItemsFacts.

(** ** Price puzzles: typed items always get a verdict *)

Module TypedItemsProperties.
Import Py WritingEquations Batches BatchFacts ValidatorInputs TypedItems TypedItemsFacts.

(** X28. On an item that is an object and whose fields, where present, have
    the JSON types the validator reads them at (objects for the sections,
    strings for the texts, lists for the ticks, tokens and fills, an integer
    [slope_m] and [amount.value], integer ticks), [validate_item] raises
    nothing: it returns a verdict and a list of violations, and the verdict
    is a pass exactly when the list is empty. *)
Theorem typed_item_gets_verdict item :
  well_typed item = true ->
  exists ok errs, validate_item item = Ok (ok, errs) /\ (ok = true <-> errs = []).
Proof. intros T. exact (@validate_item_returns item T). Qed.

Lemma typed_item_gets_verdict_witness :
  well_typed apples_15 = true /\
  exists ok errs, validate_item apples_15 = Ok (ok, errs) /\ (ok = true <-> errs = []).
Proof.
  assert (T : well_typed apples_15 = true) by (vm_compute; reflexivity).
  split; [exact T|]. exact (@typed_item_gets_verdict apples_15 T).
Defined.

(** X29. A run of the validator on a batch of such typed items always
    completes with a report: neither the de-duplication nor the validation
    of any item nor the failure record raises. *)
Theorem typed_batch_gets_report items :
  Forall (fun it => well_typed it = true) items -> exists r, run_validator items = Ok r.
Proof.
  intros T. unfold run_validator, dedupe_items.
  destruct (dedupe_loop items [] [] 0) as [[kept dropped]|e] eqn:Hd.
  - cbn [rbind fst snd].
    apply dedupe_loop_accounts in Hd. destruct Hd as (l & -> & Hsub & _). simpl.
    destruct (@validate_all_returns l) with (passed := @nil json)
      (failed := @nil (string * list string)) as (r & ->).
    { apply Forall_forall. intros it Hin. apply (proj1 (Forall_forall _ _) T).
      eapply subseq_In; eassumption. }
    simpl. eauto.
  - apply dedupe_loop_raise_cause in Hd. destruct Hd as (_ & it & name & unit & m & Hin & Hk & Hh).
    pose proof (proj1 (Forall_forall _ _) T it Hin) as Tit. simpl in Tit.
    rewrite (@typed_key_hashable it name unit m Tit Hk) in Hh. discriminate.
Qed.

Lemma typed_batch_gets_report_witness :
  Forall (fun it => well_typed it = true) [bananas; apples_15; bananas_again] /\
  exists r, run_validator [bananas; apples_15; bananas_again] = Ok r.
Proof.
  assert (T : Forall (fun it => well_typed it = true) [bananas; apples_15; bananas_again]).
  { repeat constructor; vm_compute; reflexivity. }
  split; [exact T|]. exact (@typed_batch_gets_report _ T).
Defined.

End TypedItemsProperties.
